(** * ESNIKeys and ECHOConfig builders

    A shallow embedding of [esnistuff/mk_esnikeys.c] and [apps/echo.c]:
    the address list ([add2alist]), the AddressSet extension, the
    ESNIKeys structure and its checksum ([esni_checksum_gen]), the zone
    fragment ([fp_esni_prr]), the ECHOConfig structure
    ([mk_echoconfig]) and the command around it ([echo_main]), with a
    reader for the structure and for the text of the zone fragment.

    Bytes are integers in [0, 256).  A C string is the [string] of the
    characters stored at its address; as in C, the first NUL character
    ends it, and the end of the Rocq string stands for the terminating
    NUL. *)

From Stdlib Require Import ZArith List String Ascii Bool Lia DecimalString.
Import ListNotations.

(* ================================================================== *)
(** * Part I: definitions *)
(* ================================================================== *)

(** ** Outcomes *)

(** How a run that does not complete ends.  [mk_esnikeys.c] ends a run
    with [usage()] or [exit()]; the constructor names the message the
    code prints.  [mk_echoconfig] returns a value other than 1.
    [Undefined] is an access outside an object, which C leaves undefined
    and the code does not check. *)
Inductive failure : Type :=
  | CoverNameNotSupported      (* "Version 0xff01 doesn't support Cover name" *)
  | AddressSetNotSupported     (* "Version 0xff01 doesn't support AddressSet" *)
  | NegativeDuration           (* "Can't have negative duration" *)
  | DurationTooLong            (* "Can't have >10 years duration" *)
  | DurationTooShort           (* "Can't have <1 hour duration" *)
  | CoverNameRequired          (* "requires you to specify a cover/public-name" *)
  | CoverNameTooLong           (* "Cover name too long" *)
  | UnsupportedVersion (v : Z) (* "Bad version supplied" *)
  | CantOpenAddressFile        (* "Can't open address file" *)
  | NoCoverNameForLookup       (* "Can't get address as no public-/cover-name supplied." *)
  | ResolverFailed             (* "getaddrinfo failed" *)
  | TooManyAddresses           (* "Too many addresses found (max is 16)" *)
  | AddressParseError          (* "Failed to convert string to IP address" *)
  | OutOfSpace                 (* "Out of space converting string to IP address" *)
  | ExtensionTooLarge          (* "Encoded extensions too big" *)
  | NoMemoryForExtension       (* malloc of [extvals] returned NULL (line 513) *)
  | KeyGenerationFailed (code : Z) (* exit(1) .. exit(6) around the key pair *)
  | DigestUnavailable          (* esni_checksum_gen did not return 1: exit(7) *)
  | CantOpenOutputFile         (* "fopen error" on an output file: exit(7) *)
  | WriteFailed                (* "fwrite error": exit(8) *)
  | Returned (rv : Z)          (* mk_echoconfig returns [rv], which is not 1 *)
  | Undefined.

Inductive result (A : Type) : Type :=
  | Ok (a : A)
  | Fail (f : failure).
Arguments Ok {A} a.
Arguments Fail {A} f.

Definition bind {A B : Type} (r : result A) (k : A -> result B) : result B :=
  match r with
  | Ok a => k a
  | Fail f => Fail f
  end.

Declare Scope result_scope.
Delimit Scope result_scope with result.
Notation "x <- r ;; k" := (bind r (fun x => k))
  (at level 61, r at next level, right associativity) : result_scope.
Notation "'check' b 'else' f ;; k" := (if b then k else Fail f)
  (at level 61, b at next level, f at next level, right associativity) : result_scope.

(** An access that C leaves undefined when the object is too short. *)
Definition defined {A : Type} (o : option A) : result A :=
  match o with
  | Some a => Ok a
  | None => Fail Undefined
  end.

(** ** The C library, as far as the two programs use it *)

Module C.

Definition NUL : ascii := Ascii.zero.

(** The characters of the C string stored in [m]: up to the first NUL. *)
Fixpoint cstr (m : string) : string :=
  match m with
  | EmptyString => EmptyString
  | String c r => if Ascii.eqb c NUL then EmptyString else String c (cstr r)
  end.

Definition strlen (m : string) : nat := String.length (cstr m).

(** [strdup] copies the string, not the memory after its NUL. *)
Definition strdup (m : string) : string := cstr m.

(** The character at the start of [m]; the end of the storage reads as
    the terminating NUL. *)
Definition head_char (m : string) : ascii :=
  match m with
  | EmptyString => NUL
  | String c _ => c
  end.

Definition tail (m : string) : string :=
  match m with
  | EmptyString => EmptyString
  | String _ r => r
  end.

Definition char_code (c : ascii) : Z := Z.of_N (N_of_ascii c).

(** [strncmp(a, b, n)]: compares at most [n] characters and stops at a
    NUL; zero when no difference was met. *)
Fixpoint strncmp (a b : string) (n : nat) : Z :=
  match n with
  | O => 0
  | S n' =>
      let ca := head_char a in
      let cb := head_char b in
      if Ascii.eqb ca cb
      then if Ascii.eqb ca NUL then 0 else strncmp (tail a) (tail b) n'
      else (char_code ca - char_code cb)%Z
  end.

Fixpoint occurs (c : ascii) (s : string) : bool :=
  match s with
  | EmptyString => false
  | String d r => Ascii.eqb d c || occurs c r
  end.

(** [strrchr(m, c) != NULL] for a character [c] other than NUL. *)
Definition strrchr_found (m : string) (c : ascii) : bool := occurs c (cstr m).

(** [m[i]], for [0 <= i <= length m]; index [length m] is the
    terminating NUL, anything else is outside the string's storage. *)
Definition char_at (m : string) (i : Z) : option ascii :=
  if (i <? 0)%Z then None
  else if (Z.of_nat (String.length m) <? i)%Z then None
  else match String.get (Z.to_nat i) m with
       | Some c => Some c
       | None => Some NUL
       end.

Fixpoint set_nth (m : string) (i : nat) (c : ascii) : string :=
  match m, i with
  | EmptyString, _ => EmptyString
  | String _ r, O => String c r
  | String d r, S i' => String d (set_nth r i' c)
  end.

(** [m[i] = c], for an [i] inside the characters of [m]. *)
Definition set_char (m : string) (i : Z) (c : ascii) : option string :=
  if (i <? 0)%Z then None
  else if (i <? Z.of_nat (String.length m))%Z then Some (set_nth m (Z.to_nat i) c)
  else None.

(** Whether the last character of [s] is [c]. *)
Fixpoint ends_with (c : ascii) (s : string) : bool :=
  match s with
  | EmptyString => false
  | String d EmptyString => Ascii.eqb d c
  | String _ r => ends_with c r
  end.

(** The bytes of the characters of [s]. *)
Definition bytes_of (s : string) : list Z :=
  List.map char_code (list_ascii_of_string s).

(** [memcpy(dst + off, src, n)] on arrays given by their contents. *)
Definition memcpy (dst : list Z) (off : nat) (src : list Z) (n : nat)
  : option (list Z) :=
  if (n <=? List.length src)%nat && (off + n <=? List.length dst)%nat
  then Some (firstn off dst ++ firstn n src ++ skipn (off + n) dst)
  else None.

(** [memset(dst + off, c, n)]. *)
Definition memset (dst : list Z) (off : nat) (c : Z) (n : nat)
  : option (list Z) :=
  if (off + n <=? List.length dst)%nat
  then Some (firstn off dst ++ repeat (c mod 256)%Z n ++ skipn (off + n) dst)
  else None.

End C.

(** ** Writing through a moving pointer

    Both builders fill a local array [bbuf] through a pointer [bp] that
    starts at [bbuf] and only moves forward: [*bp++ = v],
    [memcpy(bp, src, n); bp += n], [memset(bp, 0, n); bp += n].  The state
    is the list of the bytes between [bbuf] and [bp]; [bp - bbuf] is its
    length.  A store past the [cap] bytes of the array is undefined, and
    so is a [memcpy] that reads past the end of its source: [None]. *)

Module Writer.

Definition writer : Type := list Z -> option (list Z).

Section WithCapacity.
Variable cap : nat.

(** [*bp++ = v], [v] converted to [unsigned char]. *)
Definition put_u8 (v : Z) : writer := fun w =>
  if (List.length w <? cap)%nat then Some (w ++ [v mod 256]%Z) else None.

(** [memcpy(bp, src, n); bp += n]. *)
Definition put_bytes (src : list Z) (n : nat) : writer := fun w =>
  if (n <=? List.length src)%nat && (List.length w + n <=? cap)%nat
  then Some (w ++ firstn n src)
  else None.

(** [memset(bp, 0, n); bp += n]. *)
Definition put_zeros (n : nat) : writer := fun w =>
  if (List.length w + n <=? cap)%nat then Some (w ++ repeat 0%Z n) else None.

End WithCapacity.

Definition skip : writer := fun w => Some w.

Definition seq (a b : writer) : writer := fun w =>
  match a w with
  | Some w' => b w'
  | None => None
  end.

(** What a writer does, in one sentence: from a state inside the array,
    [W] appends [bytes] when [ok] holds and they fit, and is undefined
    otherwise. *)
Definition emits (cap : nat) (W : writer) (ok : bool) (bytes : list Z) : Prop :=
  forall w, (List.length w <= cap)%nat ->
    W w = if ok && (List.length w + List.length bytes <=? cap)%nat
          then Some (w ++ bytes) else None.

End Writer.

Declare Scope writer_scope.
Delimit Scope writer_scope with writer.
Infix ";;" := Writer.seq (at level 61, right associativity) : writer_scope.

(** C's [%] truncates towards zero, [>>] is [Z.shiftr]. *)
Infix "%%" := Z.rem (at level 40, left associativity) : Z_scope.
Infix ">>" := Z.shiftr (at level 30, no associativity) : Z_scope.

(** ** Text output: what [fprintf] writes for the formats in use *)

Module Text.

Definition LF : ascii := ascii_of_nat 10.
Definition SP : ascii := " "%char.

Fixpoint spaces (n : nat) : string :=
  match n with
  | O => EmptyString
  | S n' => String SP (spaces n')
  end.

(** ["%d"] and ["%ld"]. *)
Definition dec (z : Z) : string := NilZero.string_of_int (Z.to_int z).

Definition hex_digit (d : Z) : ascii :=
  match Z.to_nat d with
  | 0 => "0" | 1 => "1" | 2 => "2" | 3 => "3" | 4 => "4" | 5 => "5"
  | 6 => "6" | 7 => "7" | 8 => "8" | 9 => "9" | 10 => "a" | 11 => "b"
  | 12 => "c" | 13 => "d" | 14 => "e" | _ => "f"
  end%char%nat.

(** ["%02x"] of an [unsigned char]. *)
Definition hex2 (b : Z) : string :=
  String (hex_digit (b / 16)) (String (hex_digit (b mod 16)) EmptyString).

End Text.

(** ** [esnistuff/mk_esnikeys.c] *)

Module Esni.

Local Open Scope string_scope.
Local Open Scope Z_scope.

Definition MAX_ESNIKEYS_BUFLEN : nat := 1024.
Definition MAX_ESNI_COVER_NAME : Z := 254.
Definition MAX_ESNI_ADDRS : nat := 16.

(** *** [fp_esni_prr]: the zone fragment *)

(** The loop of the folded branch, from index [i] on: a new line with the
    padding and eighteen more spaces before every sixteenth byte,
    otherwise a space before every second byte. *)
Fixpoint prr_folded (padding : string) (buf : list Z) (i : nat) : string :=
  match buf with
  | [] => ""
  | b :: rest =>
      (if (i mod 16 =? 0)%nat
       then String Text.LF padding ++ "                  "
       else if (i mod 2 =? 0)%nat then " " else "")
      ++ Text.hex2 b ++ prr_folded padding rest (S i)
  end.

Fixpoint prr_unfolded (buf : list Z) : string :=
  match buf with
  | [] => ""
  | b :: rest => Text.hex2 b ++ prr_unfolded rest
  end.

(** The text [fp_esni_prr] writes to [fp]; [buf] is never [NULL] at its
    call.  [padding] has [1 + MAX_ESNI_COVER_NAME] characters. *)
Definition fp_esni_prr (buf : list Z) (typecode : Z) (owner_name : string)
  : result string :=
  let blen := Z.of_nat (List.length buf) in
  if 16 <? blen then
    if Z.of_nat (C.strlen owner_name) <=? MAX_ESNI_COVER_NAME then
      let padding := Text.spaces (C.strlen owner_name) in
      Ok (C.cstr owner_name ++ ". IN TYPE" ++ Text.dec typecode ++ " \# "
          ++ Text.dec blen ++ " ("
          ++ prr_folded padding buf 0
          ++ " )" ++ String Text.LF "")
    else Fail Undefined
  else
    Ok (C.cstr owner_name ++ ". IN TYPE" ++ Text.dec typecode ++ " \# "
        ++ Text.dec blen ++ " "
        ++ prr_unfolded buf
        ++ String Text.LF "").

(** *** [esni_checksum_gen] *)

(** [OPENSSL_malloc n] says whether the allocation of [n] bytes returns
    a pointer other than [NULL].  [SHA256] is the digest provider
    ([SHA256_Init], [SHA256_Update], [SHA256_Final]); [None] when one of
    the three calls fails.  The function returns 1 with [cksum] set
    ([Ok]) or 0 ([Fail DigestUnavailable]): when the allocation or the
    digest fails.  [md] is what the provider stored in its array. *)
Definition esni_checksum_gen (OPENSSL_malloc : nat -> bool)
    (SHA256 : list Z -> option (list Z)) (buf : list Z) : result (list Z) :=
  (check OPENSSL_malloc (List.length buf) else DigestUnavailable ;;
   buf_zeros <- defined (C.memset buf 2 0 4) ;;
   match SHA256 buf_zeros with
   | None => Fail DigestUnavailable
   | Some md => defined (C.memcpy [0; 0; 0; 0] 0 md 4)
   end)%result.

(** *** [verstr2us] *)

(** [lv] is what [strtol(arg, NULL, 0)] returned. *)
Definition verstr2us (lv : Z) : Z :=
  if (lv <? 0xffff) && (0 <? lv) then lv mod 65536 else 0.

(** *** [add2alist] *)

(** [ips] holds the entries [ips[0] .. ips[nips - 1]]. *)
Fixpoint found (ips : list string) (line : string) : bool :=
  match ips with
  | [] => false
  | ip :: rest =>
      if C.strncmp ip line (C.strlen line) =? 0 then true else found rest line
  end.

(** The value returned (0 added, 1 already present) and the list after
    the call; both arguments are non-null at every call. *)
Definition add2alist (ips : list string) (line : string)
  : result (Z * list string) :=
  let nips := List.length ips in
  if (nips =? 0)%nat then Ok (0, [C.strdup line])
  else if found ips line then Ok (1, ips)
  else if (nips =? MAX_ESNI_ADDRS)%nat then Fail TooManyAddresses
  else Ok (0, (ips ++ [C.strdup line])%list).

(** The loop over the results of the resolver: every address string goes
    through [add2alist]. *)
Fixpoint add_all (astrs : list string) (ips : list string)
  : result (list string) :=
  match astrs with
  | [] => Ok ips
  | astr :: rest =>
      (r <- add2alist ips astr ;; add_all rest (snd r))%result
  end.

(** No address of [astrs] is the start of an entry of [seen] or of an
    address before it in [astrs]: the lists on which [strncmp] over
    [strlen(line)] and string equality decide alike. *)
Fixpoint no_start_of_earlier (seen astrs : list string) : bool :=
  match astrs with
  | [] => true
  | astr :: rest =>
      negb (existsb (fun ip => String.prefix (C.cstr astr) (C.cstr ip)) seen)
      && no_start_of_earlier (seen ++ [C.strdup astr])%list rest
  end.

(** The loop over the lines of the address file, each as [getline]
    returns it: a line that starts with [#] is skipped, the last
    character (the newline) is overwritten with NUL. *)
Fixpoint add_lines (lines : list string) (ips : list string)
  : result (list string) :=
  match lines with
  | [] => Ok ips
  | line :: rest =>
      if Ascii.eqb (C.head_char line) "#"%char then add_lines rest ips
      else
        (line' <- defined (C.set_char line (Z.of_nat (String.length line) - 1) C.NUL) ;;
         r <- add2alist ips line' ;;
         add_lines rest (snd r))%result
  end.

(** *** The AddressSet extension (lines 463-530) *)

Inductive family : Type := AF_INET | AF_INET6.

Definition u8 (v : Z) : Z := v mod 256.

(** The loop that fills [tmpebuf] through [tp]: it is IPv6 if it has a
    [:], otherwise IPv4.  [inet_pton af s] is the address the C library
    parses from [s] ([None] when it does not return 1). *)
Fixpoint addrs_loop (inet_pton : family -> string -> option (list Z))
    (ips : list string) (tmpebuf : list Z) : result (list Z) :=
  match ips with
  | [] => Ok tmpebuf
  | ip :: rest =>
      (t <- (if C.strrchr_found ip ":"%char then
               t1 <- defined (Writer.put_u8 MAX_ESNIKEYS_BUFLEN 0x06 tmpebuf) ;;
               match inet_pton AF_INET6 ip with
               | None => Fail AddressParseError
               | Some a => defined (Writer.put_bytes MAX_ESNIKEYS_BUFLEN a 16 t1)
               end
             else
               t1 <- defined (Writer.put_u8 MAX_ESNIKEYS_BUFLEN 0x04 tmpebuf) ;;
               match inet_pton AF_INET ip with
               | None => Fail AddressParseError
               | Some a => defined (Writer.put_bytes MAX_ESNIKEYS_BUFLEN a 4 t1)
               end) ;;
       check (Z.of_nat (List.length t) <=? Z.of_nat MAX_ESNIKEYS_BUFLEN - 100)
         else OutOfSpace ;;
       addrs_loop inet_pton rest t)%result
  end.

(** [extvals], of [extlen = nelen + 6] bytes, from the [nelen] bytes of
    [tmpebuf]. *)
Definition addrset_extvals (tmpebuf : list Z) : result (list Z) :=
  let nelen := Z.of_nat (List.length tmpebuf) in
  let exttype := 0x1001 in
  (check (nelen <=? 0xffff) else ExtensionTooLarge ;;
   Ok ([ u8 (((nelen + 4) >> 8) %% 256); u8 ((nelen + 3) %% 256);
         u8 ((exttype >> 8) %% 256); u8 (exttype %% 256);
         u8 ((nelen >> 8) %% 256); u8 (nelen %% 256) ] ++ tmpebuf)%list)%result.

(** *** The ESNIKeys structure (lines 648-691) *)

(** [extlen] is zero when there is no extension, and then [extvals] is
    not read. *)
Definition esnikeys_body (ekversion cnlen : Z) (cover_name public : list Z)
    (nb na : Z) (extlen : Z) (extvals : list Z) : Writer.writer :=
  let put := Writer.put_u8 MAX_ESNIKEYS_BUFLEN in
  let copy := Writer.put_bytes MAX_ESNIKEYS_BUFLEN in
  let zeros := Writer.put_zeros MAX_ESNIKEYS_BUFLEN in
  (put ((ekversion >> 8) %% 256) ;;
   put (ekversion %% 256) ;;
   zeros 4%nat ;;
   (if ekversion =? 0xff02
    then put ((cnlen >> 8) %% 256) ;;
         put (cnlen %% 256) ;;
         copy cover_name (Z.to_nat cnlen)
    else Writer.skip) ;;
   put 0x00 ;;
   put 0x24 ;;
   put 0x00 ;;
   put 0x1d ;;
   put 0x00 ;;
   put 0x20 ;;
   copy public 32%nat ;;
   put 0x00 ;;
   put 0x02 ;;
   put 0x13 ;;
   put 0x01 ;;
   put 0x01 ;;
   put 0x04 ;;
   zeros 4%nat ;;
   put ((nb >> 24) %% 256) ;;
   put ((nb >> 16) %% 256) ;;
   put ((nb >> 8) %% 256) ;;
   put (nb %% 256) ;;
   zeros 4%nat ;;
   put ((na >> 24) %% 256) ;;
   put ((na >> 16) %% 256) ;;
   put ((na >> 8) %% 256) ;;
   put (na %% 256) ;;
   (if extlen =? 0
    then put 0x00 ;; put 0x00
    else copy extvals (Z.to_nat extlen)))%writer.

(** The same bytes, field by field in the words of the comment at lines
    617-630: what [esnikeys_body] stores when every [memcpy] reads
    inside its source ([esnikeys_reads]) and the array has room. *)
Definition esnikeys_bytes (ekversion cnlen : Z) (cover_name public : list Z)
    (nb na : Z) (extlen : Z) (extvals : list Z) : list Z :=
  ([u8 ((ekversion >> 8) %% 256); u8 (ekversion %% 256)]        (* version *)
   ++ [0; 0; 0; 0]                                              (* checksum *)
   ++ (if ekversion =? 0xff02                                   (* public_name *)
       then [u8 ((cnlen >> 8) %% 256); u8 (cnlen %% 256)]
            ++ firstn (Z.to_nat cnlen) cover_name
       else [])
   ++ [0x00; 0x24; 0x00; 0x1d; 0x00; 0x20] ++ firstn 32 public  (* keys *)
   ++ [0x00; 0x02; 0x13; 0x01]                                  (* cipher_suites *)
   ++ [0x01; 0x04]                                              (* padded_length *)
   ++ [0; 0; 0; 0]                                              (* not_before *)
   ++ [u8 ((nb >> 24) %% 256); u8 ((nb >> 16) %% 256);
       u8 ((nb >> 8) %% 256); u8 (nb %% 256)]
   ++ [0; 0; 0; 0]                                              (* not_after *)
   ++ [u8 ((na >> 24) %% 256); u8 ((na >> 16) %% 256);
       u8 ((na >> 8) %% 256); u8 (na %% 256)]
   ++ (if extlen =? 0 then [0x00; 0x00]                         (* extensions *)
       else firstn (Z.to_nat extlen) extvals))%list.

Definition esnikeys_reads (ekversion cnlen : Z) (cover_name public : list Z)
    (extlen : Z) (extvals : list Z) : bool :=
  (if ekversion =? 0xff02
   then (Z.to_nat cnlen <=? List.length cover_name)%nat else true)
  && (32 <=? List.length public)%nat
  && (if extlen =? 0 then true
      else (Z.to_nat extlen <=? List.length extvals)%nat).

(** *** [mk_esnikeys] *)

(** The command line after [getopt]. *)
Record options : Type := {
  pubfname : option string;
  privfname : option string;
  fragfname : option string;
  ekversion : Z;
  cover_name : option string;
  includeaddrset : bool;
  asetfname : option string;
  duration : Z
}.

Definition default_options : options := {|
  pubfname := None; privfname := None; fragfname := None;
  ekversion := 0xff01; cover_name := None;
  includeaddrset := false; asetfname := None;
  duration := 60 * 60 * 24 * 7
|}.

(** What the program takes from outside itself. *)
Record world : Type := {
  (** the constant of [openssl/esni.h] *)
  ESNI_RRTYPE : Z;
  (** [time(0)] *)
  clock : Z;
  (** the lines [getline] reads from the named file, [None] when
      [fopen] fails *)
  address_file : string -> option (list string);
  (** [getaddrinfo] on a name and [inet_ntop] on each result, [None]
      when [getaddrinfo] fails *)
  resolve : string -> option (list string);
  inet_pton : family -> string -> option (list Z);
  (** whether [malloc] of that many bytes returns a pointer *)
  malloc : nat -> bool;
  (** lines 532-603: the key pair read from or written to the named
      private key file, and its [EVP_PKEY_get1_tls_encodedpoint] *)
  encodedpoint : string -> result (list Z);
  (** whether [OPENSSL_malloc] of that many bytes returns a pointer *)
  OPENSSL_malloc : nat -> bool;
  SHA256 : list Z -> option (list Z);
  (** whether [fopen] of the named file for writing returns a stream *)
  fopen_w : string -> bool;
  (** the number of bytes [fwrite] reports for the bytes given to it,
      on the stream of the named file *)
  fwrite : string -> list Z -> nat
}.

(** What the program leaves behind: the bytes written to [pubfname] and,
    for 0xff02, the text written to [fragfname]. *)
Record output : Type := {
  esnikeys : list Z;
  zonefrag : option string
}.

Definition maxduration : Z := 60 * 60 * 24 * 7 * 52 * 10.
Definition minduration : Z := 3600.

(** The [switch] on the version (lines 377-397): [cnlen] and the storage
    of [cover_name] afterwards ([""] stands for [NULL], which is then
    not read). *)
Definition check_version (o : options) : result (Z * string) :=
  if ekversion o =? 0xff01 then Ok (0, "")
  else if ekversion o =? 0xff02 then
    match cover_name o with
    | None => Fail CoverNameRequired
    | Some name =>
        let cnlen := Z.of_nat (C.strlen name) in
        (check (cnlen <=? MAX_ESNI_COVER_NAME) else CoverNameTooLong ;;
         c <- defined (C.char_at name (cnlen - 1)) ;;
         if Ascii.eqb c "."%char
         then name' <- defined (C.set_char name (cnlen - 1) C.NUL) ;;
              Ok (cnlen, name')
         else Ok (cnlen, name))%result
    end
  else Fail (UnsupportedVersion (ekversion o)).

(** Lines 400-530: [extlen] and [extvals].  The bytes of [extvals] are
    those of [addrset_extvals]; they are stored once [malloc] has
    returned the memory for them (lines 512-516). *)
Definition address_set (w : world) (o : options) (cnlen : Z)
    (cover_name : string) : result (Z * list Z) :=
  if (ekversion o =? 0xff02) && includeaddrset o then
    (ips <- match asetfname o with
            | Some fname =>
                match address_file w fname with
                | None => Fail CantOpenAddressFile
                | Some lines => add_lines lines []
                end
            | None =>
                check negb (cnlen =? 0) else NoCoverNameForLookup ;;
                match resolve w (C.cstr cover_name) with
                | None => Fail ResolverFailed
                | Some astrs => add_all astrs []
                end
            end ;;
     tmpebuf <- addrs_loop (inet_pton w) ips [] ;;
     extvals <- addrset_extvals tmpebuf ;;
     check malloc w (6 + List.length tmpebuf) else NoMemoryForExtension ;;
     Ok (Z.of_nat (List.length tmpebuf) + 6, extvals))%result
  else Ok (0, []).

(** [privfname], or its default. *)
Definition private_key_file (o : options) : string :=
  match privfname o with
  | Some f => f
  | None => "esnikeys.priv"
  end.

(** [pubfname] and [fragfname], or their defaults (lines 703-705 and
    720-722). *)
Definition public_key_file (o : options) : string :=
  match pubfname o with
  | Some f => f
  | None => "esnikeys.pub"
  end.

Definition fragment_file (o : options) : string :=
  match fragfname o with
  | Some f => f
  | None => "zonedata.fragment"
  end.

(** The run.  After the checksum is in place the structure goes to the
    public key file: [fopen], exit 7 when it fails, [fwrite], exit 8
    when it reports another number of bytes (lines 703-715).  For 0xff02
    the record is first printed by [so_esni_prr], which fills the same
    padding array and runs the same loops as [fp_esni_prr], so what is
    undefined in one is undefined in the other and comes before the
    [fopen] of the fragment file; then that file is opened, exit 7 when
    it fails, and [fp_esni_prr] writes the record to it (lines
    717-730). *)
Definition mk_esnikeys (w : world) (o : options) : result output :=
  (check negb ((ekversion o =? 0xff01)
               && match cover_name o with Some _ => true | None => false end)
     else CoverNameNotSupported ;;
   check negb ((ekversion o =? 0xff01) && includeaddrset o)
     else AddressSetNotSupported ;;
   check negb (duration o <=? 0) else NegativeDuration ;;
   check negb (duration o >=? maxduration) else DurationTooLong ;;
   check negb (duration o <? minduration) else DurationTooShort ;;
   cn <- check_version o ;;
   let cnlen := fst cn in
   let cover_name := snd cn in
   ext <- address_set w o cnlen cover_name ;;
   let extlen := fst ext in
   let extvals := snd ext in
   public <- encodedpoint w (private_key_file o) ;;
   check negb (List.length public =? 0)%nat else KeyGenerationFailed 4 ;;
   let nb := clock w - 1 in
   let na := nb + duration o in
   bbuf <- defined (esnikeys_body (ekversion o) cnlen (C.bytes_of cover_name)
                      public nb na extlen extvals []) ;;
   cksum <- esni_checksum_gen (OPENSSL_malloc w) (SHA256 w) bbuf ;;
   bbuf <- defined (C.memcpy bbuf 2 cksum 4) ;;
   check fopen_w w (public_key_file o) else CantOpenOutputFile ;;
   check (fwrite w (public_key_file o) bbuf =? List.length bbuf)%nat
     else WriteFailed ;;
   if ekversion o =? 0xff02
   then frag <- fp_esni_prr bbuf (ESNI_RRTYPE w) cover_name ;;
        check fopen_w w (fragment_file o) else CantOpenOutputFile ;;
        Ok {| esnikeys := bbuf; zonefrag := Some frag |}
   else Ok {| esnikeys := bbuf; zonefrag := None |})%result.

End Esni.

(** ** [apps/echo.c] *)

Module Echo.

Local Open Scope string_scope.
Local Open Scope Z_scope.

(** What [hpke_kg] leaves behind: its return value, the contents of the
    array [pub] and of [priv], and the two lengths. *)
Record hpke_keys : Type := {
  kg_rv : Z;
  kg_pub : list Z;
  kg_publen : Z;
  kg_priv : list Z;
  kg_privlen : Z
}.

(** The constants and library functions [echo.c] takes from
    [openssl/echo.h], [crypto/hpke.h] and [openssl/evp.h]. *)
Record platform : Type := {
  MAX_ECHOCONFIGS_BUFLEN : nat;
  HPKE_KEM_ID_25519 : Z;
  (** the characters [EVP_EncodeBlock] produces, without the NUL it
      writes after them; its return value is their number *)
  EVP_EncodeBlock : list Z -> list Z;
  (** [hpke_kg] in mode [HPKE_MODE_BASE] with [HPKE_SUITE_DEFAULT] *)
  hpke_kg : hpke_keys
}.

(** [size_t] has 64 bits. *)
Definition size_t (v : Z) : Z := v mod 2 ^ 64.

(** The stores through [bp] up to the padded length (lines 136-165). *)
Definition echoconfig_body (p : platform) (ekversion pnlen : Z)
    (public_name pub : list Z) : Writer.writer :=
  let put := Writer.put_u8 (MAX_ECHOCONFIGS_BUFLEN p) in
  let copy := Writer.put_bytes (MAX_ECHOCONFIGS_BUFLEN p) in
  let zeros := Writer.put_zeros (MAX_ECHOCONFIGS_BUFLEN p) in
  (put ((ekversion >> 8) %% 256) ;;
   put (ekversion %% 256) ;;
   (if (ekversion =? 0xff01) || (ekversion =? 0xff02)
    then zeros 4%nat
    else Writer.skip) ;;
   (if (0 <? pnlen) && ((ekversion =? 0xff02) || (ekversion =? 0xff03))
    then put ((pnlen >> 8) %% 256) ;;
         put (pnlen %% 256) ;;
         copy public_name (Z.to_nat pnlen)
    else Writer.skip) ;;
   put 0x00 ;;
   put 0x24 ;;
   put 0x00 ;;
   put 0x1d ;;
   put 0x00 ;;
   put 0x20 ;;
   copy pub 32%nat ;;
   put (Z.quot (HPKE_KEM_ID_25519 p) 16) ;;
   put (HPKE_KEM_ID_25519 p %% 16) ;;
   put 0x00 ;;
   put 0x02 ;;
   put 0x13 ;;
   put 0x01 ;;
   put 0x01 ;;
   put 0x04)%writer.

(** The same bytes, field by field in the words of the comment at lines
    107-131: what [echoconfig_body] stores when every [memcpy] reads
    inside its source ([echoconfig_reads]) and the array has room. *)
Definition echoconfig_bytes (p : platform) (ekversion pnlen : Z)
    (public_name pub : list Z) : list Z :=
  ([Esni.u8 ((ekversion >> 8) %% 256); Esni.u8 (ekversion %% 256)] (* version *)
   ++ (if (ekversion =? 0xff01) || (ekversion =? 0xff02)           (* checksum *)
       then [0; 0; 0; 0] else [])
   ++ (if (0 <? pnlen) && ((ekversion =? 0xff02) || (ekversion =? 0xff03))
       then [Esni.u8 ((pnlen >> 8) %% 256); Esni.u8 (pnlen %% 256)] (* public_name *)
            ++ firstn (Z.to_nat pnlen) public_name
       else [])
   ++ [0x00; 0x24; 0x00; 0x1d; 0x00; 0x20] ++ firstn 32 pub        (* public_key *)
   ++ [Esni.u8 (Z.quot (HPKE_KEM_ID_25519 p) 16);                  (* kem_id *)
       Esni.u8 (HPKE_KEM_ID_25519 p %% 16)]
   ++ [0x00; 0x02; 0x13; 0x01]                                     (* cipher_suites *)
   ++ [0x01; 0x04])%list.                                (* maximum_name_length *)

Definition echoconfig_reads (ekversion pnlen : Z) (public_name pub : list Z)
  : bool :=
  (if (0 <? pnlen) && ((ekversion =? 0xff02) || (ekversion =? 0xff03))
   then (Z.to_nat pnlen <=? List.length public_name)%nat else true)
  && (32 <=? List.length pub)%nat.

(** [public_name == NULL ? 0 : strlen(public_name)]. *)
Definition name_length (public_name : option string) : Z :=
  match public_name with
  | None => 0
  | Some name => Z.of_nat (C.strlen name)
  end.

(** The bytes at [public_name]; none are read when it is [NULL]. *)
Definition name_storage (public_name : option string) : list Z :=
  match public_name with
  | None => []
  | Some name => C.bytes_of name
  end.

(** The characters of the C string [public_name]; none for [NULL]. *)
Definition name_bytes (public_name : option string) : list Z :=
  match public_name with
  | None => []
  | Some name => C.bytes_of (C.cstr name)
  end.

(** The binary structure: [bbuf], of [bblen] bytes (lines 77-177).
    [priv_null] says that [priv] is [NULL]. *)
Definition echoconfig_binary (p : platform) (ekversion : Z)
    (public_name : option string) (priv_null : bool) : result (list Z) :=
  (pnlen <- (if (ekversion =? 0xff01) || (ekversion =? 0xff02) then Fail (Returned 0)
             else if ekversion =? 0xff03 then Ok (name_length public_name)
             else Fail (Returned 0)) ;;
   let extlen := 0 in
   let extvals : option (list Z) := None in
   check negb priv_null else Returned 95 ;;
   let kg := hpke_kg p in
   check (kg_rv kg =? 1) else Returned 104 ;;
   bbuf <- defined
     (echoconfig_body p ekversion pnlen (name_storage public_name)
        (kg_pub kg) []) ;;
   if extlen =? 0
   then defined ((Writer.put_u8 (MAX_ECHOCONFIGS_BUFLEN p) 0x00 ;;
                  Writer.put_u8 (MAX_ECHOCONFIGS_BUFLEN p) 0x00)%writer bbuf)
   else match extvals with
        | None => Fail (Returned 171)
        | Some ev =>
            defined (Writer.put_bytes (MAX_ECHOCONFIGS_BUFLEN p) ev
                       (Z.to_nat extlen) bbuf)
        end)%result.

(** What a successful call leaves behind: the characters stored at
    [echoconfig], [*echoconfig_len], and the private key. *)
Record output : Type := {
  echoconfig : list Z;
  echoconfig_len : Z;
  priv : list Z;
  privlen : Z
}.

(** [mk_echoconfig]: [size] is the number of bytes of the array
    [echoconfig] points to, [len] the value of [*echoconfig_len] at the
    call ([echo_main] passes [MAX_ECHOCONFIGS_BUFLEN] for both).
    [EVP_EncodeBlock] stores its characters and a NUL before the length
    is compared. *)
Definition mk_echoconfig (p : platform) (ekversion : Z)
    (public_name : option string) (size : nat) (len : Z) (priv_null : bool)
  : result output :=
  (bbuf <- echoconfig_binary p ekversion public_name priv_null ;;
   let encoded := EVP_EncodeBlock p bbuf in
   let b64len := Z.of_nat (List.length encoded) in
   stored <- defined (C.memcpy (repeat 0 size) 0 (encoded ++ [0])%list
                        (List.length encoded + 1)) ;;
   check negb (size_t b64len >=? size_t (len - 1)) else Returned 181 ;;
   Ok {| echoconfig := firstn (List.length encoded + 1) stored;
         echoconfig_len := b64len;
         priv := kg_priv (hpke_kg p);
         privlen := kg_privlen (hpke_kg p) |})%result.

End Echo.

(** ** The digest provider

    [SHA256_Init], [SHA256_Update] and [SHA256_Final] are OpenSSL's,
    outside the two files.  The builders take their digest provider as
    an argument; SHA-256 itself is here for running them on concrete
    inputs. *)

Module SHA2.

Local Open Scope Z_scope.

Definition w32 (x : Z) : Z := x mod 2 ^ 32.

Definition rotr (n x : Z) : Z := Z.lor (x >> n) (w32 (Z.shiftl x (32 - n))).

Definition Ch (x y z : Z) : Z := Z.lxor z (Z.land x (Z.lxor y z)).
Definition Maj (x y z : Z) : Z :=
  Z.lxor (Z.lxor (Z.land x y) (Z.land x z)) (Z.land y z).
Definition Sigma0 (x : Z) : Z := Z.lxor (Z.lxor (rotr 2 x) (rotr 13 x)) (rotr 22 x).
Definition Sigma1 (x : Z) : Z := Z.lxor (Z.lxor (rotr 6 x) (rotr 11 x)) (rotr 25 x).
Definition sigma0 (x : Z) : Z := Z.lxor (Z.lxor (rotr 7 x) (rotr 18 x)) (x >> 3).
Definition sigma1 (x : Z) : Z := Z.lxor (Z.lxor (rotr 17 x) (rotr 19 x)) (x >> 10).

Definition primes : list Z :=
  [2; 3; 5; 7; 11; 13; 17; 19; 23; 29; 31; 37; 41; 43; 47; 53; 59; 61; 67;
   71; 73; 79; 83; 89; 97; 101; 103; 107; 109; 113; 127; 131; 137; 139;
   149; 151; 157; 163; 167; 173; 179; 181; 191; 193; 197; 199; 211; 223;
   227; 229; 233; 239; 241; 251; 257; 263; 269; 271; 277; 281; 283; 293;
   307; 311].

(** The integer cube root below [2 ^ bits], bit by bit. *)
Fixpoint cube_root (bits : nat) (n r : Z) : Z :=
  match bits with
  | O => r
  | S b =>
      let r' := r + 2 ^ Z.of_nat b in
      cube_root b n (if r' * r' * r' <=? n then r' else r)
  end.

(** The round constants: the first 32 bits of the fractional parts of
    the cube roots of the first 64 primes. *)
Definition K : list Z :=
  Eval vm_compute in List.map (fun p => w32 (cube_root 36 (p * 2 ^ 96) 0)) primes.

(** The initial hash value: the same of the square roots of the first 8
    primes. *)
Definition H0 : list Z :=
  Eval vm_compute in List.map (fun p => w32 (Z.sqrt (p * 2 ^ 64))) (firstn 8 primes).

Definition be32 (x : Z) : list Z :=
  [(x >> 24) mod 256; (x >> 16) mod 256; (x >> 8) mod 256; x mod 256].

Definition be64 (x : Z) : list Z := (be32 (x >> 32) ++ be32 (w32 x))%list.

Definition pad (msg : list Z) : list Z :=
  let len := Z.of_nat (List.length msg) in
  (msg ++ [0x80] ++ repeat 0 (Z.to_nat ((55 - len) mod 64)) ++ be64 (8 * len))%list.

Fixpoint words (n : nat) (bytes : list Z) : list Z :=
  match n, bytes with
  | S n', a :: b :: c :: d :: rest =>
      (Z.shiftl a 24 + Z.shiftl b 16 + Z.shiftl c 8 + d) :: words n' rest
  | _, _ => []
  end.

(** [w] holds [W_0 .. W_(t-1)], latest first; [n] more are added. *)
Fixpoint schedule (n : nat) (w : list Z) : list Z :=
  match n with
  | O => w
  | S n' =>
      schedule n'
        (w32 (sigma1 (nth 1 w 0) + nth 6 w 0 + sigma0 (nth 14 w 0) + nth 15 w 0) :: w)
  end.

Definition round (s : list Z) (kw : Z * Z) : list Z :=
  match s with
  | [a; b; c; d; e; f; g; h] =>
      let t1 := h + Sigma1 e + Ch e f g + fst kw + snd kw in
      let t2 := Sigma0 a + Maj a b c in
      [w32 (t1 + t2); a; b; c; w32 (d + t1); e; f; g]
  | _ => s
  end.

Definition compress (H : list Z) (block : list Z) : list Z :=
  let W := rev (schedule 48 (rev (words 16 block))) in
  List.map (fun xy => w32 (fst xy + snd xy))
    (combine H (fold_left round (combine K W) H)).

Fixpoint blocks (n : nat) (bytes : list Z) : list (list Z) :=
  match n with
  | O => []
  | S n' => firstn 64 bytes :: blocks n' (skipn 64 bytes)
  end.

(** Modelled from the spec: the digest provider
    [sha256(bytes) -> [32]byte] behind [SHA256_Init], [SHA256_Update] and
    [SHA256_Final], as FIPS 180-4 defines SHA-256. *)
Definition sha256 (msg : list Z) : list Z :=
  let p := pad msg in
  flat_map be32 (fold_left compress (blocks (List.length p / 64) p) H0).

End SHA2.

(** ** The Base64 provider

    [EVP_EncodeBlock] is OpenSSL's, outside the two files.
    [mk_echoconfig] takes it from its platform; Base64 itself is here
    for running it on concrete inputs. *)

Module Base64.

Local Open Scope Z_scope.

Definition digit (v : Z) : Z :=
  if v <? 26 then 65 + v
  else if v <? 52 then 97 + (v - 26)
  else if v <? 62 then 48 + (v - 52)
  else if v =? 62 then 43 else 47.

(** Modelled from the spec: the standard Base64 encoder behind
    [EVP_EncodeBlock], as RFC 4648 defines it, with padding and without
    line breaks, on character codes. *)
Fixpoint encode (bytes : list Z) : list Z :=
  match bytes with
  | [] => []
  | [a] => [digit (a / 4); digit (a mod 4 * 16); 61; 61]
  | [a; b] =>
      [digit (a / 4); digit (a mod 4 * 16 + b / 16); digit (b mod 16 * 4); 61]
  | a :: b :: c :: rest =>
      digit (a / 4) :: digit (a mod 4 * 16 + b / 16)
        :: digit (b mod 16 * 4 + c / 64) :: digit (c mod 64) :: encode rest
  end.

End Base64.

(** ** Reading the structures back

    The programs only write; these readers state what a consumer of the
    wire format finds. *)

Module Wire.

Local Open Scope Z_scope.

(** The four checksum bytes, at offset 2. *)
Definition checksum_field (b : list Z) : list Z := firstn 4 (skipn 2 b).

(** The structure with its checksum bytes replaced by zeros. *)
Definition zero_checksum (b : list Z) : list Z :=
  (firstn 2 b ++ [0; 0; 0; 0] ++ skipn 6 b)%list.

Definition u16be (n : Z) : list Z := [(n / 256) mod 256; n mod 256].

(** A field with a 2-byte big-endian length in front. *)
Definition length_prefixed (bytes : list Z) : list Z :=
  (u16be (Z.of_nat (List.length bytes)) ++ bytes)%list.

(** Reads a length-prefixed field at offset [off]. *)
Definition read_length_prefixed (off : nat) (b : list Z) : option (list Z) :=
  match skipn off b with
  | hi :: lo :: rest =>
      let n := Z.to_nat (hi * 256 + lo) in
      if (n <=? List.length rest)%nat then Some (firstn n rest) else None
  | _ => None
  end.

(** The key share entry of a 32-byte X25519 key. *)
Definition key_share_entry (key : list Z) : list Z :=
  ([0x00; 0x24; 0x00; 0x1d; 0x00; 0x20] ++ firstn 32 key)%list.

Fixpoint starts_with (p b : list Z) : bool :=
  match p, b with
  | [], _ => true
  | x :: p', y :: b' => (x =? y) && starts_with p' b'
  | _ :: _, [] => false
  end.

(** The bytes of [n] spec-level fields laid out one after the other from
    offset [off] on. *)
Definition laid_out_at (off : nat) (fields : list (list Z)) (b : list Z) : bool :=
  starts_with (List.concat fields) (skipn off b).

End Wire.

(** ** Reading the zone fragment by lines *)

Module Lines.

(** The lines of a text: the pieces between its newline characters. *)
Fixpoint lines (s : string) : list string :=
  match s with
  | EmptyString => [EmptyString]
  | String c r =>
      if Ascii.eqb c Text.LF then EmptyString :: lines r
      else match lines r with
           | [] => [String c EmptyString]
           | l :: ls => String c l :: ls
           end
  end.

(** The number of space characters a line starts with. *)
Fixpoint indent (l : string) : nat :=
  match l with
  | String c r => if Ascii.eqb c Text.SP then S (indent r) else O
  | EmptyString => O
  end.

(** The lines after the first, up to the newline that ends the text. *)
Definition continuation_lines (s : string) : list string :=
  removelast (List.tl (lines s)).

End Lines.

(** ** Concrete runs

    Two ESNIKeys values are printed in the comment above the builder in
    [mk_esnikeys.c] (lines 609-644): a draft-02 value and a draft-03
    value made with [-P www.cloudflare.com -A].  The worlds below are the
    ones in which the program writes them. *)

Module Sample.

Local Open Scope string_scope.
Local Open Scope Z_scope.

Definition sha256 (bytes : list Z) : option (list Z) := Some (SHA2.sha256 bytes).

(** Allocations that succeed and output files that take every byte. *)
Definition every_allocation (_ : nat) : bool := true.
Definition every_file (_ : string) : bool := true.
Definition all_bytes (_ : string) (b : list Z) : nat := List.length b.

Definition no_file (_ : string) : option (list string) := None.
Definition no_resolver (_ : string) : option (list string) := None.
Definition no_addresses (_ : Esni.family) (_ : string) : option (list Z) := None.

Definition draft02_key : list Z :=
  [0xe1; 0x84; 0x9f; 0x8d; 0x2c; 0x89; 0x3c; 0xda; 0xf5; 0xcf; 0x71; 0x7c;
   0x2a; 0xac; 0xc1; 0x34; 0x19; 0xcc; 0x7a; 0x38; 0xa6; 0xd2; 0x62; 0x59;
   0x68; 0xf9; 0xab; 0x89; 0xad; 0xd7; 0xb2; 0x27].

Definition draft02_world : Esni.world := {|
  Esni.ESNI_RRTYPE := 0xffdf;
  Esni.clock := 0x5bda5010 + 1;
  Esni.address_file := no_file;
  Esni.resolve := no_resolver;
  Esni.inet_pton := no_addresses;
  Esni.encodedpoint := fun _ => Ok draft02_key;
  Esni.malloc := every_allocation;
  Esni.OPENSSL_malloc := every_allocation;
  Esni.SHA256 := sha256;
  Esni.fopen_w := every_file;
  Esni.fwrite := all_bytes
|}.

(** The same world one second later. *)
Definition draft02_world_later : Esni.world := {|
  Esni.ESNI_RRTYPE := 0xffdf;
  Esni.clock := 0x5bda5010 + 2;
  Esni.address_file := no_file;
  Esni.resolve := no_resolver;
  Esni.inet_pton := no_addresses;
  Esni.encodedpoint := fun _ => Ok draft02_key;
  Esni.malloc := every_allocation;
  Esni.OPENSSL_malloc := every_allocation;
  Esni.SHA256 := sha256;
  Esni.fopen_w := every_file;
  Esni.fwrite := all_bytes
|}.

Definition draft02_options : Esni.options := {|
  Esni.pubfname := None; Esni.privfname := None; Esni.fragfname := None;
  Esni.ekversion := 0xff01; Esni.cover_name := None;
  Esni.includeaddrset := false; Esni.asetfname := None;
  Esni.duration := 60 * 60 * 24 * 6
|}.

Definition draft02_value : list Z :=
  [0xff; 0x01; 0xc7; 0x04; 0x13; 0xa8; 0x00; 0x24; 0x00; 0x1d; 0x00; 0x20;
   0xe1; 0x84; 0x9f; 0x8d; 0x2c; 0x89; 0x3c; 0xda; 0xf5; 0xcf; 0x71; 0x7c;
   0x2a; 0xac; 0xc1; 0x34; 0x19; 0xcc; 0x7a; 0x38; 0xa6; 0xd2; 0x62; 0x59;
   0x68; 0xf9; 0xab; 0x89; 0xad; 0xd7; 0xb2; 0x27; 0x00; 0x02; 0x13; 0x01;
   0x01; 0x04; 0x00; 0x00; 0x00; 0x00; 0x5b; 0xda; 0x50; 0x10; 0x00; 0x00;
   0x00; 0x00; 0x5b; 0xe2; 0x39; 0x10; 0x00; 0x00].

Definition draft03_key : list Z :=
  [0xc7; 0xe8; 0x4b; 0x92; 0x59; 0xd6; 0x1c; 0x58; 0x36; 0x6c; 0xeb; 0x26;
   0x46; 0xec; 0x9d; 0x3d; 0xfb; 0x3d; 0xab; 0xde; 0x9a; 0x94; 0xac; 0x34;
   0x7e; 0xbd; 0x7c; 0x2a; 0xc4; 0xae; 0xe3; 0x60].

Definition draft03_addresses : list (string * list Z) :=
  [ ("2606:4700::c629:d6a2",
     [0x26; 0x06; 0x47; 0; 0; 0; 0; 0; 0; 0; 0; 0; 0xc6; 0x29; 0xd6; 0xa2]);
    ("2606:4700::c629:d7a2",
     [0x26; 0x06; 0x47; 0; 0; 0; 0; 0; 0; 0; 0; 0; 0xc6; 0x29; 0xd7; 0xa2]);
    ("198.41.214.162", [0xc6; 0x29; 0xd6; 0xa2]);
    ("198.41.215.162", [0xc6; 0x29; 0xd7; 0xa2]) ].

Fixpoint lookup (table : list (string * list Z)) (s : string) : option (list Z) :=
  match table with
  | [] => None
  | (k, v) :: rest => if String.eqb k s then Some v else lookup rest s
  end.

Definition draft03_world : Esni.world := {|
  Esni.ESNI_RRTYPE := 0xffdf;
  Esni.clock := 0x5c896e0c + 1;
  Esni.address_file := no_file;
  Esni.resolve := fun name =>
    if String.eqb name "www.cloudflare.com"
    then Some (List.map fst draft03_addresses) else None;
  Esni.inet_pton := fun _ => lookup draft03_addresses;
  Esni.encodedpoint := fun _ => Ok draft03_key;
  Esni.malloc := every_allocation;
  Esni.OPENSSL_malloc := every_allocation;
  Esni.SHA256 := sha256;
  Esni.fopen_w := every_file;
  Esni.fwrite := all_bytes
|}.

Definition draft03_options : Esni.options := {|
  Esni.pubfname := None; Esni.privfname := None; Esni.fragfname := None;
  Esni.ekversion := 0xff02; Esni.cover_name := Some "www.cloudflare.com";
  Esni.includeaddrset := true; Esni.asetfname := None;
  Esni.duration := 60 * 60 * 24 * 7
|}.

Definition draft03_value : list Z :=
  [0xff; 0x02; 0x36; 0x60; 0xb9; 0xa0; 0x00; 0x12; 0x77; 0x77; 0x77; 0x2e;
   0x63; 0x6c; 0x6f; 0x75; 0x64; 0x66; 0x6c; 0x61; 0x72; 0x65; 0x2e; 0x63;
   0x6f; 0x6d; 0x00; 0x24; 0x00; 0x1d; 0x00; 0x20; 0xc7; 0xe8; 0x4b; 0x92;
   0x59; 0xd6; 0x1c; 0x58; 0x36; 0x6c; 0xeb; 0x26; 0x46; 0xec; 0x9d; 0x3d;
   0xfb; 0x3d; 0xab; 0xde; 0x9a; 0x94; 0xac; 0x34; 0x7e; 0xbd; 0x7c; 0x2a;
   0xc4; 0xae; 0xe3; 0x60; 0x00; 0x02; 0x13; 0x01; 0x01; 0x04; 0x00; 0x00;
   0x00; 0x00; 0x5c; 0x89; 0x6e; 0x0c; 0x00; 0x00; 0x00; 0x00; 0x5c; 0x92;
   0xa8; 0x8c; 0x00; 0x2f; 0x10; 0x01; 0x00; 0x2c; 0x06; 0x26; 0x06; 0x47;
   0x00; 0x00; 0x00; 0x00; 0x00; 0x00; 0x00; 0x00; 0x00; 0xc6; 0x29; 0xd6;
   0xa2; 0x06; 0x26; 0x06; 0x47; 0x00; 0x00; 0x00; 0x00; 0x00; 0x00; 0x00;
   0x00; 0x00; 0xc6; 0x29; 0xd7; 0xa2; 0x04; 0xc6; 0x29; 0xd6; 0xa2; 0x04;
   0xc6; 0x29; 0xd7; 0xa2].

(** Seventeen distinct IPv4 addresses, each with the bytes [inet_pton]
    parses from it; the last is the start of the first. *)
Definition seventeen_table : list (string * list Z) :=
  [("10.0.0.10", [10; 0; 0; 10]);
   ("10.0.0.11", [10; 0; 0; 11]);
   ("10.0.0.12", [10; 0; 0; 12]);
   ("10.0.0.13", [10; 0; 0; 13]);
   ("10.0.0.14", [10; 0; 0; 14]);
   ("10.0.0.15", [10; 0; 0; 15]);
   ("10.0.0.16", [10; 0; 0; 16]);
   ("10.0.0.17", [10; 0; 0; 17]);
   ("10.0.0.18", [10; 0; 0; 18]);
   ("10.0.0.19", [10; 0; 0; 19]);
   ("10.0.0.20", [10; 0; 0; 20]);
   ("10.0.0.21", [10; 0; 0; 21]);
   ("10.0.0.22", [10; 0; 0; 22]);
   ("10.0.0.23", [10; 0; 0; 23]);
   ("10.0.0.24", [10; 0; 0; 24]);
   ("10.0.0.25", [10; 0; 0; 25]);
   ("10.0.0.1", [10; 0; 0; 1])].

Definition seventeen : list string := List.map fst seventeen_table.

(** A world whose resolver answers with the seventeen addresses. *)
Definition seventeen_world : Esni.world := {|
  Esni.ESNI_RRTYPE := 0xffdf;
  Esni.clock := 0x5c896e0c + 1;
  Esni.address_file := no_file;
  Esni.resolve := fun _ => Some seventeen;
  Esni.inet_pton := fun _ => lookup seventeen_table;
  Esni.encodedpoint := fun _ => Ok draft03_key;
  Esni.malloc := every_allocation;
  Esni.OPENSSL_malloc := every_allocation;
  Esni.SHA256 := sha256;
  Esni.fopen_w := every_file;
  Esni.fwrite := all_bytes
|}.

Definition seventeen_options : Esni.options := {|
  Esni.pubfname := None; Esni.privfname := None; Esni.fragfname := None;
  Esni.ekversion := 0xff02; Esni.cover_name := Some "example.com";
  Esni.includeaddrset := true; Esni.asetfname := None;
  Esni.duration := 60 * 60 * 24 * 7
|}.

(** A platform for [mk_echoconfig].  The two constants are in headers
    outside the two files; the values here are for the runs below: an
    array of 2000 bytes, the KEM identifier 0x0020 that HPKE gives
    X25519, Base64 as above, and a key pair whose public value is the
    draft-03 key. *)
Definition platform : Echo.platform := {|
  Echo.MAX_ECHOCONFIGS_BUFLEN := 2000;
  Echo.HPKE_KEM_ID_25519 := 0x20;
  Echo.EVP_EncodeBlock := Base64.encode;
  Echo.hpke_kg := {| Echo.kg_rv := 1;
                     Echo.kg_pub := draft03_key;
                     Echo.kg_publen := 32;
                     Echo.kg_priv := repeat 0x55 32;
                     Echo.kg_privlen := 32 |}
|}.

End Sample.

(* ================================================================== *)
(** * Part I, continued: the rest of the two programs *)
(* ================================================================== *)

(** ** What [add2alist] keeps of the list *)

Module AddressList.

(** At most [MAX_ESNI_ADDRS] entries, each a C string (a [strdup]), no
    entry twice. *)
Definition kept_list (ips : list string) : Prop :=
  (List.length ips <= Esni.MAX_ESNI_ADDRS)%nat
  /\ Forall (fun ip => C.cstr ip = ip) ips
  /\ NoDup ips.

(** A line of the address file that the loop skips. *)
Definition is_comment (line : string) : bool :=
  Ascii.eqb (C.head_char line) "#"%char.

(** A line without its last character. *)
Fixpoint chop (line : string) : string :=
  match line with
  | EmptyString => EmptyString
  | String _ EmptyString => EmptyString
  | String c r => String c (chop r)
  end.

(** Whether [ip] goes through [inet_pton] as IPv6: it has a [:]. *)
Definition family_of (ip : string) : Esni.family :=
  if C.strrchr_found ip ":"%char then Esni.AF_INET6 else Esni.AF_INET.

(** The number of address bytes [addrs_loop] copies for a family. *)
Definition address_size (af : Esni.family) : nat :=
  match af with
  | Esni.AF_INET => 4
  | Esni.AF_INET6 => 16
  end.

(** The byte in front of an address of a family. *)
Definition tag (af : Esni.family) : Z :=
  match af with
  | Esni.AF_INET => 0x04
  | Esni.AF_INET6 => 0x06
  end.

(** Whether [inet_pton] parses [ip] in the family its text selects, to
    at least the bytes of an address of that family. *)
Definition parses (inet_pton : Esni.family -> string -> option (list Z))
    (ip : string) : bool :=
  match inet_pton (family_of ip) ip with
  | Some a => (address_size (family_of ip) <=? List.length a)%nat
  | None => false
  end.

(** One address in the AddressSet: the tag and the address. *)
Definition entry (inet_pton : Esni.family -> string -> option (list Z))
    (ip : string) : list Z :=
  match inet_pton (family_of ip) ip with
  | Some a => tag (family_of ip) :: firstn (address_size (family_of ip)) a
  | None => []
  end.

(** The entries of the list that [addrs_loop] encodes as IPv4 and as
    IPv6. *)
Definition count4 (ips : list string) : nat :=
  List.length (filter (fun ip => negb (C.strrchr_found ip ":"%char)) ips).

Definition count6 (ips : list string) : nat :=
  List.length (filter (fun ip => C.strrchr_found ip ":"%char) ips).

End AddressList.

(** ** Reading an ESNIKeys structure

    A reader for the TLS presentation syntax that the comment at lines
    617-630 of [mk_esnikeys.c] gives for the structure, with the
    [public_name] of draft-03 after the checksum.  A [KeyShareEntry] is a
    group and a key with its length in front, as lines 662-666 store it;
    an [Extension] is a type and data with their length in front, as
    lines 519-523 store it; a [CipherSuite] is two bytes.  Every vector
    has its length in bytes in front, on two bytes. *)

Module Read.

Local Open Scope Z_scope.

Definition reader (A : Type) : Type := list Z -> option (A * list Z).

Definition ret {A : Type} (a : A) : reader A := fun b => Some (a, b).

Definition bind {A B : Type} (r : reader A) (k : A -> reader B) : reader B :=
  fun b =>
    match r b with
    | Some (a, rest) => k a rest
    | None => None
    end.

Declare Scope reader_scope.
Delimit Scope reader_scope with reader.
Notation "x <- r ;; k" := (bind r (fun x => k))
  (at level 61, r at next level, right associativity) : reader_scope.
Local Open Scope reader_scope.

Definition uint8 : reader Z := fun b =>
  match b with
  | x :: rest => Some (x, rest)
  | [] => None
  end.

Definition uint16 : reader Z :=
  hi <- uint8 ;; lo <- uint8 ;; ret (hi * 256 + lo).

(** [n] bytes as they are. *)
Definition opaque (n : nat) : reader (list Z) := fun b =>
  if (n <=? List.length b)%nat then Some (firstn n b, skipn n b) else None.

(** The number that bytes stand for, most significant byte first. *)
Fixpoint be_value (acc : Z) (bytes : list Z) : Z :=
  match bytes with
  | [] => acc
  | x :: rest => be_value (acc * 256 + x) rest
  end.

Definition uint64 : reader Z :=
  bytes <- opaque 8 ;; ret (be_value 0 bytes).

(** The bytes of a vector: a length on two bytes, then that many
    bytes. *)
Definition vector : reader (list Z) :=
  n <- uint16 ;; opaque (Z.to_nat n).

(** All the bytes [b] as a sequence of items.  An item takes at least
    one byte, so [fuel] as large as [b] is long is enough. *)
Fixpoint items {A : Type} (fuel : nat) (item : reader A) (b : list Z)
  : option (list A) :=
  match b with
  | [] => Some []
  | _ :: _ =>
      match fuel with
      | O => None
      | S fuel' =>
          match item b with
          | Some (a, rest) => option_map (cons a) (items fuel' item rest)
          | None => None
          end
      end
  end.

(** A vector of items: the bytes of the vector hold items and nothing
    else. *)
Definition vector_of {A : Type} (item : reader A) : reader (list A) := fun b =>
  match vector b with
  | Some (bytes, rest) =>
      match items (List.length bytes) item bytes with
      | Some l => Some (l, rest)
      | None => None
      end
  | None => None
  end.

(** [keys]: the group and the key. *)
Definition KeyShareEntry : reader (Z * list Z) :=
  group <- uint16 ;; key_exchange <- vector ;; ret (group, key_exchange).

Definition CipherSuite : reader Z := uint16.

(** [extensions]: the type and the data. *)
Definition Extension : reader (Z * list Z) :=
  extension_type <- uint16 ;; extension_data <- vector ;;
  ret (extension_type, extension_data).

Record ESNIKeys : Type := {
  version : Z;
  checksum : list Z;
  public_name : option (list Z);
  keys : list (Z * list Z);
  cipher_suites : list Z;
  padded_length : Z;
  not_before : Z;
  not_after : Z;
  extensions : list (Z * list Z)
}.

Definition esnikeys : reader ESNIKeys :=
  v <- uint16 ;;
  ck <- opaque 4 ;;
  pn <- (if v =? 0xff02 then n <- vector ;; ret (Some n) else ret None) ;;
  ks <- vector_of KeyShareEntry ;;
  cs <- vector_of CipherSuite ;;
  pl <- uint16 ;;
  nb <- uint64 ;;
  na <- uint64 ;;
  ex <- vector_of Extension ;;
  ret {| version := v; checksum := ck; public_name := pn; keys := ks;
         cipher_suites := cs; padded_length := pl; not_before := nb;
         not_after := na; extensions := ex |}.

(** A whole structure: nothing is left after it. *)
Definition parse (b : list Z) : option ESNIKeys :=
  match esnikeys b with
  | Some (r, []) => Some r
  | _ => None
  end.

(** The fields of the structure before the extensions, as lines 651-682
    store them: the version, the checksum [ck], for 0xff02 the name field
    [nf] with its length, the key share of [key], the cipher suite, the
    padded length and the two times [t1] and [t2]. *)
Definition laid_out (v : Z) (ck nf key t1 t2 : list Z) : list Z :=
  (Wire.u16be v ++ ck
   ++ (if v =? 0xff02 then Wire.length_prefixed nf else [])
   ++ Wire.length_prefixed ([0x00; 0x1d; 0x00; 0x20] ++ key)
   ++ Wire.length_prefixed [0x13; 0x01]
   ++ [0x01; 0x04] ++ t1 ++ t2)%list.

(** The eight bytes stored for a time: four zeros and the low four
    bytes (lines 673-682). *)
Definition time_bytes (n : Z) : list Z :=
  [0; 0; 0; 0; Esni.u8 ((n >> 24) %% 256); Esni.u8 ((n >> 16) %% 256);
   Esni.u8 ((n >> 8) %% 256); Esni.u8 (n %% 256)].

(** *** Reading the hexadecimal text of a zone fragment *)

Definition hex_value (c : ascii) : option Z :=
  let n := C.char_code c in
  if (48 <=? n) && (n <=? 57) then Some (n - 48)
  else if (97 <=? n) && (n <=? 102) then Some (n - 87)
  else None.

(** White space and the parentheses around folded RDATA. *)
Definition is_layout (c : ascii) : bool :=
  Ascii.eqb c Text.SP || Ascii.eqb c Text.LF
  || Ascii.eqb c "("%char || Ascii.eqb c ")"%char.

(** The bytes that a text of pairs of hexadecimal digits stands for;
    layout characters between the pairs are skipped. *)
Fixpoint hex_bytes (s : string) : option (list Z) :=
  match s with
  | EmptyString => Some []
  | String c rest =>
      if is_layout c then hex_bytes rest
      else
        match rest with
        | String d rest' =>
            match hex_value c, hex_value d with
            | Some h, Some l => option_map (cons (h * 16 + l)) (hex_bytes rest')
            | _, _ => None
            end
        | EmptyString => None
        end
  end.

End Read.

(** ** [echo_main]: the command of [apps/echo.c] (lines 189-308)

    The options are taken as [opt_next] returns them, one value of
    [OPTION_CHOICE] after the other with its argument, up to [OPT_EOF];
    [rest] is [opt_num_rest()].  The result is the value returned and the
    files written, in the order of the writes; the messages on [bio_err]
    are left out. *)

Module EchoMain.

Local Open Scope string_scope.
Local Open Scope Z_scope.

Inductive OPTION_CHOICE : Type :=
  | OPT_ERR
  | OPT_HELP
  | OPT_PUBOUT (arg : string)
  | OPT_PRIVOUT (arg : string)
  | OPT_PEMOUT (arg : string)
  | OPT_PUBLICNAME (arg : string)
  (** the argument as [strtol(arg, NULL, 0)] reads it *)
  | OPT_ECHOVERSION (lv : Z).

(** [verstr2us] of [echo.c] (lines 52-60). *)
Definition verstr2us (lv : Z) : Z :=
  if (lv <? 0xffff) && (0 <? lv) then lv mod 65536 else 0.

(** The local variables the option loop sets. *)
Record settings : Type := {
  echoconfig_file : option string;
  keyfile : option string;
  pemfile : option string;
  public_name : option string;
  echo_version : Z
}.

Definition initial : settings := {|
  echoconfig_file := None; keyfile := None; pemfile := None;
  public_name := None; echo_version := 0xff03
|}.

(** The option loop; [None] is [goto end]. *)
Fixpoint opt_loop (opts : list OPTION_CHOICE) (s : settings) : option settings :=
  match opts with
  | [] => Some s
  | o :: rest =>
      match o with
      | OPT_ERR => None
      | OPT_HELP => None
      | OPT_PUBOUT arg =>
          opt_loop rest {| echoconfig_file := Some arg; keyfile := keyfile s;
                           pemfile := pemfile s; public_name := public_name s;
                           echo_version := echo_version s |}
      | OPT_PRIVOUT arg =>
          opt_loop rest {| echoconfig_file := echoconfig_file s; keyfile := Some arg;
                           pemfile := pemfile s; public_name := public_name s;
                           echo_version := echo_version s |}
      | OPT_PEMOUT arg =>
          opt_loop rest {| echoconfig_file := echoconfig_file s; keyfile := keyfile s;
                           pemfile := Some arg; public_name := public_name s;
                           echo_version := echo_version s |}
      | OPT_PUBLICNAME arg =>
          opt_loop rest {| echoconfig_file := echoconfig_file s; keyfile := keyfile s;
                           pemfile := pemfile s; public_name := Some arg;
                           echo_version := echo_version s |}
      | OPT_ECHOVERSION lv =>
          opt_loop rest {| echoconfig_file := echoconfig_file s; keyfile := keyfile s;
                           pemfile := pemfile s; public_name := public_name s;
                           echo_version := verstr2us lv |}
      end
  end.

(** The options that name a file for the ECHOConfig or for the private
    key, and the one that names the PEM file. *)
Definition names_output (o : OPTION_CHOICE) : bool :=
  match o with
  | OPT_PUBOUT _ | OPT_PRIVOUT _ => true
  | _ => false
  end.

Definition is_pemout (o : OPTION_CHOICE) : bool :=
  match o with
  | OPT_PEMOUT _ => true
  | _ => false
  end.

Definition is_version (o : OPTION_CHOICE) : bool :=
  match o with
  | OPT_ECHOVERSION _ => true
  | _ => false
  end.

(** [keyfile != NULL || echoconfig_file != NULL]. *)
Definition has_target (s : settings) : bool :=
  match keyfile s, echoconfig_file s with
  | None, None => false
  | _, _ => true
  end.

(** What a run leaves behind. *)
Record run : Type := {
  returned : Z;
  written : list (string * list Z)
}.

(** [BIO_write(f, buf, len)]: the first [len] bytes of the array. *)
Definition BIO_write (buf : list Z) (len : Z) : option (list Z) :=
  if (Z.to_nat len <=? List.length buf)%nat
  then Some (firstn (Z.to_nat len) buf) else None.

Definition begin_line : list Z :=
  C.bytes_of ("-----BEGIN ECHOCONFIG-----" ++ String Text.LF "").

Definition end_line : list Z :=
  C.bytes_of ("-----END ECHOCONFIG-----" ++ String Text.LF "").

(** Lines 271-305, after [mk_echoconfig] returned 1.  [BIO_new_file]
    says whether the named file can be opened for writing. *)
Definition write_files (BIO_new_file : string -> bool) (s : settings)
    (out : Echo.output) : result run :=
  (w1 <- match echoconfig_file s with
         | Some f =>
             if BIO_new_file f
             then text <- defined (BIO_write (Echo.echoconfig out)
                                     (Echo.echoconfig_len out)) ;;
                  Ok (Some [(f, text ++ [C.char_code Text.LF])%list])
             else Ok None
         | None => Ok (Some [])
         end ;;
   match w1 with
   | None => Ok {| returned := 0; written := [] |}
   | Some files1 =>
       w2 <- match keyfile s with
             | Some k =>
                 if BIO_new_file k
                 then key <- defined (BIO_write (Echo.priv out) (Echo.privlen out)) ;;
                      Ok (Some (files1 ++ [(k, key)])%list)
                 else Ok None
             | None => Ok (Some files1)
             end ;;
       match w2 with
       | None => Ok {| returned := 0; written := files1 |}
       | Some files2 =>
           match keyfile s, echoconfig_file s with
           | None, None =>
               let pem := match pemfile s with
                          | Some f => f
                          | None => "echoconfig.pem"
                          end in
               if BIO_new_file pem
               then key <- defined (BIO_write (Echo.priv out) (Echo.privlen out)) ;;
                    text <- defined (BIO_write (Echo.echoconfig out)
                                       (Echo.echoconfig_len out)) ;;
                    Ok {| returned := 1;
                          written := (files2
                                      ++ [(pem, key ++ begin_line ++ text
                                                ++ [C.char_code Text.LF]
                                                ++ end_line)])%list |}
               else Ok {| returned := 0; written := files2 |}
           | _, _ => Ok {| returned := 1; written := files2 |}
           end
       end
   end)%result.

Definition echo_main (p : Echo.platform) (BIO_new_file : string -> bool)
    (opts : list OPTION_CHOICE) (rest : nat) : result run :=
  let stop := Ok {| returned := 0; written := [] |} in
  match opt_loop opts initial with
  | None => stop
  | Some s =>
      if negb (rest =? 0)%nat then stop
      else if (echo_version s =? 0xff02) || (echo_version s =? 0xff01) then stop
      else if negb (echo_version s =? 0xff03) then stop
      else
        match Echo.mk_echoconfig p (echo_version s) (public_name s)
                (Echo.MAX_ECHOCONFIGS_BUFLEN p)
                (Z.of_nat (Echo.MAX_ECHOCONFIGS_BUFLEN p)) false with
        | Ok out => write_files BIO_new_file s out
        | Fail (Returned _) => stop
        | Fail f => Fail f
        end
  end.

End EchoMain.

(** ** Names of a given length *)

Module Inputs.

(** A name of [n] letters. *)
Fixpoint letters (n : nat) : string :=
  match n with
  | O => EmptyString
  | S n' => String "a"%char (letters n')
  end.

End Inputs.

(* ================================================================== *)
(** * Part II: properties *)
(* ================================================================== *)

Local Open Scope string_scope.
Local Open Scope Z_scope.

(** ** The digest and the Base64 providers on known values *)

Example sha256_abc :
  SHA2.sha256 [0x61; 0x62; 0x63]%Z =
  [0xba; 0x78; 0x16; 0xbf; 0x8f; 0x01; 0xcf; 0xea; 0x41; 0x41; 0x40; 0xde;
   0x5d; 0xae; 0x22; 0x23; 0xb0; 0x03; 0x61; 0xa3; 0x96; 0x17; 0x7a; 0x9c;
   0xb4; 0x10; 0xff; 0x61; 0xf2; 0x00; 0x15; 0xad]%Z.
Proof. vm_compute. reflexivity. Qed.

Lemma sha256_length (msg : list Z) : List.length (SHA2.sha256 msg) = 32%nat.
Proof.
  unfold SHA2.sha256.
  set (p := SHA2.pad msg).
  assert (Hc : forall H block, List.length H = 8%nat ->
                               List.length (SHA2.compress H block) = 8%nat).
  { intros H block HH. unfold SHA2.compress.
    rewrite length_map, length_combine, HH.
    set (kw := combine SHA2.K _).
    assert (Hr : forall s x, List.length s = 8%nat ->
                             List.length (SHA2.round s x) = 8%nat).
    { intros s x Hs.
      do 9 (destruct s as [|? s]; try discriminate Hs). reflexivity. }
    assert (Hf : forall l s, List.length s = 8%nat ->
                             List.length (fold_left SHA2.round l s) = 8%nat).
    { induction l as [|x l IH]; intros s Hs; simpl; auto. }
    rewrite Hf by exact HH. reflexivity. }
  assert (Hf : forall bs H, List.length H = 8%nat ->
                            List.length (fold_left SHA2.compress bs H) = 8%nat).
  { induction bs as [|b bs IH]; intros H HH; simpl; auto. }
  specialize (Hf (SHA2.blocks (List.length p / 64) p) SHA2.H0 eq_refl).
  destruct (fold_left SHA2.compress _ SHA2.H0) as [|a l]; try discriminate Hf.
  do 8 (destruct l as [|? l]; try discriminate Hf). reflexivity.
Qed.

Example base64_Man :
  Base64.encode [0x4d; 0x61; 0x6e]%Z = C.bytes_of "TWFu"
  /\ Base64.encode [0x4d; 0x61]%Z = C.bytes_of "TWE="
  /\ Base64.encode [0x4d]%Z = C.bytes_of "TQ==".
Proof. repeat split; reflexivity. Qed.

(** The length [EVP_EncodeBlock] returns: four characters for every
    three bytes or part of three. *)
Lemma base64_length (bytes : list Z) :
  List.length (Base64.encode bytes) = (4 * ((List.length bytes + 2) / 3))%nat.
Proof.
  assert (H : forall n bytes, (List.length bytes < n)%nat ->
    List.length (Base64.encode bytes) = (4 * ((List.length bytes + 2) / 3))%nat).
  { induction n as [|n IH]; intros l Hl; [lia|].
    destruct l as [|a [|b [|c rest]]]; try reflexivity.
    cbn [Base64.encode List.length].
    rewrite IH by (cbn [List.length] in Hl; lia).
    replace (S (S (S (List.length rest))) + 2)%nat
      with ((List.length rest + 2) + 1 * 3)%nat by lia.
    rewrite Nat.div_add by lia. lia. }
  apply (H (S (List.length bytes))). lia.
Qed.

(** ** The two values printed in [mk_esnikeys.c] *)

(** The program, run in the world of the draft-02 value of the comment
    at lines 609-615, writes that value, checksum included. *)
Example draft02_value_rebuilt :
  option_map Esni.esnikeys
    (match Esni.mk_esnikeys Sample.draft02_world Sample.draft02_options with
     | Ok o => Some o
     | Fail _ => None
     end)
  = Some Sample.draft02_value.
Proof. vm_compute. reflexivity. Qed.

(** The same for the draft-03 value of lines 635-643, made with
    [-P www.cloudflare.com -A]. *)
Example draft03_value_rebuilt :
  option_map Esni.esnikeys
    (match Esni.mk_esnikeys Sample.draft03_world Sample.draft03_options with
     | Ok o => Some o
     | Fail _ => None
     end)
  = Some Sample.draft03_value.
Proof. vm_compute. reflexivity. Qed.

(** ** Writers *)

Section Emits.

Variable cap : nat.

Import Writer.

Lemma emits_put_u8 (v : Z) : emits cap (put_u8 cap v) true [(v mod 256)%Z].
Proof.
  intros w _. unfold put_u8. cbn [andb List.length].
  destruct (Nat.ltb_spec (List.length w) cap);
    destruct (Nat.leb_spec (List.length w + 1) cap); try lia; reflexivity.
Qed.

Lemma emits_put_bytes (src : list Z) (n : nat) :
  emits cap (put_bytes cap src n) (n <=? List.length src)%nat (firstn n src).
Proof.
  intros w _. unfold put_bytes.
  destruct (Nat.leb_spec n (List.length src)) as [Hn|Hn]; cbn [andb]; [|reflexivity].
  rewrite length_firstn, Nat.min_l by exact Hn. reflexivity.
Qed.

Lemma emits_put_zeros (n : nat) : emits cap (put_zeros cap n) true (repeat 0%Z n).
Proof.
  intros w _. unfold put_zeros. cbn [andb]. rewrite repeat_length. reflexivity.
Qed.

Lemma emits_skip : emits cap skip true [].
Proof.
  intros w Hw. unfold skip. cbn [andb List.length].
  rewrite app_nil_r, Nat.add_0_r.
  destruct (Nat.leb_spec (List.length w) cap); [reflexivity | lia].
Qed.

Lemma emits_seq (a b : writer) (oka okb : bool) (A B : list Z) :
  emits cap a oka A -> emits cap b okb B ->
  emits cap (seq a b) (oka && okb) (A ++ B).
Proof.
  intros Ha Hb w Hw. unfold seq. rewrite (Ha w Hw).
  destruct oka; cbn [andb]; [|reflexivity].
  rewrite length_app.
  destruct (Nat.leb_spec (List.length w + List.length A) cap) as [HA|HA].
  - rewrite Hb by (rewrite length_app; exact HA).
    rewrite length_app, app_assoc, Nat.add_assoc. reflexivity.
  - destruct okb; cbn [andb]; [|reflexivity].
    destruct (Nat.leb_spec (List.length w + (List.length A + List.length B)) cap);
      [lia | reflexivity].
Qed.

Lemma emits_if (c : bool) (a b : writer) (oka okb : bool) (A B : list Z) :
  emits cap a oka A -> emits cap b okb B ->
  emits cap (if c then a else b) (if c then oka else okb) (if c then A else B).
Proof. destruct c; auto. Qed.

(** A writer that ran from the start of the array wrote its bytes. *)
Lemma emits_run (W : writer) (ok : bool) (bytes w : list Z) :
  emits cap W ok bytes -> W [] = Some w ->
  w = bytes /\ ok = true /\ (List.length bytes <= cap)%nat.
Proof.
  intros HW Hrun. rewrite (HW [] (Nat.le_0_l _)) in Hrun. cbn [List.length] in Hrun.
  destruct ok; cbn [andb] in Hrun; [|discriminate].
  destruct (Nat.leb_spec (0 + List.length bytes) cap); [|discriminate].
  injection Hrun as <-. cbn [app]. repeat split. lia.
Qed.

End Emits.

Lemma emits_ext (cap : nat) (W : Writer.writer) (ok ok' : bool)
    (bytes bytes' : list Z) :
  Writer.emits cap W ok bytes -> ok = ok' -> bytes = bytes' ->
  Writer.emits cap W ok' bytes'.
Proof. intros H <- <-. exact H. Qed.

(** Steps through a writer built from the stores and [;;]. *)
Ltac emits_steps :=
  repeat first
    [ apply emits_put_u8 | apply emits_put_zeros | apply emits_put_bytes
    | apply emits_skip | eapply emits_seq | eapply emits_if ].

(** ** The ESNIKeys structure, byte by byte *)

Lemma esnikeys_body_emits (ekversion cnlen : Z) (cover_name public : list Z)
    (nb na extlen : Z) (extvals : list Z) :
  Writer.emits Esni.MAX_ESNIKEYS_BUFLEN
    (Esni.esnikeys_body ekversion cnlen cover_name public nb na extlen extvals)
    (Esni.esnikeys_reads ekversion cnlen cover_name public extlen extvals)
    (Esni.esnikeys_bytes ekversion cnlen cover_name public nb na extlen extvals).
Proof.
  unfold Esni.esnikeys_body.
  eapply emits_ext; [emits_steps | |].
  - unfold Esni.esnikeys_reads.
    destruct (ekversion =? 65282)%Z, (extlen =? 0)%Z; cbn [andb];
      rewrite ?andb_true_r, <- ?andb_assoc; reflexivity.
  - unfold Esni.esnikeys_bytes, Esni.u8.
    destruct (ekversion =? 65282)%Z, (extlen =? 0)%Z; reflexivity.
Qed.

(** Inverting a run that completed, one step at a time. *)
Ltac step_bind H a E :=
  match type of H with
  | bind ?r _ = Ok _ => destruct r as [a|] eqn:E; cbn [bind] in H; [|discriminate H]
  end.
Ltac step_defined H a E :=
  match type of H with
  | bind (defined ?o) _ = Ok _ =>
      destruct o as [a|] eqn:E; cbn [bind defined] in H; [|discriminate H]
  end.
Ltac step_check H E :=
  match type of H with
  | (if ?b then _ else Fail _) = Ok _ => destruct b eqn:E; [|discriminate H]
  end.

Lemma memset_checksum (b z : list Z) :
  C.memset b 2 0 4 = Some z -> z = Wire.zero_checksum b /\ (6 <= List.length b)%nat.
Proof.
  unfold C.memset. destruct (Nat.leb_spec (2 + 4) (List.length b)); [|discriminate].
  intros [= <-]. split; [reflexivity | lia].
Qed.

Lemma memcpy_checksum (b ck out : list Z) :
  C.memcpy b 2 ck 4 = Some out ->
  out = (firstn 2 b ++ firstn 4 ck ++ skipn 6 b)%list
  /\ (4 <= List.length ck)%nat /\ (6 <= List.length b)%nat.
Proof.
  unfold C.memcpy.
  destruct (Nat.leb_spec 4 (List.length ck)); cbn [andb]; [|discriminate].
  destruct (Nat.leb_spec (2 + 4) (List.length b)); [|discriminate].
  intros [= <-]. repeat split; lia.
Qed.

Lemma patched_checksum (b ck : list Z) :
  (4 <= List.length ck)%nat -> (6 <= List.length b)%nat ->
  let out := (firstn 2 b ++ firstn 4 ck ++ skipn 6 b)%list in
  Wire.checksum_field out = firstn 4 ck
  /\ Wire.zero_checksum out = Wire.zero_checksum b
  /\ List.length out = List.length b.
Proof.
  intros Hck Hb.
  do 6 (destruct b as [|? b]; [cbn [List.length] in Hb; lia|]).
  do 4 (destruct ck as [|? ck]; [cbn [List.length] in Hck; lia|]).
  cbn. repeat split.
Qed.

(** The steps of a run of [mk_esnikeys] that completed. *)
Lemma mk_esnikeys_inv (w : Esni.world) (o : Esni.options) (out : Esni.output) :
  Esni.mk_esnikeys w o = Ok out ->
  exists cnlen name extlen extvals public bbuf cksum,
    Esni.check_version o = Ok (cnlen, name)
    /\ Esni.address_set w o cnlen name = Ok (extlen, extvals)
    /\ Esni.encodedpoint w (Esni.private_key_file o) = Ok public
    /\ Esni.esnikeys_body (Esni.ekversion o) cnlen (C.bytes_of name) public
         (Esni.clock w - 1) (Esni.clock w - 1 + Esni.duration o)
         extlen extvals [] = Some bbuf
    /\ Esni.esni_checksum_gen (Esni.OPENSSL_malloc w) (Esni.SHA256 w) bbuf = Ok cksum
    /\ C.memcpy bbuf 2 cksum 4 = Some (Esni.esnikeys out)
    /\ (Esni.minduration <= Esni.duration o < Esni.maxduration)%Z.
Proof.
  unfold Esni.mk_esnikeys. intro H.
  step_check H Ecover. step_check H Eaddr.
  step_check H Epos. step_check H Emax. step_check H Emin.
  step_bind H cn Ecn. destruct cn as [cnlen name]. cbn [fst snd] in H.
  step_bind H ext Eext. destruct ext as [extlen extvals]. cbn [fst snd] in H.
  step_bind H public Epublic. step_check H Elen.
  step_defined H bbuf Ebody. step_bind H cksum Ecksum.
  step_defined H bbuf' Epatch.
  step_check H Eopen. step_check H Ewrite.
  exists cnlen, name, extlen, extvals, public, bbuf, cksum.
  assert (Hout : bbuf' = Esni.esnikeys out).
  { destruct (Esni.ekversion o =? 65282)%Z.
    - step_bind H frag Efrag. step_check H Efopen. injection H as <-. reflexivity.
    - injection H as <-. reflexivity. }
  subst bbuf'.
  apply negb_true_iff in Emax, Emin.
  rewrite Z.geb_leb in Emax. apply Z.leb_gt in Emax. apply Z.ltb_ge in Emin.
  repeat (split; [first [assumption | reflexivity]|]). lia.
Qed.

(** C1.  For every ESNIKeys build (versions 0xff01 and 0xff02) that
    completes, the 4 bytes at offset 2 of the structure written are the
    first 4 bytes of the digest of the whole structure with those 4 bytes
    replaced by zeros; and computing the checksum again, over the
    structure as written, with [esni_checksum_gen] (which zeroes the
    field itself) gives exactly the 4 bytes stored. *)
Theorem checksum_field_is_digest_of_zeroed
    (w : Esni.world) (o : Esni.options) (out : Esni.output) :
  Esni.mk_esnikeys w o = Ok out ->
  let b := Esni.esnikeys out in
  (Esni.ekversion o = 0xff01 \/ Esni.ekversion o = 0xff02)%Z
  /\ List.length (Wire.checksum_field b) = 4%nat
  /\ (exists md, Esni.SHA256 w (Wire.zero_checksum b) = Some md
                 /\ Wire.checksum_field b = firstn 4 md)
  /\ Esni.esni_checksum_gen (Esni.OPENSSL_malloc w) (Esni.SHA256 w) b
     = Ok (Wire.checksum_field b).
Proof.
  intros H b.
  destruct (mk_esnikeys_inv _ _ _ H)
    as (cnlen & name & extlen & extvals & public & bbuf & cksum
        & Hver & _ & _ & _ & Hgen & Hpatch & _).
  split.
  { unfold Esni.check_version in Hver.
    destruct (Z.eqb_spec (Esni.ekversion o) 0xff01); [left; assumption|].
    destruct (Z.eqb_spec (Esni.ekversion o) 0xff02); [right; assumption|].
    discriminate Hver. }
  fold b in Hpatch.
  apply memcpy_checksum in Hpatch. destruct Hpatch as (Hb & Hck & Hlen).
  destruct (patched_checksum bbuf cksum Hck Hlen) as (Hfield & Hzero & Hsame).
  cbv zeta in Hfield, Hzero, Hsame. rewrite <- Hb in Hfield, Hzero, Hsame.
  (* what esni_checksum_gen did on the unpatched buffer *)
  unfold Esni.esni_checksum_gen in Hgen.
  step_check Hgen Emalloc.
  step_defined Hgen z Ez.
  apply memset_checksum in Ez. destruct Ez as [-> _].
  destruct (Esni.SHA256 w (Wire.zero_checksum bbuf)) as [md|] eqn:Emd;
    [|discriminate Hgen].
  assert (Hmd : cksum = firstn 4 md /\ (4 <= List.length md)%nat).
  { unfold C.memcpy in Hgen.
    destruct (Nat.leb_spec 4 (List.length md)); cbn [andb] in Hgen; [|discriminate].
    cbn in Hgen. injection Hgen as <-. rewrite app_nil_r. split; [reflexivity | assumption]. }
  destruct Hmd as [-> Hmd].
  rewrite firstn_firstn in Hfield. cbn [Nat.min] in Hfield.
  split; [rewrite Hfield, length_firstn; lia|].
  split.
  - exists md. rewrite Hzero. split; assumption.
  - unfold Esni.esni_checksum_gen. rewrite Hsame, Emalloc.
    assert (Hz : C.memset b 2 0 4 = Some (Wire.zero_checksum b)).
    { unfold C.memset. destruct (Nat.leb_spec (2 + 4) (List.length b)); [reflexivity | lia]. }
    rewrite Hz. cbn [defined bind]. rewrite Hzero, Emd, Hfield.
    unfold C.memcpy.
    destruct (Nat.leb_spec 4 (List.length md)); [|lia].
    cbn. rewrite app_nil_r. reflexivity.
Qed.

(** The witness of C1: the draft-02 value of the source comment. *)
Lemma checksum_field_is_digest_of_zeroed_witness :
  let out := {| Esni.esnikeys := Sample.draft02_value; Esni.zonefrag := None |} in
  Esni.mk_esnikeys Sample.draft02_world Sample.draft02_options = Ok out
  /\ Esni.esni_checksum_gen Sample.every_allocation Sample.sha256 (Esni.esnikeys out)
     = Ok (Wire.checksum_field (Esni.esnikeys out)).
Proof.
  intro out.
  assert (H : Esni.mk_esnikeys Sample.draft02_world Sample.draft02_options = Ok out)
    by (vm_compute; reflexivity).
  split; [exact H|].
  exact (proj2 (proj2 (proj2
    (checksum_field_is_digest_of_zeroed Sample.draft02_world Sample.draft02_options out H)))).
Defined.

(** ** C strings *)

Lemma cstr_prefix (m : string) : exists rest, m = C.cstr m ++ rest.
Proof.
  induction m as [|c m [rest IH]]; cbn [C.cstr].
  - exists "". reflexivity.
  - destruct (Ascii.eqb c C.NUL).
    + exists (String c m). reflexivity.
    + exists rest. cbn [append]. rewrite <- IH. reflexivity.
Qed.

Lemma cstr_idempotent (m : string) : C.cstr (C.cstr m) = C.cstr m.
Proof.
  induction m as [|c m IH]; cbn [C.cstr]; [reflexivity|].
  destruct (Ascii.eqb c C.NUL) eqn:E; cbn [C.cstr]; [reflexivity|].
  rewrite E, IH. reflexivity.
Qed.

(** A string that is not empty is some string and a last character. *)
Lemma last_char_split (c : ascii) (s : string) :
  s <> "" ->
  exists s' d, s = s' ++ String d "" /\ C.ends_with c s = Ascii.eqb d c.
Proof.
  induction s as [|a s IH]; [congruence|]. intros _.
  destruct s as [|b s].
  - exists "", a. split; reflexivity.
  - destruct IH as (s' & d & Hs & He); [discriminate|].
    exists (String a s'), d. cbn [append]. rewrite <- Hs. split; [reflexivity|].
    exact He.
Qed.

Lemma append_assoc (s t u : string) : (s ++ t) ++ u = s ++ (t ++ u).
Proof. induction s as [|c s IH]; cbn; [reflexivity | rewrite IH; reflexivity]. Qed.

Lemma length_append (s t : string) :
  String.length (s ++ t) = (String.length s + String.length t)%nat.
Proof. induction s as [|c s IH]; cbn; [reflexivity | rewrite IH; reflexivity]. Qed.

Lemma get_append_here (s : string) (c : ascii) (rest : string) :
  String.get (String.length s) (s ++ String c rest) = Some c.
Proof. induction s as [|a s IH]; cbn; [reflexivity | exact IH]. Qed.

Lemma set_nth_append_here (s : string) (c d : ascii) (rest : string) :
  C.set_nth (s ++ String c rest) (String.length s) d = s ++ String d rest.
Proof. induction s as [|a s IH]; cbn; [reflexivity | rewrite IH; reflexivity]. Qed.

Lemma bytes_of_append (s t : string) :
  C.bytes_of (s ++ t) = (C.bytes_of s ++ C.bytes_of t)%list.
Proof.
  unfold C.bytes_of. induction s as [|a s IH]; cbn; [reflexivity|].
  cbn in IH. rewrite IH. reflexivity.
Qed.

Lemma length_bytes_of (s : string) : List.length (C.bytes_of s) = String.length s.
Proof.
  unfold C.bytes_of. induction s as [|a s IH]; cbn; [reflexivity | rewrite IH; reflexivity].
Qed.

Lemma firstn_bytes_of_append (s t : string) :
  firstn (String.length s) (C.bytes_of (s ++ t)) = C.bytes_of s.
Proof.
  rewrite bytes_of_append, <- length_bytes_of, firstn_app, firstn_all, Nat.sub_diag.
  cbn. apply app_nil_r.
Qed.

(** What the [switch] leaves for version 0xff02: the length before the
    dot is stripped, and the storage of the name with the dot (if it is
    the last character) overwritten by NUL. *)
Lemma check_version_ff02 (o : Esni.options) (name : string) (cnlen : Z)
    (name' : string) :
  Esni.ekversion o = 0xff02%Z -> Esni.cover_name o = Some name ->
  Esni.check_version o = Ok (cnlen, name') ->
  exists s d rest,
    C.cstr name = s ++ String d ""
    /\ cnlen = Z.of_nat (String.length s + 1)
    /\ (cnlen <= 254)%Z
    /\ name' = s ++ String (if Ascii.eqb d "." then C.NUL else d) rest.
Proof.
  intros Hv Hn. unfold Esni.check_version. rewrite Hv, Hn. cbn [Z.eqb Pos.eqb].
  intro H. step_check H Elen. step_defined H c Ec.
  apply Z.leb_le in Elen. unfold Esni.MAX_ESNI_COVER_NAME in Elen.
  assert (Hne : C.cstr name <> "").
  { intro E. unfold C.strlen in Ec. rewrite E in Ec. discriminate Ec. }
  destruct (last_char_split "." (C.cstr name) Hne) as (s & d & Hs & _).
  destruct (cstr_prefix name) as [rest Hrest]. rewrite Hs in Hrest.
  rewrite append_assoc in Hrest. cbn [append] in Hrest.
  assert (Hlen : C.strlen name = (String.length s + 1)%nat).
  { unfold C.strlen. rewrite Hs, length_append. reflexivity. }
  rewrite Hlen in H, Ec, Elen.
  replace (Z.of_nat (String.length s + 1) - 1)%Z
    with (Z.of_nat (String.length s)) in H, Ec by lia.
  assert (Hc : c = d).
  { unfold C.char_at in Ec. rewrite Nat2Z.id in Ec.
    rewrite Hrest in Ec at 2. rewrite get_append_here in Ec.
    destruct (_ <? 0)%Z; [discriminate|]. destruct (_ <? _)%Z; congruence. }
  subst c. exists s, d, rest.
  destruct (Ascii.eqb d ".").
  - step_defined H n' En. injection H as <- <-.
    unfold C.set_char in En. rewrite Nat2Z.id in En.
    destruct (_ <? 0)%Z; [discriminate|]. destruct (_ <? _)%Z; [|discriminate].
    injection En as <-. repeat (split; [first [assumption | reflexivity]|]).
    rewrite Hrest at 1. apply set_nth_append_here.
  - injection H as <- <-. repeat (split; [first [assumption | reflexivity]|]).
    exact Hrest.
Qed.

(** ** Two-byte lengths *)

Lemma u16_stores (n : Z) :
  (0 <= n)%Z ->
  [Esni.u8 ((n >> 8) %% 256); Esni.u8 (n %% 256)]%Z = Wire.u16be n.
Proof.
  intro Hn. unfold Esni.u8, Wire.u16be.
  rewrite Z.shiftr_div_pow2 by lia. change (2 ^ 8)%Z with 256%Z.
  rewrite !Z.rem_mod_nonneg by (try apply Z.div_pos; lia).
  rewrite !Z.mod_mod by lia. reflexivity.
Qed.

Lemma u16be_value (n : Z) :
  (0 <= n < 65536)%Z ->
  match Wire.u16be n with
  | [hi; lo] => (hi * 256 + lo)%Z = n
  | _ => False
  end.
Proof.
  intro Hn. unfold Wire.u16be.
  rewrite (Z.mod_small (n / 256)) by (split; [apply Z.div_pos | apply Z.div_lt_upper_bound]; lia).
  pose proof (Z.div_mod n 256). lia.
Qed.

(** Reading back a field that was laid out with its length in front. *)
Lemma read_length_prefixed_at (off : nat) (b before field after : list Z) :
  b = (before ++ Wire.length_prefixed field ++ after)%list ->
  List.length before = off ->
  (Z.of_nat (List.length field) < 65536)%Z ->
  Wire.read_length_prefixed off b = Some field.
Proof.
  intros -> <- Hlen. unfold Wire.read_length_prefixed, Wire.length_prefixed.
  rewrite skipn_app, skipn_all, Nat.sub_diag. cbn [app skipn].
  pose proof (u16be_value (Z.of_nat (List.length field))) as Hv.
  unfold Wire.u16be in *. cbn [app].
  rewrite Hv by lia. rewrite Nat2Z.id.
  rewrite length_app.
  destruct (Nat.leb_spec (List.length field) (List.length field + List.length after)); [|lia].
  rewrite firstn_app, firstn_all, Nat.sub_diag. cbn [firstn]. rewrite app_nil_r.
  reflexivity.
Qed.

(** ** The ESNIKeys structure as written *)

(** [memcpy(cksum, md, 4)]. *)
Lemma memcpy_digest (md cksum : list Z) :
  C.memcpy [0; 0; 0; 0]%Z 0 md 4 = Some cksum ->
  cksum = firstn 4 md /\ List.length cksum = 4%nat.
Proof.
  unfold C.memcpy.
  destruct (Nat.leb_spec 4 (List.length md)); cbn [andb]; [|discriminate].
  change (firstn 0 [0; 0; 0; 0]%Z) with (@nil Z).
  change (skipn (0 + 4) [0; 0; 0; 0]%Z) with (@nil Z).
  cbn [app]. rewrite app_nil_r. intro E.
  change (0 + 4 <=? List.length [0; 0; 0; 0]%Z)%nat with true in E.
  assert (Hc : cksum = firstn 4 md) by congruence.
  split; [exact Hc | rewrite Hc, length_firstn; lia].
Qed.

(** The bytes of a completed run: the stores of [esnikeys_body], with
    the checksum in place of the four zeros at offset 2. *)
Lemma mk_esnikeys_bytes (w : Esni.world) (o : Esni.options) (out : Esni.output) :
  Esni.mk_esnikeys w o = Ok out ->
  exists cnlen name extlen extvals public cksum,
    Esni.check_version o = Ok (cnlen, name)
    /\ Esni.address_set w o cnlen name = Ok (extlen, extvals)
    /\ Esni.encodedpoint w (Esni.private_key_file o) = Ok public
    /\ List.length cksum = 4%nat
    /\ let bytes := Esni.esnikeys_bytes (Esni.ekversion o) cnlen (C.bytes_of name)
                      public (Esni.clock w - 1)
                      (Esni.clock w - 1 + Esni.duration o) extlen extvals in
       Esni.esnikeys out = (firstn 2 bytes ++ cksum ++ skipn 6 bytes)%list
       /\ Esni.esni_checksum_gen (Esni.OPENSSL_malloc w) (Esni.SHA256 w) bytes
          = Ok cksum.
Proof.
  intro H.
  destruct (mk_esnikeys_inv _ _ _ H)
    as (cnlen & name & extlen & extvals & public & bbuf & cksum
        & Hver & Hext & Hkey & Hbody & Hgen & Hpatch & _).
  apply (emits_run _ _ _ _ _ (esnikeys_body_emits _ _ _ _ _ _ _ _)) in Hbody.
  destruct Hbody as (-> & _ & _).
  apply memcpy_checksum in Hpatch. destruct Hpatch as (Hout & Hck & _).
  assert (Hck4 : firstn 4 cksum = cksum /\ List.length cksum = 4%nat).
  { unfold Esni.esni_checksum_gen in Hgen. step_check Hgen Emalloc.
    step_defined Hgen z Ez.
    destruct (Esni.SHA256 w z) as [md|]; [|discriminate Hgen].
    cbn [defined] in Hgen.
    destruct (C.memcpy [0; 0; 0; 0]%Z 0 md 4) as [ck|] eqn:Eck; [|discriminate Hgen].
    injection Hgen as <-. apply memcpy_digest in Eck. destruct Eck as [-> Hl].
    rewrite firstn_firstn. cbn [Nat.min]. split; [reflexivity | exact Hl]. }
  destruct Hck4 as [Hck4 Hlen]. rewrite Hck4 in Hout.
  exists cnlen, name, extlen, extvals, public, cksum.
  repeat (split; [assumption|]). exact Hgen.
Qed.

Lemma append_last_inj (s t : string) (c d : ascii) :
  s ++ String c "" = t ++ String d "" -> s = t /\ c = d.
Proof.
  revert t. induction s as [|a s IH]; intros [|b t] H; cbn [append] in H.
  - injection H as ->. split; reflexivity.
  - injection H as _ H. destruct t; discriminate H.
  - injection H as _ H. destruct s; discriminate H.
  - injection H as -> H. destruct (IH t H) as [-> ->]. split; reflexivity.
Qed.

Lemma ends_with_last (c : ascii) (s : string) (d : ascii) :
  C.ends_with c (s ++ String d "") = Ascii.eqb d c.
Proof.
  induction s as [|a s IH]; [reflexivity|].
  cbn [append C.ends_with]. rewrite IH.
  destruct (s ++ String d "") eqn:E; [destruct s; discriminate E | reflexivity].
Qed.

(** The public_name field of a 0xff02 structure: at offset 6, the
    characters of the name as they are in storage after the [switch],
    with the length taken before. *)
Lemma esnikeys_name_field (w : Esni.world) (o : Esni.options) (out : Esni.output)
    (name : string) :
  Esni.mk_esnikeys w o = Ok out ->
  Esni.ekversion o = 0xff02%Z -> Esni.cover_name o = Some name ->
  exists s d cksum rest,
    C.cstr name = s ++ String d ""
    /\ (String.length s + 1 <= 254)%nat
    /\ List.length cksum = 4%nat
    /\ Esni.esnikeys out =
       ([0xff; 0x02]%Z ++ cksum
        ++ Wire.length_prefixed
             (C.bytes_of s ++ [C.char_code (if Ascii.eqb d "." then C.NUL else d)])
        ++ rest)%list.
Proof.
  intros H Hv Hn.
  destruct (mk_esnikeys_bytes _ _ _ H)
    as (cnlen & name' & extlen & extvals & public & cksum
        & Hver & _ & _ & Hck & Hout & _).
  destruct (check_version_ff02 _ _ _ _ Hv Hn Hver) as (s & d & rest & Hs & -> & Hle & ->).
  exists s, d, cksum. eexists.
  split; [exact Hs|]. split; [lia|]. split; [exact Hck|].
  rewrite Hout. unfold Esni.esnikeys_bytes. rewrite Hv.
  cbn [Z.eqb Pos.eqb firstn skipn app].
  pose proof (u16_stores (Z.of_nat (String.length s + 1)) ltac:(lia)) as Hu.
  injection Hu as -> ->.
  rewrite Nat2Z.id.
  set (d' := if Ascii.eqb d "." then C.NUL else d).
  replace (firstn (String.length s + 1) (C.bytes_of (s ++ String d' rest)))
    with (C.bytes_of s ++ [C.char_code d'])%list.
  2:{ change (String d' rest) with (String d' "" ++ rest).
      rewrite <- append_assoc.
      replace (String.length s + 1)%nat with (String.length (s ++ String d' ""))
        by (rewrite length_append; reflexivity).
      rewrite firstn_bytes_of_append, bytes_of_append. reflexivity. }
  unfold Wire.length_prefixed, Wire.u16be. rewrite length_app, length_bytes_of.
  cbn [List.length]. unfold Esni.u8. cbn [app].
  change ((65282 >> 8) %% 256 mod 256)%Z with 255%Z.
  change (65282 %% 256 mod 256)%Z with 2%Z.
  rewrite <- !app_assoc. reflexivity.
Qed.

(** C10.  For every 0xff02 build whose cover name ends with a dot, the
    length field of the encoded public_name is the length of the name
    with its dot, because the length is taken before the dot is
    overwritten in place, and the last byte of the encoded name is 0x00,
    not the dot. *)
Theorem trailing_dot_counted_and_zeroed
    (w : Esni.world) (o : Esni.options) (out : Esni.output) (name s : string) :
  Esni.ekversion o = 0xff02%Z ->
  Esni.cover_name o = Some name ->
  C.cstr name = s ++ "." ->
  Esni.mk_esnikeys w o = Ok out ->
  firstn 2 (skipn 6 (Esni.esnikeys out)) = Wire.u16be (Z.of_nat (C.strlen name))
  /\ Wire.read_length_prefixed 6 (Esni.esnikeys out) = Some (C.bytes_of s ++ [0%Z])%list
  /\ nth (8 + C.strlen name - 1) (Esni.esnikeys out) (C.char_code ".") = 0%Z.
Proof.
  intros Hv Hn Hdot H.
  destruct (esnikeys_name_field _ _ _ _ H Hv Hn)
    as (s' & d & cksum & rest & Hs & Hle & Hck & Hout).
  rewrite Hdot in Hs. apply append_last_inj in Hs. destruct Hs as [<- <-].
  change (if Ascii.eqb "." "." then C.NUL else "."%char) with C.NUL in Hout.
  change (C.char_code C.NUL) with 0%Z in Hout.
  assert (Hlen : C.strlen name = (String.length s + 1)%nat).
  { unfold C.strlen. rewrite Hdot, length_append. reflexivity. }
  assert (Hfield : List.length (C.bytes_of s ++ [0%Z]) = (String.length s + 1)%nat).
  { rewrite length_app, length_bytes_of. reflexivity. }
  do 4 (destruct cksum as [|? cksum]; [discriminate Hck|]).
  destruct cksum; [clear Hck | discriminate Hck].
  split; [|split].
  - rewrite Hout, Hlen. unfold Wire.length_prefixed. rewrite Hfield. reflexivity.
  - apply (read_length_prefixed_at 6 _ [255; 2; z; z0; z1; z2]%Z _ rest).
    + rewrite Hout. reflexivity.
    + reflexivity.
    + rewrite Hfield. lia.
  - rewrite Hout, Hlen. unfold Wire.length_prefixed, Wire.u16be.
    cbn [app]. replace (8 + (String.length s + 1) - 1)%nat
      with (8 + String.length s)%nat by lia.
    cbn [Nat.add nth]. rewrite <- app_assoc.
    rewrite app_nth2 by (rewrite length_bytes_of; lia).
    rewrite length_bytes_of, Nat.sub_diag. reflexivity.
Qed.

(** The witness of C10: [-V 0xff02 -P a.], no addresses. *)
Lemma trailing_dot_counted_and_zeroed_witness :
  let o := {| Esni.pubfname := None; Esni.privfname := None; Esni.fragfname := None;
              Esni.ekversion := 0xff02; Esni.cover_name := Some "a.";
              Esni.includeaddrset := false; Esni.asetfname := None;
              Esni.duration := 3600 |} in
  exists out,
    Esni.mk_esnikeys Sample.draft02_world o = Ok out
    /\ firstn 2 (skipn 6 (Esni.esnikeys out)) = Wire.u16be 2
    /\ Wire.read_length_prefixed 6 (Esni.esnikeys out) = Some [97; 0]%Z
    /\ nth 9 (Esni.esnikeys out) 46%Z = 0%Z.
Proof.
  intro o.
  destruct (Esni.mk_esnikeys Sample.draft02_world o) as [out|f] eqn:E.
  - exists out. split; [reflexivity|].
    exact (trailing_dot_counted_and_zeroed Sample.draft02_world o out "a." "a"
             eq_refl eq_refl eq_refl E).
  - vm_compute in E. discriminate E.
Defined.

(** ** The ECHOConfig structure, byte by byte *)

Lemma echoconfig_body_emits (p : Echo.platform) (ekversion pnlen : Z)
    (public_name pub : list Z) :
  Writer.emits (Echo.MAX_ECHOCONFIGS_BUFLEN p)
    (Echo.echoconfig_body p ekversion pnlen public_name pub)
    (Echo.echoconfig_reads ekversion pnlen public_name pub)
    (Echo.echoconfig_bytes p ekversion pnlen public_name pub).
Proof.
  unfold Echo.echoconfig_body.
  eapply emits_ext; [emits_steps | |].
  - unfold Echo.echoconfig_reads.
    destruct ((ekversion =? 65281) || (ekversion =? 65282))%bool,
      ((0 <? pnlen) && ((ekversion =? 65282) || (ekversion =? 65283)))%bool;
      cbn [andb]; rewrite ?andb_true_r, <- ?andb_assoc; reflexivity.
  - unfold Echo.echoconfig_bytes, Esni.u8.
    destruct ((ekversion =? 65281) || (ekversion =? 65282))%bool,
      ((0 <? pnlen) && ((ekversion =? 65282) || (ekversion =? 65283)))%bool;
      reflexivity.
Qed.

(** The steps of a call that got as far as the binary structure: the
    version is 0xff03, and the structure is the stores of
    [echoconfig_body] and the two zero bytes of the empty extensions. *)
Lemma echoconfig_binary_inv (p : Echo.platform) (ekversion : Z)
    (public_name : option string) (priv_null : bool) (bbuf : list Z) :
  Echo.echoconfig_binary p ekversion public_name priv_null = Ok bbuf ->
  ekversion = 0xff03%Z
  /\ priv_null = false
  /\ Echo.kg_rv (Echo.hpke_kg p) = 1%Z
  /\ bbuf = (Echo.echoconfig_bytes p 0xff03 (Echo.name_length public_name)
               (Echo.name_storage public_name) (Echo.kg_pub (Echo.hpke_kg p))
             ++ [0; 0]%Z)%list
  /\ (32 <= List.length (Echo.kg_pub (Echo.hpke_kg p)))%nat
  /\ (List.length bbuf <= Echo.MAX_ECHOCONFIGS_BUFLEN p)%nat.
Proof.
  unfold Echo.echoconfig_binary. intro H.
  step_bind H pnlen Epn.
  assert (Hv : ekversion = 0xff03%Z /\ pnlen = Echo.name_length public_name).
  { destruct ((ekversion =? 65281) || (ekversion =? 65282))%bool; [discriminate Epn|].
    destruct (Z.eqb_spec ekversion 65283); [|discriminate Epn].
    injection Epn as <-. split; [assumption | reflexivity]. }
  destruct Hv as [-> ->].
  step_check H Epriv. step_check H Erv. step_defined H body Ebody.
  cbn [Z.eqb] in H.
  destruct (Writer.seq _ _ body) as [w|] eqn:Ezz; [|discriminate H].
  cbn [defined] in H. injection H as ->.
  apply negb_true_iff in Epriv. apply Z.eqb_eq in Erv.
  assert (Hall : Writer.emits (Echo.MAX_ECHOCONFIGS_BUFLEN p)
            (Writer.seq
               (Echo.echoconfig_body p 65283 (Echo.name_length public_name)
                  (Echo.name_storage public_name) (Echo.kg_pub (Echo.hpke_kg p)))
               (Writer.seq (Writer.put_u8 (Echo.MAX_ECHOCONFIGS_BUFLEN p) 0)
                  (Writer.put_u8 (Echo.MAX_ECHOCONFIGS_BUFLEN p) 0)))
            (Echo.echoconfig_reads 65283 (Echo.name_length public_name)
               (Echo.name_storage public_name) (Echo.kg_pub (Echo.hpke_kg p))
             && (true && true))
            (Echo.echoconfig_bytes p 65283 (Echo.name_length public_name)
               (Echo.name_storage public_name) (Echo.kg_pub (Echo.hpke_kg p))
             ++ [0 mod 256; 0 mod 256]%Z)).
  { apply emits_seq; [apply echoconfig_body_emits|].
    apply (emits_seq _ _ _ _ _ [(0 mod 256)%Z] [(0 mod 256)%Z]); apply emits_put_u8. }
  assert (Hrun : Writer.seq
            (Echo.echoconfig_body p 65283 (Echo.name_length public_name)
               (Echo.name_storage public_name) (Echo.kg_pub (Echo.hpke_kg p)))
            (Writer.seq (Writer.put_u8 (Echo.MAX_ECHOCONFIGS_BUFLEN p) 0)
               (Writer.put_u8 (Echo.MAX_ECHOCONFIGS_BUFLEN p) 0)) [] = Some bbuf).
  { unfold Writer.seq at 1. rewrite Ebody. exact Ezz. }
  apply (emits_run _ _ _ _ _ Hall) in Hrun. destruct Hrun as (Hb & Hok & Hcap).
  rewrite andb_true_r in Hok. unfold Echo.echoconfig_reads in Hok.
  apply andb_true_iff in Hok. destruct Hok as [_ Hpub]. apply Nat.leb_le in Hpub.
  change (0 mod 256)%Z with 0%Z in *.
  repeat (split; [first [assumption | reflexivity]|]). rewrite Hb. exact Hcap.
Qed.

Lemma firstn_strlen_bytes (m : string) :
  firstn (C.strlen m) (C.bytes_of m) = C.bytes_of (C.cstr m).
Proof.
  destruct (cstr_prefix m) as [rest Hrest]. unfold C.strlen.
  rewrite Hrest at 2. apply firstn_bytes_of_append.
Qed.

Lemma length_name_bytes (public_name : option string) :
  Z.of_nat (List.length (Echo.name_bytes public_name)) = Echo.name_length public_name.
Proof.
  destruct public_name as [name|]; [|reflexivity].
  unfold Echo.name_bytes, Echo.name_length, C.strlen. rewrite length_bytes_of. reflexivity.
Qed.

(** The layout of a 0xff03 structure. *)
Lemma echoconfig_layout (p : Echo.platform) (public_name : option string)
    (bbuf : list Z) :
  Echo.echoconfig_binary p 0xff03 public_name false = Ok bbuf ->
  let L := Echo.name_length public_name in
  let K := Echo.HPKE_KEM_ID_25519 p in
  bbuf = ([0xff; 0x03]
          ++ (if 0 <? L
              then [Esni.u8 ((L >> 8) %% 256); Esni.u8 (L %% 256)]
                   ++ Echo.name_bytes public_name
              else [])
          ++ Wire.key_share_entry (Echo.kg_pub (Echo.hpke_kg p))
          ++ [Esni.u8 (Z.quot K 16); Esni.u8 (K %% 16)]
          ++ [0x00; 0x02; 0x13; 0x01; 0x01; 0x04; 0x00; 0x00])%list.
Proof.
  intros H L K.
  destruct (echoconfig_binary_inv _ _ _ _ _ H) as (_ & _ & _ & -> & _ & _).
  unfold Echo.echoconfig_bytes. fold L K.
  cbn [Z.eqb Pos.eqb orb andb].
  rewrite andb_true_r.
  replace (firstn (Z.to_nat L) (Echo.name_storage public_name))
    with (Echo.name_bytes public_name).
  2:{ subst L. destruct public_name as [name|]; cbn [Echo.name_length Echo.name_storage Echo.name_bytes].
      - rewrite Nat2Z.id. symmetry. apply firstn_strlen_bytes.
      - reflexivity. }
  unfold Wire.key_share_entry.
  change (Esni.u8 ((65283 >> 8) %% 256)) with 255.
  change (Esni.u8 (65283 %% 256)) with 3.
  destruct (0 <? L); cbn [app]; repeat (rewrite <- app_assoc; cbn [app]);
    reflexivity.
Qed.

(** ** The public_name field of an ECHOConfig *)

(** The bytes from the version to the key share entry. *)
Lemma echoconfig_name_field (p : Echo.platform)
    (public_name : option string) (bbuf : list Z) :
  Echo.echoconfig_binary p 0xff03 public_name false = Ok bbuf ->
  Echo.name_length public_name < 65536 ->
  exists rest,
    bbuf = ([0xff; 0x03]
            ++ (if 0 <? Echo.name_length public_name
                then Wire.length_prefixed (Echo.name_bytes public_name)
                else [])
            ++ Wire.key_share_entry (Echo.kg_pub (Echo.hpke_kg p))
            ++ rest)%list.
Proof.
  intros H Hlen. eexists. rewrite (echoconfig_layout _ _ _ H) at 1.
  unfold Wire.length_prefixed. rewrite length_name_bytes.
  rewrite <- u16_stores; [reflexivity|].
  rewrite <- length_name_bytes. lia.
Qed.

Lemma starts_with_app (p rest : list Z) : Wire.starts_with p (p ++ rest) = true.
Proof.
  induction p as [|x p IH]; [reflexivity|].
  cbn [app Wire.starts_with]. rewrite Z.eqb_refl, IH. reflexivity.
Qed.

(** C2, as the code has it.  For every build with version 0xff03 and a
    name of 1 to 65535 characters, the structure has the length-prefixed
    public_name field (2-byte big-endian length, then the characters)
    right after the version and before the key share entry.  When the
    name is absent or empty the code stores no public_name field, not
    even an empty one: the key share entry comes right after the
    version. *)
Theorem public_name_field_when_nonempty (p : Echo.platform)
    (public_name : option string) (bbuf : list Z) :
  Echo.echoconfig_binary p 0xff03 public_name false = Ok bbuf ->
  Echo.name_length public_name < 65536 ->
  let key := Wire.key_share_entry (Echo.kg_pub (Echo.hpke_kg p)) in
  let name := Wire.length_prefixed (Echo.name_bytes public_name) in
  firstn 2 bbuf = [0xff; 0x03]
  /\ (0 < Echo.name_length public_name ->
      Wire.laid_out_at 2 [name; key] bbuf = true)
  /\ (Echo.name_length public_name = 0 ->
      Wire.laid_out_at 2 [key] bbuf = true
      /\ Wire.laid_out_at 2 [name; key] bbuf = false).
Proof.
  intros H Hlen key name.
  destruct (echoconfig_name_field p public_name bbuf H Hlen) as [rest Hrest].
  fold key in Hrest. unfold Wire.laid_out_at.
  split; [rewrite Hrest; reflexivity|].
  split; intro HL.
  - apply Z.ltb_lt in HL. rewrite HL in Hrest. fold name in Hrest.
    rewrite Hrest. cbn [app skipn List.concat]. rewrite app_nil_r, app_assoc.
    apply starts_with_app.
  - rewrite HL in Hrest. cbn [Z.ltb Z.compare app] in Hrest. split.
    + rewrite Hrest. cbn [skipn List.concat]. rewrite app_nil_r.
      apply starts_with_app.
    + assert (Hname : name = [0; 0]).
      { unfold name, Wire.length_prefixed.
        pose proof (length_name_bytes public_name) as Hl. rewrite HL in Hl.
        destruct (Echo.name_bytes public_name); [reflexivity | discriminate Hl]. }
      rewrite Hname, Hrest. reflexivity.
Qed.

(** The witness of C2: the name [example.com]. *)
Lemma public_name_field_when_nonempty_witness :
  exists bbuf,
    Echo.echoconfig_binary Sample.platform 0xff03 (Some "example.com") false = Ok bbuf
    /\ Echo.name_length (Some "example.com") < 65536
    /\ 0 < Echo.name_length (Some "example.com")
    /\ Wire.laid_out_at 2
         [Wire.length_prefixed (C.bytes_of "example.com");
          Wire.key_share_entry Sample.draft03_key] bbuf = true.
Proof.
  destruct (Echo.echoconfig_binary Sample.platform 0xff03 (Some "example.com") false)
    as [bbuf|f] eqn:E.
  - assert (Hlen : Echo.name_length (Some "example.com") < 65536) by reflexivity.
    assert (Hpos : 0 < Echo.name_length (Some "example.com")) by reflexivity.
    exists bbuf. split; [reflexivity|]. split; [exact Hlen|]. split; [exact Hpos|].
    exact (proj1 (proj2 (public_name_field_when_nonempty Sample.platform
                           (Some "example.com") bbuf E Hlen)) Hpos).
  - vm_compute in E. discriminate E.
Defined.

(** C2 as stated fails: with no name, the bytes after the version are
    not a length-prefixed (empty) name followed by the key share entry;
    the key share entry starts at offset 2. *)
Lemma public_name_field_absent_counterexample :
  ~ (forall (p : Echo.platform) (public_name : option string) (bbuf : list Z),
       Echo.echoconfig_binary p 0xff03 public_name false = Ok bbuf ->
       Wire.laid_out_at 2
         [Wire.length_prefixed (Echo.name_bytes public_name);
          Wire.key_share_entry (Echo.kg_pub (Echo.hpke_kg p))] bbuf = true).
Proof.
  intro Hclaim.
  destruct (Echo.echoconfig_binary Sample.platform 0xff03 None false) as [bbuf|f] eqn:E.
  - specialize (Hclaim Sample.platform None bbuf E).
    vm_compute in E. injection E as <-. vm_compute in Hclaim. discriminate Hclaim.
  - vm_compute in E. discriminate E.
Qed.

(** ** The KEM identifier *)

(** C9.  For every 0xff03 build, the two bytes stored right after the
    key share entry are [HPKE_KEM_ID_25519 / 16] and
    [HPKE_KEM_ID_25519 mod 16], the identifier split in base 16, and not
    its 16-bit big-endian encoding.  The identifier is a constant of
    [crypto/hpke.h]; the statement holds for every value from 16 to
    4095, and the KEM identifiers of HPKE (0x10 to 0x21) are in that
    range. *)
Theorem kem_id_base16_split (p : Echo.platform) (public_name : option string)
    (bbuf : list Z) :
  16 <= Echo.HPKE_KEM_ID_25519 p < 4096 ->
  Echo.echoconfig_binary p 0xff03 public_name false = Ok bbuf ->
  let K := Echo.HPKE_KEM_ID_25519 p in
  exists before after,
    bbuf = (before ++ Wire.key_share_entry (Echo.kg_pub (Echo.hpke_kg p))
            ++ [K / 16; K mod 16] ++ after)%list
    /\ List.length before
       = (2 + if (0 <? Echo.name_length public_name)%Z
              then 2 + List.length (Echo.name_bytes public_name) else 0)%nat
    /\ [K / 16; K mod 16] <> Wire.u16be K.
Proof.
  intros HK H K. pose proof (echoconfig_layout _ _ _ H) as Hb. cbv zeta in Hb.
  fold K in Hb, HK.
  assert (Hq : Esni.u8 (Z.quot K 16) = K / 16).
  { unfold Esni.u8. rewrite Z.quot_div_nonneg by lia.
    apply Z.mod_small. split; [apply Z.div_pos | apply Z.div_lt_upper_bound]; lia. }
  assert (Hr : Esni.u8 (K %% 16) = K mod 16).
  { unfold Esni.u8. rewrite Z.rem_mod_nonneg by lia.
    pose proof (Z.mod_pos_bound K 16). apply Z.mod_small. lia. }
  rewrite Hq, Hr in Hb.
  exists ([0xff; 0x03]
          ++ (if 0 <? Echo.name_length public_name
              then [Esni.u8 ((Echo.name_length public_name >> 8) %% 256);
                    Esni.u8 (Echo.name_length public_name %% 256)]
                   ++ Echo.name_bytes public_name
              else []))%list,
         [0x00; 0x02; 0x13; 0x01; 0x01; 0x04; 0x00; 0x00].
  split; [|split].
  - rewrite Hb at 1. rewrite <- !app_assoc. reflexivity.
  - cbn [List.length]. destruct (0 <? Echo.name_length public_name);
      cbn [List.length app]; rewrite ?length_app; cbn [List.length]; lia.
  - unfold Wire.u16be. intro E. injection E as E1 E2.
    assert (K / 256 < 16) by (apply Z.div_lt_upper_bound; lia).
    assert (0 <= K / 256) by (apply Z.div_pos; lia).
    rewrite (Z.mod_small (K / 256)) in E1 by lia.
    pose proof (Z.div_mod K 16). pose proof (Z.div_mod K 256).
    pose proof (Z.mod_pos_bound K 16). pose proof (Z.mod_pos_bound K 256).
    lia.
Qed.

(** The witness of C9: the identifier 0x20 of X25519 gives 02 00. *)
Lemma kem_id_base16_split_witness :
  exists bbuf before after,
    16 <= Echo.HPKE_KEM_ID_25519 Sample.platform < 4096
    /\ Echo.echoconfig_binary Sample.platform 0xff03 None false = Ok bbuf
    /\ bbuf = (before ++ Wire.key_share_entry Sample.draft03_key
               ++ [2; 0] ++ after)%list
    /\ List.length before = 2%nat.
Proof.
  assert (HK : 16 <= Echo.HPKE_KEM_ID_25519 Sample.platform < 4096)
    by (cbn; lia).
  destruct (Echo.echoconfig_binary Sample.platform 0xff03 None false)
    as [bbuf|f] eqn:E.
  - destruct (kem_id_base16_split Sample.platform None bbuf HK E)
      as (before & after & Hb & Hlen & _).
    exists bbuf, before, after.
    split; [exact HK|]. split; [reflexivity|]. split; [exact Hb | exact Hlen].
  - vm_compute in E. discriminate E.
Defined.

(** ** The Base64 rendering *)

(** What [mk_echoconfig] does once the binary structure is there and the
    array at [echoconfig] has room for the characters and the NUL: it
    compares [b64len] with [*echoconfig_len - 1], with [>=]. *)
Lemma mk_echoconfig_decision (p : Echo.platform) (ekversion : Z)
    (public_name : option string) (size : nat) (len : Z) (bbuf : list Z) :
  Echo.echoconfig_binary p ekversion public_name false = Ok bbuf ->
  let encoded := Echo.EVP_EncodeBlock p bbuf in
  let b64len := Z.of_nat (List.length encoded) in
  (List.length encoded + 1 <= size)%nat ->
  Echo.mk_echoconfig p ekversion public_name size len false
  = if Echo.size_t b64len >=? Echo.size_t (len - 1)
    then Fail (Returned 181)
    else Ok {| Echo.echoconfig := (encoded ++ [0])%list;
               Echo.echoconfig_len := b64len;
               Echo.priv := Echo.kg_priv (Echo.hpke_kg p);
               Echo.privlen := Echo.kg_privlen (Echo.hpke_kg p) |}.
Proof.
  intros H encoded b64len Hsize. unfold Echo.mk_echoconfig. rewrite H.
  cbn [bind]. fold encoded. fold b64len.
  unfold C.memcpy. rewrite length_app, repeat_length. cbn [List.length].
  rewrite Nat.leb_refl. cbn [andb Nat.add].
  destruct (Nat.leb_spec (List.length encoded + 1) size); [|lia].
  cbn [defined bind].
  destruct (Echo.size_t b64len >=? Echo.size_t (len - 1)); cbn [negb]; [reflexivity|].
  do 2 f_equal.
  change (firstn 0 (repeat 0 size)) with (@nil Z). cbn [app].
  replace (List.length encoded + 1)%nat with (List.length (encoded ++ [0]))
    by (rewrite length_app; reflexivity).
  rewrite firstn_all, firstn_app, firstn_all, Nat.sub_diag. cbn [firstn].
  rewrite app_nil_r. reflexivity.
Qed.

(** [EVP_EncodeBlock] stores before the length is compared: a
    destination too small for the characters and the NUL is written
    past its end. *)
Lemma mk_echoconfig_overflow (p : Echo.platform) (ekversion : Z)
    (public_name : option string) (size : nat) (len : Z) (bbuf : list Z) :
  Echo.echoconfig_binary p ekversion public_name false = Ok bbuf ->
  (size < List.length (Echo.EVP_EncodeBlock p bbuf) + 1)%nat ->
  Echo.mk_echoconfig p ekversion public_name size len false = Fail Undefined.
Proof.
  intros H Hsize. unfold Echo.mk_echoconfig. rewrite H. cbn [bind].
  unfold C.memcpy. rewrite length_app, repeat_length. cbn [List.length].
  rewrite Nat.leb_refl. cbn [andb Nat.add].
  destruct (Nat.leb_spec (List.length (Echo.EVP_EncodeBlock p bbuf) + 1) size);
    [lia | reflexivity].
Qed.

(** ** The name field, written and read back *)

(** The name field of an ECHOConfig, read back. *)
Lemma echoconfig_name_read_back (p : Echo.platform) (name : string) (bbuf : list Z) :
  (1 <= C.strlen name <= 254)%nat ->
  Echo.echoconfig_binary p 0xff03 (Some name) false = Ok bbuf ->
  Wire.read_length_prefixed 2 bbuf = Some (C.bytes_of (C.cstr name)).
Proof.
  intros HL H.
  assert (Hlen : Echo.name_length (Some name) < 65536)
    by (cbn [Echo.name_length]; lia).
  destruct (echoconfig_name_field p (Some name) bbuf H Hlen) as [rest Hrest].
  replace (0 <? Echo.name_length (Some name)) with true in Hrest
    by (symmetry; apply Z.ltb_lt; cbn [Echo.name_length]; lia).
  cbn [Echo.name_bytes] in Hrest.
  apply (read_length_prefixed_at 2 bbuf [0xff; 0x03] _ _ Hrest); [reflexivity|].
  rewrite length_bytes_of. fold (C.strlen name). lia.
Qed.

(** The name field of a 0xff02 ESNIKeys, read back. *)
Lemma esnikeys_name_read_back (w : Esni.world) (o : Esni.options)
    (out : Esni.output) (name : string) :
  Esni.ekversion o = 0xff02 -> Esni.cover_name o = Some name ->
  C.ends_with "." (C.cstr name) = false ->
  Esni.mk_esnikeys w o = Ok out ->
  Wire.read_length_prefixed 6 (Esni.esnikeys out) = Some (C.bytes_of (C.cstr name)).
Proof.
  intros Hv Hn Hdot H.
  destruct (esnikeys_name_field _ _ _ _ H Hv Hn)
    as (s & d & cksum & rest & Hs & Hle & Hck & Hout).
  rewrite Hs, ends_with_last in Hdot. rewrite Hdot in Hout.
  replace (C.bytes_of s ++ [C.char_code d])%list with (C.bytes_of (C.cstr name)) in Hout
    by (rewrite Hs, bytes_of_append; reflexivity).
  do 4 (destruct cksum as [|? cksum]; [discriminate Hck|]).
  destruct cksum; [clear Hck | discriminate Hck].
  apply (read_length_prefixed_at 6 _ [255; 2; z; z0; z1; z2] _ rest).
  - rewrite Hout. reflexivity.
  - reflexivity.
  - rewrite length_bytes_of, Hs, length_append. cbn [String.length]. lia.
Qed.

(** C4, as the code has it.  For every name of length L with
    1 <= L <= 254: the name field of a 0xff03 ECHOConfig, read back, is
    the L bytes of the name; and so is the name field of a 0xff02
    ESNIKeys when the name does not end with a dot. *)
Theorem name_field_round_trip (name : string) :
  (1 <= C.strlen name <= 254)%nat ->
  (forall (p : Echo.platform) (bbuf : list Z),
     Echo.echoconfig_binary p 0xff03 (Some name) false = Ok bbuf ->
     Wire.read_length_prefixed 2 bbuf = Some (C.bytes_of (C.cstr name)))
  /\ (forall (w : Esni.world) (o : Esni.options) (out : Esni.output),
        Esni.ekversion o = 0xff02 -> Esni.cover_name o = Some name ->
        C.ends_with "." (C.cstr name) = false ->
        Esni.mk_esnikeys w o = Ok out ->
        Wire.read_length_prefixed 6 (Esni.esnikeys out)
        = Some (C.bytes_of (C.cstr name))).
Proof.
  intro HL. split.
  - intros p bbuf. apply echoconfig_name_read_back. exact HL.
  - intros w o out. apply esnikeys_name_read_back.
Qed.

(** The witness of C4: [www.cloudflare.com], in the ECHOConfig of the
    sample platform and in the draft-03 value of the source comment. *)
Lemma name_field_round_trip_witness :
  (1 <= C.strlen "www.cloudflare.com" <= 254)%nat
  /\ (exists bbuf,
        Echo.echoconfig_binary Sample.platform 0xff03 (Some "www.cloudflare.com") false
        = Ok bbuf
        /\ Wire.read_length_prefixed 2 bbuf = Some (C.bytes_of "www.cloudflare.com"))
  /\ (exists out,
        Esni.mk_esnikeys Sample.draft03_world Sample.draft03_options = Ok out
        /\ Wire.read_length_prefixed 6 (Esni.esnikeys out)
           = Some (C.bytes_of "www.cloudflare.com")).
Proof.
  assert (HL : (1 <= C.strlen "www.cloudflare.com" <= 254)%nat) by (cbn; lia).
  destruct (name_field_round_trip "www.cloudflare.com" HL) as [Hecho Hesni].
  split; [exact HL|]. split.
  - destruct (Echo.echoconfig_binary Sample.platform 0xff03
                (Some "www.cloudflare.com") false) as [bbuf|f] eqn:E.
    + exists bbuf. split; [reflexivity|]. exact (Hecho Sample.platform bbuf E).
    + vm_compute in E. discriminate E.
  - destruct (Esni.mk_esnikeys Sample.draft03_world Sample.draft03_options)
      as [out|f] eqn:E.
    + exists out. split; [reflexivity|].
      exact (Hesni Sample.draft03_world Sample.draft03_options out
               eq_refl eq_refl eq_refl E).
    + vm_compute in E. discriminate E.
Defined.

(** C4 as stated fails on both builders.  An ECHOConfig built with an
    empty name has no name field: what is read at offset 2 is the key
    share entry.  An ESNIKeys built with the name [a.] has the name field
    [61 00]: the dot was overwritten by NUL. *)
Lemma name_field_round_trip_counterexample :
  ~ (forall (name : string) (p : Echo.platform) (bbuf : list Z),
       (0 <= C.strlen name <= 254)%nat ->
       Echo.echoconfig_binary p 0xff03 (Some name) false = Ok bbuf ->
       Wire.read_length_prefixed 2 bbuf = Some (C.bytes_of (C.cstr name)))
  /\ ~ (forall (name : string) (w : Esni.world) (o : Esni.options)
               (out : Esni.output),
          (0 <= C.strlen name <= 254)%nat ->
          Esni.ekversion o = 0xff02 -> Esni.cover_name o = Some name ->
          Esni.mk_esnikeys w o = Ok out ->
          Wire.read_length_prefixed 6 (Esni.esnikeys out)
          = Some (C.bytes_of (C.cstr name))).
Proof.
  split.
  - intro Hclaim.
    destruct (Echo.echoconfig_binary Sample.platform 0xff03 (Some "") false)
      as [bbuf|f] eqn:E.
    + specialize (Hclaim "" Sample.platform bbuf ltac:(cbn; lia) E).
      vm_compute in E. injection E as <-. vm_compute in Hclaim. discriminate Hclaim.
    + vm_compute in E. discriminate E.
  - intro Hclaim.
    set (o := {| Esni.pubfname := None; Esni.privfname := None;
                 Esni.fragfname := None;
                 Esni.ekversion := 0xff02; Esni.cover_name := Some "a.";
                 Esni.includeaddrset := false; Esni.asetfname := None;
                 Esni.duration := 3600 |}).
    destruct (Esni.mk_esnikeys Sample.draft02_world o) as [out|f] eqn:E.
    + specialize (Hclaim "a." Sample.draft02_world o out ltac:(cbn; lia)
                    eq_refl eq_refl E).
      vm_compute in E. injection E as <-. vm_compute in Hclaim. discriminate Hclaim.
    + vm_compute in E. discriminate E.
Qed.

(** ** The address list *)

Lemma char_code_inj (c d : ascii) : C.char_code c = C.char_code d -> c = d.
Proof.
  unfold C.char_code. intro H. apply N2Z.inj in H.
  rewrite <- (ascii_N_embedding c), <- (ascii_N_embedding d), H. reflexivity.
Qed.

Lemma prefix_empty (s : string) : String.prefix "" s = true.
Proof. destruct s; reflexivity. Qed.

(** What the comparison in [add2alist] decides: [strncmp] over the
    length of [line] is zero exactly when [line] is the start of the
    entry. *)
Lemma strncmp_strlen_prefix (b a : string) :
  (C.strncmp a b (C.strlen b) =? 0) = String.prefix (C.cstr b) (C.cstr a).
Proof.
  revert a. induction b as [|c b IH]; intro a;
    [cbn [C.cstr]; rewrite prefix_empty; reflexivity|].
  unfold C.strlen. cbn [C.cstr].
  destruct (Ascii.eqb_spec c C.NUL) as [->|Hc];
    [rewrite prefix_empty; reflexivity|].
  cbn [String.length C.strncmp C.head_char C.tail].
  destruct a as [|d a]; cbn [C.head_char C.tail C.cstr].
  - destruct (Ascii.eqb_spec C.NUL c) as [E|E]; [congruence|].
    cbn [String.prefix]. apply Z.eqb_neq. intro H. apply E, char_code_inj. lia.
  - destruct (Ascii.eqb_spec d c) as [->|Hd].
    + destruct (Ascii.eqb_spec c C.NUL) as [E|_]; [congruence|].
      cbn [String.prefix]. destruct (ascii_dec c c); [|congruence].
      apply IH.
    + transitivity false.
      * apply Z.eqb_neq. intro H. apply Hd, char_code_inj. lia.
      * destruct (Ascii.eqb d C.NUL); cbn [String.prefix]; [reflexivity|].
        destruct (ascii_dec c d); [congruence | reflexivity].
Qed.

Lemma found_prefix (ips : list string) (line : string) :
  Esni.found ips line
  = existsb (fun ip => String.prefix (C.cstr line) (C.cstr ip)) ips.
Proof.
  induction ips as [|ip ips IH]; [reflexivity|].
  cbn [Esni.found existsb]. rewrite strncmp_strlen_prefix, IH.
  destruct (String.prefix _ _); reflexivity.
Qed.

(** [add2alist] reports an address as already present exactly when the
    list is not empty and the address is the start of one of its
    entries. *)
Lemma add2alist_present (ips : list string) (line : string) :
  Esni.add2alist ips line = Ok (1, ips)
  <-> ips <> []
      /\ existsb (fun ip => String.prefix (C.cstr line) (C.cstr ip)) ips = true.
Proof.
  unfold Esni.add2alist. rewrite found_prefix.
  destruct ips as [|ip ips].
  - cbn. split; [discriminate | intros [H _]; congruence].
  - cbn [List.length Nat.eqb].
    destruct (existsb _ (ip :: ips)).
    + split; [intros _; split; [discriminate | reflexivity] | reflexivity].
    + split; [|intros [_ H]; discriminate H].
      match goal with |- context [if ?b then _ else _] => destruct b end;
        discriminate.
Qed.

(** C3, on the code.  With [10.0.0.11] in the list, [add2alist] returns 1
    (already present) for [10.0.0.1] and leaves the list as it is, though
    the two strings are different: [strncmp] compares only the
    [strlen(line)] first characters of the entry. *)
Theorem add2alist_drops_start_of_entry :
  Esni.add2alist ["10.0.0.11"] "10.0.0.1" = Ok (1, ["10.0.0.11"])
  /\ ~ In "10.0.0.1" ["10.0.0.11"]
  /\ Esni.add_all ["10.0.0.11"; "10.0.0.1"] [] = Ok ["10.0.0.11"]
  /\ Esni.add_all ["10.0.0.1"; "10.0.0.11"] [] = Ok ["10.0.0.1"; "10.0.0.11"].
Proof.
  split; [reflexivity|]. split; [|split; reflexivity].
  cbn. intros [H|[]]. discriminate H.
Qed.

(** C6, on the code.  Of the seventeen distinct addresses of
    [Sample.seventeen], the last, [10.0.0.1], is the start of the first,
    [10.0.0.10]; [add2alist] takes it for a duplicate, sixteen addresses
    are kept, and the run completes with an AddressSet of sixteen
    addresses instead of ending with "Too many addresses". *)
Theorem seventeen_distinct_addresses_accepted :
  List.length Sample.seventeen = 17%nat
  /\ NoDup Sample.seventeen
  /\ Esni.add_all Sample.seventeen [] = Ok (firstn 16 Sample.seventeen)
  /\ (exists extvals,
        Esni.address_set Sample.seventeen_world Sample.seventeen_options
          11 "example.com" = Ok (6 + 16 * 5, extvals))
  /\ (exists out,
        Esni.mk_esnikeys Sample.seventeen_world Sample.seventeen_options = Ok out).
Proof.
  split; [reflexivity|]. split; [|split; [reflexivity|split]].
  - unfold Sample.seventeen, Sample.seventeen_table. cbn [List.map fst].
    repeat (constructor; [cbn [In]; intuition discriminate|]). constructor.
  - eexists. vm_compute. reflexivity.
  - eexists. vm_compute. reflexivity.
Qed.

(** On such lists [add2alist] keeps every address while there is room,
    and the seventeenth ends the run. *)
Lemma add_all_no_start_of_earlier (astrs ips : list string) :
  (List.length ips <= Esni.MAX_ESNI_ADDRS)%nat ->
  Esni.no_start_of_earlier ips astrs = true ->
  Esni.add_all astrs ips
  = if (List.length ips + List.length astrs <=? Esni.MAX_ESNI_ADDRS)%nat
    then Ok (ips ++ List.map C.strdup astrs)%list
    else Fail TooManyAddresses.
Proof.
  unfold Esni.MAX_ESNI_ADDRS.
  revert ips. induction astrs as [|astr rest IH]; intros ips Hlen Hfree.
  - cbn [Esni.add_all List.length List.map]. rewrite Nat.add_0_r, app_nil_r.
    destruct (Nat.leb_spec (List.length ips) 16%nat); [reflexivity | lia].
  - cbn [Esni.no_start_of_earlier] in Hfree. apply andb_true_iff in Hfree.
    destruct Hfree as [Hnew Hrest]. apply negb_true_iff in Hnew.
    cbn [Esni.add_all List.length List.map].
    unfold Esni.add2alist, Esni.MAX_ESNI_ADDRS.
    rewrite found_prefix, Hnew.
    destruct ips as [|ip ips].
    + cbn [List.length Nat.eqb bind snd]. cbn [app] in Hrest.
      rewrite (IH [C.strdup astr]) by (cbn; lia || exact Hrest).
      cbn [List.length app Nat.add]. reflexivity.
    + change (List.length (ip :: ips) =? 0)%nat with false. cbv iota.
      destruct (Nat.eqb_spec (List.length (ip :: ips)) 16%nat) as [E|E].
      * cbn [bind]. rewrite E.
        destruct (Nat.leb_spec (16%nat + S (List.length rest))
                    16%nat); [lia | reflexivity].
      * cbn [bind snd]. rewrite (IH _) by ((rewrite ?length_app; cbn [List.length] in *; lia) || exact Hrest).
        rewrite length_app. cbn [List.length].
        replace (S (List.length ips) + 1 + List.length rest)%nat
          with (S (List.length ips) + S (List.length rest))%nat by lia.
        rewrite <- app_assoc. reflexivity.
Qed.

(** Seventeen addresses none of which is the start of an earlier one end
    the run with "Too many addresses". *)
Lemma seventeen_unrelated_addresses_rejected (astrs : list string) :
  List.length astrs = 17%nat ->
  Esni.no_start_of_earlier [] astrs = true ->
  Esni.add_all astrs [] = Fail TooManyAddresses.
Proof.
  intros Hlen Hfree.
  rewrite add_all_no_start_of_earlier by (cbn; unfold Esni.MAX_ESNI_ADDRS; lia || exact Hfree).
  rewrite Hlen. reflexivity.
Qed.

(** ** What the ESNIKeys structure depends on *)

Lemma check_version_same (o1 o2 : Esni.options) :
  Esni.ekversion o1 = Esni.ekversion o2 ->
  Esni.cover_name o1 = Esni.cover_name o2 ->
  Esni.check_version o1 = Esni.check_version o2.
Proof. intros Hv Hn. unfold Esni.check_version. rewrite Hv, Hn. reflexivity. Qed.

Lemma esni_checksum_gen_same (m1 m2 : nat -> bool)
    (f g : list Z -> option (list Z)) (buf c1 c2 : list Z) :
  (forall b, f b = g b) ->
  Esni.esni_checksum_gen m1 f buf = Ok c1 ->
  Esni.esni_checksum_gen m2 g buf = Ok c2 ->
  c1 = c2.
Proof.
  intro Hfg. unfold Esni.esni_checksum_gen.
  destruct (m1 (List.length buf)); [|discriminate].
  destruct (m2 (List.length buf)); [|discriminate].
  destruct (C.memset buf 2 0 4) as [z|]; [|discriminate].
  cbn [defined bind]. rewrite Hfg. congruence.
Qed.

(** The zone fragment of a completed run. *)
Lemma mk_esnikeys_zonefrag (w : Esni.world) (o : Esni.options) (out : Esni.output) :
  Esni.mk_esnikeys w o = Ok out ->
  exists cnlen name,
    Esni.check_version o = Ok (cnlen, name)
    /\ if Esni.ekversion o =? 0xff02
       then exists frag,
              Esni.fp_esni_prr (Esni.esnikeys out) (Esni.ESNI_RRTYPE w) name = Ok frag
              /\ Esni.zonefrag out = Some frag
       else Esni.zonefrag out = None.
Proof.
  unfold Esni.mk_esnikeys. intro H.
  step_check H Ecover. step_check H Eaddr.
  step_check H Epos. step_check H Emax. step_check H Emin.
  step_bind H cn Ecn. destruct cn as [cnlen name]. cbn [fst snd] in H.
  step_bind H ext Eext. step_bind H public Epublic. step_check H Elen.
  step_defined H bbuf Ebody. step_bind H cksum Ecksum.
  step_defined H bbuf' Epatch.
  step_check H Eopen. step_check H Ewrite.
  exists cnlen, name. split; [reflexivity|].
  destruct (Esni.ekversion o =? 65282).
  - step_bind H frag Efrag. step_check H Efopen. injection H as <-.
    exists frag. split; [exact Efrag | reflexivity].
  - injection H as <-. reflexivity.
Qed.

(** C5, as the code has it.  Two runs with the same version, the same
    name, the same key bytes, the same extension data and, for the
    validity window, the same duration and the same reading of the
    clock, write byte-identical structures, whatever else differs (the
    file names, where the key and the addresses came from); with the
    same record type they write the same zone fragment too. *)
Theorem esnikeys_determined_by_inputs_and_clock
    (w1 w2 : Esni.world) (o1 o2 : Esni.options) (out1 out2 : Esni.output) :
  Esni.ekversion o1 = Esni.ekversion o2 ->
  Esni.cover_name o1 = Esni.cover_name o2 ->
  Esni.encodedpoint w1 (Esni.private_key_file o1)
  = Esni.encodedpoint w2 (Esni.private_key_file o2) ->
  (forall cnlen name,
     Esni.address_set w1 o1 cnlen name = Esni.address_set w2 o2 cnlen name) ->
  (forall b, Esni.SHA256 w1 b = Esni.SHA256 w2 b) ->
  Esni.duration o1 = Esni.duration o2 ->
  Esni.clock w1 = Esni.clock w2 ->
  Esni.mk_esnikeys w1 o1 = Ok out1 ->
  Esni.mk_esnikeys w2 o2 = Ok out2 ->
  Esni.esnikeys out1 = Esni.esnikeys out2
  /\ (Esni.ESNI_RRTYPE w1 = Esni.ESNI_RRTYPE w2 -> out1 = out2).
Proof.
  intros Hv Hn Hkey Hext Hsha Hdur Hclock H1 H2.
  destruct (mk_esnikeys_bytes _ _ _ H1)
    as (cnlen & name & extlen & extvals & public & cksum
        & Hver1 & Hext1 & Hkey1 & _ & Hout1 & Hgen1).
  destruct (mk_esnikeys_bytes _ _ _ H2)
    as (cnlen' & name' & extlen' & extvals' & public' & cksum'
        & Hver2 & Hext2 & Hkey2 & _ & Hout2 & Hgen2).
  rewrite (check_version_same o1 o2 Hv Hn), Hver2 in Hver1.
  injection Hver1 as <- <-.
  rewrite Hext, Hext2 in Hext1. injection Hext1 as <- <-.
  rewrite Hkey, Hkey2 in Hkey1. injection Hkey1 as <-.
  rewrite Hv, Hdur, Hclock in Hout1, Hgen1.
  assert (Hck : cksum = cksum')
    by exact (esni_checksum_gen_same _ _ _ _ _ _ _ Hsha Hgen1 Hgen2).
  subst cksum'.
  assert (Hbytes : Esni.esnikeys out1 = Esni.esnikeys out2) by congruence.
  split; [exact Hbytes|]. intro Hrr.
  destruct (mk_esnikeys_zonefrag _ _ _ H1) as (c1 & n1 & Hc1 & Hz1).
  destruct (mk_esnikeys_zonefrag _ _ _ H2) as (c2 & n2 & Hc2 & Hz2).
  rewrite (check_version_same o1 o2 Hv Hn), Hc2 in Hc1. injection Hc1 as <- <-.
  rewrite Hv, Hbytes, Hrr in Hz1.
  assert (Hzone : Esni.zonefrag out1 = Esni.zonefrag out2).
  { destruct (Esni.ekversion o2 =? 65282).
    - destruct Hz1 as (f1 & Hf1 & ->), Hz2 as (f2 & Hf2 & ->). congruence.
    - congruence. }
  destruct out1 as [b1 z1], out2 as [b2 z2]. cbn [Esni.esnikeys Esni.zonefrag] in *.
  congruence.
Qed.

(** The witness of C5: the draft-02 value, written to another file. *)
Lemma esnikeys_determined_by_inputs_and_clock_witness :
  let o2 := {| Esni.pubfname := Some "other.pub"; Esni.privfname := Some "other.priv";
               Esni.fragfname := None;
               Esni.ekversion := 0xff01; Esni.cover_name := None;
               Esni.includeaddrset := false; Esni.asetfname := None;
               Esni.duration := 60 * 60 * 24 * 6 |} in
  exists out1 out2,
    Esni.mk_esnikeys Sample.draft02_world Sample.draft02_options = Ok out1
    /\ Esni.mk_esnikeys Sample.draft02_world o2 = Ok out2
    /\ Esni.esnikeys out1 = Esni.esnikeys out2.
Proof.
  intro o2.
  destruct (Esni.mk_esnikeys Sample.draft02_world Sample.draft02_options)
    as [out1|f] eqn:E1; [|vm_compute in E1; discriminate E1].
  destruct (Esni.mk_esnikeys Sample.draft02_world o2)
    as [out2|f] eqn:E2; [|vm_compute in E2; discriminate E2].
  exists out1, out2. split; [reflexivity|]. split; [reflexivity|].
  exact (proj1 (esnikeys_determined_by_inputs_and_clock
                  Sample.draft02_world Sample.draft02_world
                  Sample.draft02_options o2 out1 out2
                  eq_refl eq_refl eq_refl (fun _ _ => eq_refl) (fun _ => eq_refl)
                  eq_refl eq_refl E1 E2)).
Defined.

(** C5 as stated fails: the structure is not a function of the version,
    the name, the key bytes and the extension data alone.  The same run
    one second later writes another not_before, another not_after and
    another checksum. *)
Lemma esnikeys_depend_on_clock_counterexample :
  ~ (forall (w1 w2 : Esni.world) (o1 o2 : Esni.options)
            (out1 out2 : Esni.output),
       Esni.ekversion o1 = Esni.ekversion o2 ->
       Esni.cover_name o1 = Esni.cover_name o2 ->
       Esni.encodedpoint w1 (Esni.private_key_file o1)
       = Esni.encodedpoint w2 (Esni.private_key_file o2) ->
       (forall cnlen name,
          Esni.address_set w1 o1 cnlen name = Esni.address_set w2 o2 cnlen name) ->
       (forall b, Esni.SHA256 w1 b = Esni.SHA256 w2 b) ->
       Esni.mk_esnikeys w1 o1 = Ok out1 ->
       Esni.mk_esnikeys w2 o2 = Ok out2 ->
       Esni.esnikeys out1 = Esni.esnikeys out2).
Proof.
  intro Hclaim.
  destruct (Esni.mk_esnikeys Sample.draft02_world Sample.draft02_options)
    as [out1|f] eqn:E1; [|vm_compute in E1; discriminate E1].
  destruct (Esni.mk_esnikeys Sample.draft02_world_later Sample.draft02_options)
    as [out2|f] eqn:E2; [|vm_compute in E2; discriminate E2].
  specialize (Hclaim Sample.draft02_world Sample.draft02_world_later
                Sample.draft02_options Sample.draft02_options out1 out2
                eq_refl eq_refl eq_refl (fun _ _ => eq_refl) (fun _ => eq_refl)
                E1 E2).
  vm_compute in E1, E2. injection E1 as <-. injection E2 as <-.
  vm_compute in Hclaim. discriminate Hclaim.
Qed.

(** ** The zone fragment, line by line *)

(** A buffer of at most 16 bytes is written on one line, without
    parentheses. *)
Example zone_fragment_unfolded :
  Esni.fp_esni_prr [0xff; 0x02; 0x00] 0xffdf "example.com"
  = Ok ("example.com. IN TYPE65503 \# 3 ff0200" ++ String Text.LF "").
Proof. reflexivity. Qed.

(** A longer buffer is folded after every 16 bytes, with a space after
    every 2 bytes, and closed with [" )"]. *)
Example zone_fragment_folded :
  Esni.fp_esni_prr (repeat 0xab 18) 0xffdf "a.example"
  = Ok ("a.example. IN TYPE65503 \# 18 ("
        ++ String Text.LF
             (Text.spaces 27 ++ "abab abab abab abab abab abab abab abab")
        ++ String Text.LF (Text.spaces 27 ++ "abab )")
        ++ String Text.LF "").
Proof. reflexivity. Qed.

Lemma div16_step (i : nat) :
  ((i + 16) / 16 = (i + 15) / 16 + if (i mod 16 =? 0) then 1 else 0)%nat.
Proof.
  pose proof (Nat.div_mod_eq i 16) as Hi.
  pose proof (Nat.mod_upper_bound i 16 ltac:(lia)) as Hr.
  set (q := (i / 16)%nat) in *. set (r := (i mod 16)%nat) in *.
  replace (i + 16)%nat with ((r + 16) + q * 16)%nat by lia.
  replace (i + 15)%nat with ((r + 15) + q * 16)%nat by lia.
  rewrite !Nat.div_add by lia.
  do 16 (destruct r as [|r]; [cbn; lia|]). lia.
Qed.

(** The number of line breaks [prr_folded] makes from index [i] on. *)
Lemma breaks_step (i n : nat) :
  ((i + S n + 15) / 16 - (i + 15) / 16
   = (if (i mod 16 =? 0) then 1 else 0)
     + ((S i + n + 15) / 16 - (S i + 15) / 16))%nat.
Proof.
  pose proof (div16_step i) as H.
  replace (S i + 15)%nat with (i + 16)%nat by lia.
  replace (S i + n + 15)%nat with (i + S n + 15)%nat by lia.
  assert ((i + 16) / 16 <= (i + S n + 15) / 16)%nat
    by (apply Nat.Div0.div_le_mono; lia).
  destruct (i mod 16 =? 0)%nat; lia.
Qed.

Lemma occurs_append (c : ascii) (s t : string) :
  C.occurs c (s ++ t) = C.occurs c s || C.occurs c t.
Proof.
  induction s as [|a s IH]; [reflexivity|].
  cbn [append C.occurs]. rewrite IH, orb_assoc. reflexivity.
Qed.

Lemma lines_nonempty (s : string) : Lines.lines s <> [].
Proof.
  destruct s as [|c s]; cbn [Lines.lines]; [discriminate|].
  destruct (Ascii.eqb c Text.LF); [discriminate|].
  destruct (Lines.lines s); discriminate.
Qed.

(** A piece without a newline stays on the line it is on. *)
Lemma lines_append (a b : string) :
  C.occurs Text.LF a = false ->
  Lines.lines (a ++ b) = (a ++ hd "" (Lines.lines b)) :: tl (Lines.lines b).
Proof.
  induction a as [|c a IH]; intro Ha.
  - cbn [append]. pose proof (lines_nonempty b).
    destruct (Lines.lines b); [congruence | reflexivity].
  - cbn [C.occurs] in Ha. apply orb_false_iff in Ha. destruct Ha as [Hc Ha].
    cbn [append Lines.lines]. rewrite Hc.
    rewrite (IH Ha). reflexivity.
Qed.

Lemma lines_newline (b : string) :
  Lines.lines (String Text.LF b) = "" :: Lines.lines b.
Proof. reflexivity. Qed.

Lemma indent_spaces (n : nat) (s : string) :
  Lines.indent (Text.spaces n ++ s) = (n + Lines.indent s)%nat.
Proof. induction n as [|n IH]; [reflexivity|]. cbn. rewrite IH. reflexivity. Qed.

Lemma hex_digit_printable (d : Z) :
  Ascii.eqb (Text.hex_digit d) Text.LF = false
  /\ Ascii.eqb (Text.hex_digit d) Text.SP = false.
Proof.
  unfold Text.hex_digit. generalize (Z.to_nat d) as n. intro n.
  do 15 (destruct n as [|n]; [split; reflexivity|]).
  split; reflexivity.
Qed.

Lemma occurs_spaces (n : nat) : C.occurs Text.LF (Text.spaces n) = false.
Proof. induction n as [|n IH]; [reflexivity | exact IH]. Qed.

Lemma occurs_hex2 (b : Z) : C.occurs Text.LF (Text.hex2 b) = false.
Proof.
  unfold Text.hex2. cbn [C.occurs].
  destruct (hex_digit_printable (b / 16)) as [H1 _].
  destruct (hex_digit_printable (b mod 16)) as [H2 _].
  rewrite H1, H2. reflexivity.
Qed.

Lemma indent_hex2 (b : Z) (s : string) : Lines.indent (Text.hex2 b ++ s) = 0%nat.
Proof.
  unfold Text.hex2. cbn [append Lines.indent].
  destruct (hex_digit_printable (b / 16)) as [_ H]. rewrite H. reflexivity.
Qed.

Lemma removelast_cons {A : Type} (x : A) (l : list A) :
  l <> [] -> removelast (x :: l) = x :: removelast l.
Proof. destruct l; [congruence | reflexivity]. Qed.

(** The lines of the folded loop from index [i] on, with the closing
    [" )"] and newline: after what is left of the current line, one line
    for every index that is a multiple of 16, each starting with the
    padding and eighteen more spaces. *)
Lemma prr_folded_lines (n : nat) (buf : list Z) (i : nat) :
  exists l0 ls,
    Lines.lines (Esni.prr_folded (Text.spaces n) buf i ++ " )" ++ String Text.LF "")
    = l0 :: ls
    /\ ls <> []
    /\ Forall (fun l => Lines.indent l = (n + 18)%nat) (removelast ls)
    /\ List.length (removelast ls)
       = ((i + List.length buf + 15) / 16 - (i + 15) / 16)%nat.
Proof.
  revert i. induction buf as [|b rest IH]; intro i.
  - exists " )", [""]. repeat split; try discriminate.
    + constructor.
    + cbn [List.length removelast]. rewrite Nat.add_0_r. lia.
  - destruct (IH (S i)) as (l0 & ls & Hlines & Hne & Hall & Hcount).
    cbn [Esni.prr_folded List.length].
    set (X := Esni.prr_folded (Text.spaces n) rest (S i) ++ " )" ++ String Text.LF "") in *.
    destruct (i mod 16 =? 0)%nat eqn:E16.
    + exists "", ((Text.spaces n ++ Text.spaces 18 ++ Text.hex2 b ++ l0) :: ls).
      split; [|split; [discriminate|split]].
      * change (String Text.LF (Text.spaces n) ++ "                  ")
          with (String Text.LF (Text.spaces n ++ Text.spaces 18)).
        rewrite !append_assoc. fold X. cbn [append]. rewrite lines_newline.
        f_equal. rewrite <- !append_assoc.
        rewrite lines_append, Hlines; [cbn [hd tl]; rewrite !append_assoc; reflexivity|].
        rewrite !occurs_append, !occurs_spaces, occurs_hex2. reflexivity.
      * rewrite removelast_cons by exact Hne. constructor; [|exact Hall].
        rewrite indent_spaces, indent_spaces, indent_hex2. lia.
      * rewrite removelast_cons by exact Hne. cbn [List.length].
        rewrite breaks_step, E16, Hcount. reflexivity.
    + exists (((if (i mod 2 =? 0)%nat then " " else "") ++ Text.hex2 b) ++ l0), ls.
      split; [|split; [exact Hne|split; [exact Hall|]]];
        [|rewrite breaks_step, E16, Hcount; reflexivity].
      rewrite !append_assoc. fold X. rewrite <- append_assoc.
      rewrite lines_append, Hlines;
        [cbn [hd tl]; rewrite ?append_assoc; reflexivity|].
      rewrite occurs_append, occurs_hex2.
      destruct (i mod 2 =? 0)%nat; reflexivity.
Qed.

Lemma occurs_dec (z : Z) : C.occurs Text.LF (Text.dec z) = false.
Proof.
  assert (Hu : forall d, C.occurs Text.LF (NilEmpty.string_of_uint d) = false).
  { induction d; cbn [NilEmpty.string_of_uint C.occurs]; try exact IHd; reflexivity. }
  assert (Hz : forall d, C.occurs Text.LF (NilZero.string_of_uint d) = false).
  { intro d. destruct d; try apply Hu. reflexivity. }
  unfold Text.dec, NilZero.string_of_int.
  destruct (Z.to_int z); [apply Hz|]. cbn [C.occurs]. apply Hz.
Qed.

(** C8, as the code has it.  In the folded rendering (a buffer of more
    than 16 bytes) every continuation line starts with exactly as many
    spaces as the owner name has characters plus eighteen, and then a
    hexadecimal digit; there is one continuation line for every 16
    bytes or part of 16 bytes. *)
Theorem continuation_lines_indent (buf : list Z) (typecode : Z)
    (owner_name : string) :
  (16 < List.length buf)%nat ->
  (C.strlen owner_name <= 254)%nat ->
  C.occurs Text.LF (C.cstr owner_name) = false ->
  exists out,
    Esni.fp_esni_prr buf typecode owner_name = Ok out
    /\ Forall (fun l => Lines.indent l = (C.strlen owner_name + 18)%nat)
         (Lines.continuation_lines out)
    /\ List.length (Lines.continuation_lines out)
       = ((List.length buf + 15) / 16)%nat.
Proof.
  intros Hbuf Hname Hlf. unfold Esni.fp_esni_prr.
  replace (16 <? Z.of_nat (List.length buf)) with true
    by (symmetry; apply Z.ltb_lt; lia).
  replace (Z.of_nat (C.strlen owner_name) <=? Esni.MAX_ESNI_COVER_NAME) with true
    by (symmetry; apply Z.leb_le; unfold Esni.MAX_ESNI_COVER_NAME; lia).
  eexists. split; [reflexivity|].
  destruct (prr_folded_lines (C.strlen owner_name) buf 0)
    as (l0 & ls & Hlines & Hne & Hall & Hcount).
  unfold Lines.continuation_lines.
  set (header := C.cstr owner_name ++ ". IN TYPE" ++ Text.dec typecode ++ " \# "
                 ++ Text.dec (Z.of_nat (List.length buf)) ++ " (").
  assert (Hheader : C.occurs Text.LF header = false).
  { unfold header. rewrite !occurs_append, Hlf, !occurs_dec. reflexivity. }
  replace (C.cstr owner_name ++ ". IN TYPE" ++ Text.dec typecode ++ " \# "
           ++ Text.dec (Z.of_nat (List.length buf)) ++ " ("
           ++ Esni.prr_folded (Text.spaces (C.strlen owner_name)) buf 0
           ++ " )" ++ String Text.LF "")
    with (header ++ Esni.prr_folded (Text.spaces (C.strlen owner_name)) buf 0
          ++ " )" ++ String Text.LF "")
    by (unfold header; rewrite !append_assoc; reflexivity).
  rewrite (lines_append _ _ Hheader), Hlines. cbn [hd tl].
  split; [exact Hall|]. rewrite Hcount.
  change ((0 + 15) / 16)%nat with 0%nat. apply Nat.sub_0_r.
Qed.

(** The witness of C8: the draft-03 value under the owner name
    [example.com]. *)
Lemma continuation_lines_indent_witness :
  (16 < List.length Sample.draft03_value)%nat
  /\ (C.strlen "example.com" <= 254)%nat
  /\ C.occurs Text.LF (C.cstr "example.com") = false
  /\ exists out,
       Esni.fp_esni_prr Sample.draft03_value 0xffdf "example.com" = Ok out
       /\ Forall (fun l => Lines.indent l = 29%nat) (Lines.continuation_lines out)
       /\ List.length (Lines.continuation_lines out) = 9%nat.
Proof.
  assert (H1 : (16 < List.length Sample.draft03_value)%nat) by (cbn; lia).
  assert (H2 : (C.strlen "example.com" <= 254)%nat) by (cbn; lia).
  assert (H3 : C.occurs Text.LF (C.cstr "example.com") = false) by reflexivity.
  split; [exact H1|]. split; [exact H2|]. split; [exact H3|].
  exact (continuation_lines_indent Sample.draft03_value 0xffdf "example.com"
           H1 H2 H3).
Defined.

(** C8 as stated fails: under the owner name [example.com], of eleven
    characters, the continuation lines do not start with eleven spaces
    (they start with twenty-nine). *)
Lemma continuation_lines_indent_counterexample :
  ~ (forall (buf : list Z) (typecode : Z) (owner_name : string),
       (16 < List.length buf)%nat ->
       (C.strlen owner_name <= 254)%nat ->
       C.occurs Text.LF (C.cstr owner_name) = false ->
       exists out,
         Esni.fp_esni_prr buf typecode owner_name = Ok out
         /\ Forall (fun l => Lines.indent l = C.strlen owner_name)
              (Lines.continuation_lines out)).
Proof.
  intro Hclaim.
  destruct (Hclaim (repeat 0 17) 0xffdf "example.com"
              ltac:(cbn; lia) ltac:(cbn; lia) eq_refl) as (out & E & Hall).
  vm_compute in E. injection E as <-.
  vm_compute in Hall. inversion Hall as [|l ls Hl _]. discriminate Hl.
Qed.

(** ** The address list: what [add2alist] keeps *)

Lemma prefix_refl (s : string) : String.prefix s s = true.
Proof.
  induction s as [|c s IH]; [reflexivity|].
  cbn [String.prefix]. destruct (ascii_dec c c); [exact IH | congruence].
Qed.

Lemma existsb_prefix_In (ips : list string) (s : string) :
  Forall (fun ip => C.cstr ip = ip) ips -> In s ips ->
  existsb (fun ip => String.prefix s (C.cstr ip)) ips = true.
Proof.
  intros Hc Hin. apply existsb_exists. exists s. split; [exact Hin|].
  rewrite Forall_forall in Hc. rewrite (Hc s Hin). apply prefix_refl.
Qed.

Lemma add2alist_keeps (ips : list string) (line : string) (rv : Z)
    (ips' : list string) :
  AddressList.kept_list ips -> Esni.add2alist ips line = Ok (rv, ips') ->
  AddressList.kept_list ips'
  /\ ((rv = 1 /\ ips' = ips) \/ (rv = 0 /\ ips' = (ips ++ [C.strdup line])%list)).
Proof.
  intros (Hlen & Hc & Hnd). unfold Esni.add2alist, AddressList.kept_list, Esni.MAX_ESNI_ADDRS in *.
  rewrite found_prefix.
  destruct ips as [|ip ips].
  - cbn. intros [= <- <-]. split; [|right; split; reflexivity].
    split; [cbn [List.length]; lia|]. split.
    + constructor; [apply cstr_idempotent | constructor].
    + constructor; [intros [] | constructor].
  - change (List.length (ip :: ips) =? 0)%nat with false. cbv iota.
    destruct (existsb _ (ip :: ips)) eqn:Ex.
    + intros [= <- <-]. split; [|left; split; reflexivity]. repeat split; assumption.
    + destruct (Nat.eqb_spec (List.length (ip :: ips)) 16) as [E|E]; [discriminate|].
      intro H.
      assert (Hr : rv = 0 /\ ips' = ((ip :: ips) ++ [C.strdup line])%list)
        by (split; congruence).
      destruct Hr as [-> ->]. clear H.
      split; [|right; split; reflexivity].
      split; [rewrite length_app; cbn [List.length] in *; lia|].
      split.
      * apply Forall_app. split; [exact Hc|].
        constructor; [apply cstr_idempotent | constructor].
      * apply NoDup_app; [exact Hnd | constructor; [intros [] | constructor] |].
        intros x Hx [<-|[]].
        rewrite (existsb_prefix_In (ip :: ips) (C.cstr line) Hc Hx) in Ex.
        discriminate Ex.
Qed.

Lemma kept_list_nil : AddressList.kept_list [].
Proof.
  split; [cbn; unfold Esni.MAX_ESNI_ADDRS; lia|]. split; constructor.
Qed.

(** Both loops keep the list as [add2alist] does, and only append. *)
Lemma add_all_keeps (astrs ips ips' : list string) :
  AddressList.kept_list ips -> Esni.add_all astrs ips = Ok ips' ->
  AddressList.kept_list ips'
  /\ exists added, ips' = (ips ++ added)%list
                   /\ incl added (List.map C.strdup astrs).
Proof.
  revert ips. induction astrs as [|astr rest IH]; intros ips Hk H.
  - cbn in H. injection H as <-. split; [exact Hk|].
    exists []. rewrite app_nil_r. split; [reflexivity | apply incl_nil_l].
  - cbn [Esni.add_all] in H. step_bind H r Er. destruct r as [rv ips1].
    cbn [snd] in H.
    destruct (add2alist_keeps ips astr rv ips1 Hk Er) as [Hk1 Hcase].
    destruct (IH ips1 Hk1 H) as (Hk' & added & -> & Hincl).
    split; [exact Hk'|].
    destruct Hcase as [[_ ->]|[_ ->]].
    + exists added. split; [reflexivity|]. cbn [List.map]. apply incl_tl, Hincl.
    + exists (C.strdup astr :: added). split; [rewrite <- app_assoc; reflexivity|].
      cbn [List.map]. apply incl_cons; [left; reflexivity | apply incl_tl, Hincl].
Qed.

Lemma add2alist_cstr (ips : list string) (l1 l2 : string) :
  C.cstr l1 = C.cstr l2 -> Esni.add2alist ips l1 = Esni.add2alist ips l2.
Proof.
  intro H. unfold Esni.add2alist, C.strdup. rewrite !found_prefix, H. reflexivity.
Qed.

Lemma chop_last (s : string) (c : ascii) : AddressList.chop (s ++ String c "") = s.
Proof.
  induction s as [|a s IH]; [reflexivity|].
  cbn [append AddressList.chop]. rewrite IH.
  destruct (s ++ String c "") eqn:E; [destruct s; discriminate E | reflexivity].
Qed.

Lemma cstr_append_nul (s rest : string) :
  C.cstr (s ++ String C.NUL rest) = C.cstr s.
Proof.
  induction s as [|a s IH]; [reflexivity|].
  cbn [append C.cstr]. rewrite IH. reflexivity.
Qed.

(** What the file loop hands to [add2alist] for a line: the storage of
    the line with NUL over its last character, which as a C string is
    the line without that character. *)
Lemma zapped_line (line : string) :
  line <> "" ->
  exists line',
    C.set_char line (Z.of_nat (String.length line) - 1) C.NUL = Some line'
    /\ C.cstr line' = C.cstr (AddressList.chop line).
Proof.
  intro Hne. destruct (last_char_split C.NUL line Hne) as (s & d & -> & _).
  exists (s ++ String C.NUL ""). split.
  - unfold C.set_char. rewrite length_append. cbn [String.length].
    replace (Z.of_nat (String.length s + 1) - 1) with (Z.of_nat (String.length s)) by lia.
    destruct (Z.ltb_spec (Z.of_nat (String.length s)) 0); [lia|].
    destruct (Z.ltb_spec (Z.of_nat (String.length s)) (Z.of_nat (String.length s + 1))); [|lia].
    rewrite Nat2Z.id, set_nth_append_here. reflexivity.
  - rewrite chop_last, cstr_append_nul. reflexivity.
Qed.

Lemma add_lines_as_add_all (lines ips : list string) :
  Forall (fun line => line <> "") lines ->
  Esni.add_lines lines ips
  = Esni.add_all
      (List.map AddressList.chop
         (filter (fun line => negb (AddressList.is_comment line)) lines))
      ips.
Proof.
  intro Hne. revert ips. induction Hne as [|line rest Hline _ IH]; intro ips;
    [reflexivity|].
  cbn [Esni.add_lines filter]. unfold AddressList.is_comment at 1.
  destruct (Ascii.eqb (C.head_char line) "#"); cbn [negb]; [apply IH|].
  destruct (zapped_line line Hline) as (line' & -> & Hc).
  cbn [defined bind List.map Esni.add_all].
  rewrite (add2alist_cstr ips line' (AddressList.chop line) Hc).
  destruct (Esni.add2alist ips (AddressList.chop line)) as [r|f]; [|reflexivity].
  cbn [bind]. apply IH.
Qed.

Lemma add2alist_cases (ips : list string) (line : string) (rv : Z)
    (ips' : list string) :
  Esni.add2alist ips line = Ok (rv, ips') ->
  (rv = 1 /\ ips' = ips) \/ (rv = 0 /\ ips' = (ips ++ [C.strdup line])%list).
Proof.
  unfold Esni.add2alist.
  destruct ips as [|ip ips]; cbn [List.length Nat.eqb].
  - intro H. right. split; [congruence|]. cbn [app]. congruence.
  - destruct (Esni.found (ip :: ips) line).
    + intro H. left. split; congruence.
    + match goal with |- context [if ?b then _ else _] => destruct b end;
        [discriminate|].
      intro H. right. split; congruence.
Qed.

Lemma add_lines_keeps (lines ips ips' : list string) :
  AddressList.kept_list ips -> Esni.add_lines lines ips = Ok ips' ->
  AddressList.kept_list ips'.
Proof.
  revert ips. induction lines as [|line rest IH]; intros ips Hk H.
  - cbn in H. injection H as <-. exact Hk.
  - cbn [Esni.add_lines] in H.
    destruct (Ascii.eqb (C.head_char line) "#"); [exact (IH ips Hk H)|].
    step_defined H line' El. step_bind H r Er. destruct r as [rv ips1].
    cbn [snd] in H.
    destruct (add2alist_keeps ips line' rv ips1 Hk Er) as [Hk1 _].
    exact (IH ips1 Hk1 H).
Qed.

(** ** The address list *)

(** X1. Whatever the resolver or the address file supplies, the list
    that [add2alist] builds never has more than [MAX_ESNI_ADDRS] = 16
    entries, never holds the same address twice, and every entry is a
    C string of its own (no NUL inside). *)
Theorem address_list_bounded_and_distinct (src ips ips' : list string) :
  AddressList.kept_list ips ->
  Esni.add_all src ips = Ok ips' \/ Esni.add_lines src ips = Ok ips' ->
  (List.length ips' <= 16)%nat
  /\ NoDup ips'
  /\ Forall (fun ip => C.cstr ip = ip) ips'.
Proof.
  intros Hk [H|H].
  - destruct (add_all_keeps src ips ips' Hk H) as [(Hl & Hc & Hn) _].
    repeat split; assumption.
  - destruct (add_lines_keeps src ips ips' Hk H) as (Hl & Hc & Hn).
    repeat split; assumption.
Qed.

Lemma address_list_bounded_and_distinct_witness :
  (List.length ["192.0.2.1"; "2001:db8::1"] <= 16)%nat
  /\ NoDup ["192.0.2.1"; "2001:db8::1"]
  /\ Forall (fun ip => C.cstr ip = ip) ["192.0.2.1"; "2001:db8::1"].
Proof.
  apply (address_list_bounded_and_distinct
           ["192.0.2.1"; "2001:db8::1"; "192.0.2.1"] []
           ["192.0.2.1"; "2001:db8::1"]).
  - split; [cbn; unfold Esni.MAX_ESNI_ADDRS; lia | split; constructor].
  - left. reflexivity.
Defined.

(** X2. The list only grows at its end: after any run of the resolver
    loop the entries that were there are still there, in their places,
    and what follows them are copies of supplied addresses; an empty
    list always takes the first address it is given. *)
Theorem address_list_append_only (astrs ips ips' : list string) :
  Esni.add_all astrs ips = Ok ips' ->
  (exists added,
      ips' = (ips ++ added)%list /\ incl added (List.map C.strdup astrs))
  /\ (ips = [] -> forall a rest, astrs = a :: rest -> hd_error ips' = Some (C.strdup a)).
Proof.
  revert ips. induction astrs as [|astr rest IH]; intros ips H.
  - cbn in H. injection H as <-. split; [|intros _ a r E; discriminate E].
    exists []. rewrite app_nil_r. split; [reflexivity | apply incl_nil_l].
  - cbn [Esni.add_all] in H. step_bind H r Er. destruct r as [rv ips1].
    cbn [snd] in H. destruct (IH ips1 H) as [(added & -> & Hincl) _].
    assert (Hcase := add2alist_cases ips astr rv ips1 Er).
    split.
    + destruct Hcase as [[_ ->]|[_ ->]].
      * exists added. split; [reflexivity|]. cbn [List.map]. apply incl_tl, Hincl.
      * exists (C.strdup astr :: added).
        split; [rewrite <- app_assoc; reflexivity|].
        cbn [List.map]. apply incl_cons; [left; reflexivity | apply incl_tl, Hincl].
    + intros -> a r [= <- <-]. cbn in Er. injection Er as _ <-. reflexivity.
Qed.

Lemma address_list_append_only_witness :
  (exists added,
      ["192.0.2.1"; "2001:db8::1"] = ([] ++ added)%list
      /\ incl added (List.map C.strdup ["192.0.2.1"; "2001:db8::1"; "192.0.2.1"]))
  /\ (@nil string = [] -> forall a rest,
        ["192.0.2.1"; "2001:db8::1"; "192.0.2.1"] = a :: rest ->
        hd_error ["192.0.2.1"; "2001:db8::1"] = Some (C.strdup a)).
Proof.
  apply (address_list_append_only ["192.0.2.1"; "2001:db8::1"; "192.0.2.1"] []
           ["192.0.2.1"; "2001:db8::1"]).
  reflexivity.
Defined.

(** X3. An address that is already an entry of the list is never added
    again: [add2alist] returns 1 and leaves the list as it is, whatever
    follows the address's NUL in the caller's buffer. *)
Theorem known_address_not_added_again (ips : list string) (line : string) :
  Forall (fun ip => C.cstr ip = ip) ips ->
  In (C.cstr line) ips ->
  Esni.add2alist ips line = Ok (1, ips).
Proof.
  intros Hc Hin. apply add2alist_present. split.
  - intros ->. destruct Hin.
  - assert (H := existsb_prefix_In ips (C.cstr line) Hc Hin).
    exact H.
Qed.

Lemma known_address_not_added_again_witness :
  Esni.add2alist ["192.0.2.1"; "2001:db8::1"] "2001:db8::1"
  = Ok (1, ["192.0.2.1"; "2001:db8::1"]).
Proof.
  apply (known_address_not_added_again ["192.0.2.1"; "2001:db8::1"] "2001:db8::1").
  - repeat constructor.
  - right. left. reflexivity.
Defined.

(** X4. Reading addresses from a file is the resolver loop on the lines
    that do not start with [#], each without its last character: the
    loop overwrites the last character of every line it keeps, a newline
    or not, so a last line that does not end in a newline loses the last
    character of its address. *)
Theorem address_file_lines_lose_last_character (lines ips : list string) :
  Forall (fun line => line <> "") lines ->
  Esni.add_lines lines ips
  = Esni.add_all
      (List.map AddressList.chop
         (filter (fun line => negb (AddressList.is_comment line)) lines))
      ips.
Proof.
  exact (add_lines_as_add_all lines ips).
Qed.

Lemma address_file_lines_lose_last_character_witness :
  Esni.add_lines [ "# addresses" ++ String Text.LF ""; "192.0.2.1" ++ String Text.LF "";
                    "192.0.2.27" ] []
  = Esni.add_all
      (List.map AddressList.chop
         (filter (fun line => negb (AddressList.is_comment line))
            [ "# addresses" ++ String Text.LF ""; "192.0.2.1" ++ String Text.LF "";
              "192.0.2.27" ]))
      [].
Proof.
  apply (address_file_lines_lose_last_character
           [ "# addresses" ++ String Text.LF ""; "192.0.2.1" ++ String Text.LF "";
             "192.0.2.27" ] []).
  repeat constructor; discriminate.
Defined.

(** ** The AddressSet extension *)

Lemma count_split (ips : list string) :
  (AddressList.count4 ips + AddressList.count6 ips = List.length ips)%nat.
Proof.
  unfold AddressList.count4, AddressList.count6. induction ips as [|ip ips IH]; [reflexivity|].
  cbn [filter List.length]. destruct (C.strrchr_found ip ":"); cbn [negb List.length]; lia.
Qed.

Lemma put_u8_length (cap : nat) (v : Z) (w w' : list Z) :
  Writer.put_u8 cap v w = Some w' -> List.length w' = S (List.length w).
Proof.
  unfold Writer.put_u8.
  match goal with |- context [if ?b then _ else _] => destruct b end;
    [|discriminate].
  intros [= <-]. rewrite length_app. cbn. lia.
Qed.

Lemma put_bytes_length (cap : nat) (src : list Z) (n : nat) (w w' : list Z) :
  Writer.put_bytes cap src n w = Some w' ->
  List.length w' = (List.length w + n)%nat.
Proof.
  unfold Writer.put_bytes.
  repeat match goal with |- context [if ?b then _ else _] => destruct b eqn:? end;
    try discriminate.
  intros [= <-]. rewrite length_app, length_firstn.
  repeat match goal with H : (_ && _)%bool = true |- _ => apply andb_true_iff in H; destruct H end.
  repeat match goal with H : (_ <=? _)%nat = true |- _ => apply Nat.leb_le in H end.
  lia.
Qed.

(** One turn of the loop appends a tag and 4 or 16 bytes. *)
Lemma addrs_loop_length (pton : Esni.family -> string -> option (list Z))
    (ips : list string) (t0 t : list Z) :
  Esni.addrs_loop pton ips t0 = Ok t ->
  List.length t
  = (List.length t0 + 5 * AddressList.count4 ips + 17 * AddressList.count6 ips)%nat.
Proof.
  unfold AddressList.count4, AddressList.count6.
  revert t0. induction ips as [|ip ips IH]; intros t0 H.
  - cbn in H. injection H as <-. cbn. lia.
  - cbn [Esni.addrs_loop] in H. step_bind H t1 E1. step_check H Espace.
    apply IH in H. rewrite H. cbn [filter].
    destruct (C.strrchr_found ip ":"); cbn [negb List.length].
    + step_defined E1 tg Et. destruct (pton Esni.AF_INET6 ip) as [a|]; [|discriminate E1].
      destruct (Writer.put_bytes _ a _ tg) as [tb|] eqn:Eb; [|discriminate E1].
      injection E1 as <-.
      apply put_u8_length in Et. apply put_bytes_length in Eb. lia.
    + step_defined E1 tg Et. destruct (pton Esni.AF_INET ip) as [a|]; [|discriminate E1].
      destruct (Writer.put_bytes _ a _ tg) as [tb|] eqn:Eb; [|discriminate E1].
      injection E1 as <-.
      apply put_u8_length in Et. apply put_bytes_length in Eb. lia.
Qed.

(** With room for 17 bytes per address below the limit of line 494, the
    loop ends in one of three ways: it completes, an address does not
    parse, or [inet_pton] was given less than an address to copy. *)
Lemma addrs_loop_outcome (pton : Esni.family -> string -> option (list Z))
    (ips : list string) (t0 : list Z) :
  (List.length t0 + 17 * List.length ips <= 924)%nat ->
  (exists t, Esni.addrs_loop pton ips t0 = Ok t)
  \/ Esni.addrs_loop pton ips t0 = Fail AddressParseError
  \/ Esni.addrs_loop pton ips t0 = Fail Undefined.
Proof.
  revert t0. induction ips as [|ip ips IH]; intros t0 Hroom.
  - left. exists t0. reflexivity.
  - cbn [List.length] in Hroom. cbn [Esni.addrs_loop].
    assert (Hstep : forall tag af n, (n <= 16)%nat ->
      (exists t1, (t1 <- defined (Writer.put_u8 Esni.MAX_ESNIKEYS_BUFLEN tag t0) ;;
                   match pton af ip with
                   | None => Fail AddressParseError
                   | Some a => defined (Writer.put_bytes Esni.MAX_ESNIKEYS_BUFLEN a n t1)
                   end)%result = Ok t1
                  /\ (List.length t1 <= List.length t0 + 17)%nat)
      \/ (t1 <- defined (Writer.put_u8 Esni.MAX_ESNIKEYS_BUFLEN tag t0) ;;
          match pton af ip with
          | None => Fail AddressParseError
          | Some a => defined (Writer.put_bytes Esni.MAX_ESNIKEYS_BUFLEN a n t1)
          end)%result = Fail AddressParseError
      \/ (t1 <- defined (Writer.put_u8 Esni.MAX_ESNIKEYS_BUFLEN tag t0) ;;
          match pton af ip with
          | None => Fail AddressParseError
          | Some a => defined (Writer.put_bytes Esni.MAX_ESNIKEYS_BUFLEN a n t1)
          end)%result = Fail Undefined).
    { intros tag af n Hn. unfold Writer.put_u8, Esni.MAX_ESNIKEYS_BUFLEN.
      destruct (Nat.ltb_spec (List.length t0) 1024); [|lia].
      cbn [defined bind].
      destruct (pton af ip) as [a|]; [|right; left; reflexivity].
      unfold Writer.put_bytes.
      destruct (Nat.leb_spec n (List.length a)); cbn [andb];
        [|right; right; reflexivity].
      rewrite length_app. cbn [List.length].
      destruct (Nat.leb_spec (List.length t0 + 1 + n) 1024); [|lia].
      left. eexists. split; [reflexivity|].
      rewrite !length_app, length_firstn. cbn [List.length]. lia. }
    destruct (C.strrchr_found ip ":").
    + destruct (Hstep 6 Esni.AF_INET6 16%nat (Nat.le_refl _))
        as [(t1 & -> & Hl)|[->| ->]];
        [|right; left; reflexivity | right; right; reflexivity].
      cbn [bind]. unfold Esni.MAX_ESNIKEYS_BUFLEN.
      destruct (Z.leb_spec (Z.of_nat (List.length t1)) (Z.of_nat 1024 - 100)); [|lia].
      apply IH. lia.
    + destruct (Hstep 4 Esni.AF_INET 4%nat ltac:(lia))
        as [(t1 & -> & Hl)|[->| ->]];
        [|right; left; reflexivity | right; right; reflexivity].
      cbn [bind]. unfold Esni.MAX_ESNIKEYS_BUFLEN.
      destruct (Z.leb_spec (Z.of_nat (List.length t1)) (Z.of_nat 1024 - 100)); [|lia].
      apply IH. lia.
Qed.

(** X5. Encoding the addresses takes 5 bytes for each IPv4 address and
    17 for each IPv6 address (a tag and the address), at most 272 bytes
    for a list of up to 16, so the "Out of space" exit of line 494, which
    asks for more than 924 bytes, is never taken. *)
Theorem address_bytes_fit (pton : Esni.family -> string -> option (list Z))
    (ips : list string) :
  (List.length ips <= 16)%nat ->
  Esni.addrs_loop pton ips [] <> Fail OutOfSpace
  /\ forall t, Esni.addrs_loop pton ips [] = Ok t ->
       List.length t = (5 * AddressList.count4 ips + 17 * AddressList.count6 ips)%nat
       /\ (List.length t <= 272)%nat.
Proof.
  intro Hlen. split.
  - destruct (addrs_loop_outcome pton ips []) as [[t E]|[E|E]];
      [cbn [List.length]; lia | | |]; rewrite E; discriminate.
  - intros t H. apply addrs_loop_length in H. cbn [List.length] in H.
    pose proof (count_split ips). lia.
Qed.

Lemma address_bytes_fit_witness :
  Esni.addrs_loop (fun _ => Sample.lookup Sample.draft03_addresses)
    (List.map fst Sample.draft03_addresses) [] <> Fail OutOfSpace
  /\ forall t,
       Esni.addrs_loop (fun _ => Sample.lookup Sample.draft03_addresses)
         (List.map fst Sample.draft03_addresses) [] = Ok t ->
       List.length t
       = (5 * AddressList.count4 (List.map fst Sample.draft03_addresses)
          + 17 * AddressList.count6 (List.map fst Sample.draft03_addresses))%nat
       /\ (List.length t <= 272)%nat.
Proof.
  apply (address_bytes_fit (fun _ => Sample.lookup Sample.draft03_addresses)
           (List.map fst Sample.draft03_addresses)).
  cbn. lia.
Defined.

Lemma extension_length_bytes (n : Z) :
  0 <= n <= 272 -> n <> 252 ->
  [Esni.u8 (((n + 4) >> 8) %% 256); Esni.u8 ((n + 3) %% 256)] = Wire.u16be (n + 3).
Proof.
  intros Hn Hne. rewrite <- (u16_stores (n + 3)) by lia.
  do 2 f_equal. rewrite !Z.shiftr_div_pow2 by lia. change (2 ^ 8) with 256.
  destruct (Z_lt_le_dec (n + 4) 256).
  - rewrite !Z.div_small by lia. reflexivity.
  - replace ((n + 4) / 256) with 1
      by (apply (Z.div_unique (n + 4) 256 1 (n + 4 - 256)); lia).
    replace ((n + 3) / 256) with 1
      by (apply (Z.div_unique (n + 3) 256 1 (n + 3 - 256)); lia).
    reflexivity.
Qed.

(** What [address_set] returns when the extension is asked for. *)
Lemma address_set_inv (w : Esni.world) (o : Esni.options)
    (cnlen : Z) (name : string) (extlen : Z) (extvals : list Z) :
  Esni.ekversion o = 0xff02 -> Esni.includeaddrset o = true ->
  Esni.address_set w o cnlen name = Ok (extlen, extvals) ->
  exists ips tmpebuf,
    AddressList.kept_list ips
    /\ Esni.addrs_loop (Esni.inet_pton w) ips [] = Ok tmpebuf
    /\ Z.of_nat (List.length tmpebuf) <= 272
    /\ Z.of_nat (List.length tmpebuf) <> 252
    /\ extlen = Z.of_nat (List.length tmpebuf) + 6
    /\ extvals = (Wire.u16be (Z.of_nat (List.length tmpebuf) + 3) ++ [0x10; 0x01]
                  ++ Wire.u16be (Z.of_nat (List.length tmpebuf)) ++ tmpebuf)%list.
Proof.
  intros Hv Ha. unfold Esni.address_set. rewrite Hv, Ha. cbn [Z.eqb Pos.eqb andb].
  intro H. step_bind H ips Eips. step_bind H tmpebuf Et. step_bind H ev Eev.
  step_check H Emalloc.
  assert (Hk : AddressList.kept_list ips).
  { destruct (Esni.asetfname o) as [fname|].
    - destruct (Esni.address_file w fname) as [lines|]; [|discriminate Eips].
      exact (add_lines_keeps lines [] ips kept_list_nil Eips).
    - destruct (negb (cnlen =? 0)); [|discriminate Eips].
      destruct (Esni.resolve w (C.cstr name)) as [astrs|]; [|discriminate Eips].
      exact (proj1 (add_all_keeps astrs [] ips kept_list_nil Eips)). }
  exists ips, tmpebuf.
  pose proof (addrs_loop_length _ _ _ _ Et) as Hl. cbn [List.length] in Hl.
  pose proof (count_split ips) as Hs.
  pose proof Hk as (Hlen & _ & _). unfold Esni.MAX_ESNI_ADDRS in Hlen.
  assert (Hb : 0 <= Z.of_nat (List.length tmpebuf) <= 272) by lia.
  assert (Hne : Z.of_nat (List.length tmpebuf) <> 252) by lia.
  injection H as <- <-.
  unfold Esni.addrset_extvals in Eev.
  destruct (Z.leb_spec (Z.of_nat (List.length tmpebuf)) 65535); [|lia].
  assert (Hev : ev = ([Esni.u8 (((Z.of_nat (List.length tmpebuf) + 4) >> 8) %% 256);
                       Esni.u8 ((Z.of_nat (List.length tmpebuf) + 3) %% 256)]
                      ++ [0x10; 0x01]
                      ++ [Esni.u8 ((Z.of_nat (List.length tmpebuf) >> 8) %% 256);
                          Esni.u8 (Z.of_nat (List.length tmpebuf) %% 256)]
                      ++ tmpebuf)%list).
  { match goal with |- ev = ?form =>
      assert (E2 : Ok ev = Ok form) by (rewrite <- Eev; reflexivity)
    end.
    congruence. }
  rewrite extension_length_bytes, u16_stores in Hev by lia.
  repeat (split; [first [assumption | reflexivity | lia]|]). exact Hev.
Qed.

(** X6. The AddressSet extension as [mk_esnikeys] lays it out: six bytes
    of header and the [nelen] bytes of the addresses.  The header says
    type 0x1001 and data of [nelen] bytes, but the length in front of the
    extensions is [nelen + 3], one less than the [nelen + 4] bytes that
    follow it; the high byte, taken from [nelen + 4], never differs from
    that of [nelen + 3] because 16 addresses cannot make 252 bytes. *)
Theorem address_set_outer_length_one_short (w : Esni.world) (o : Esni.options)
    (cnlen : Z) (name : string) (extlen : Z) (extvals : list Z) :
  Esni.ekversion o = 0xff02 -> Esni.includeaddrset o = true ->
  Esni.address_set w o cnlen name = Ok (extlen, extvals) ->
  exists tmpebuf,
    let nelen := Z.of_nat (List.length tmpebuf) in
    extvals = (Wire.u16be (nelen + 3) ++ [0x10; 0x01] ++ Wire.u16be nelen
               ++ tmpebuf)%list
    /\ extlen = Z.of_nat (List.length extvals)
    /\ Z.of_nat (List.length (skipn 2 extvals)) = nelen + 4
    /\ nelen <= 272.
Proof.
  intros Hv Ha H.
  destruct (address_set_inv w o cnlen name extlen extvals Hv Ha H)
    as (ips & tmpebuf & _ & _ & Hb & _ & -> & ->).
  exists tmpebuf. cbv zeta. split; [reflexivity|].
  unfold Wire.u16be. cbn [app skipn List.length].
  repeat split; lia.
Qed.

Lemma address_set_outer_length_one_short_witness :
  exists extlen extvals tmpebuf,
    Esni.address_set Sample.draft03_world Sample.draft03_options 18
      "www.cloudflare.com" = Ok (extlen, extvals)
    /\ let nelen := Z.of_nat (List.length tmpebuf) in
       extvals = (Wire.u16be (nelen + 3) ++ [0x10; 0x01] ++ Wire.u16be nelen
                  ++ tmpebuf)%list
       /\ extlen = Z.of_nat (List.length extvals)
       /\ Z.of_nat (List.length (skipn 2 extvals)) = nelen + 4
       /\ nelen <= 272.
Proof.
  destruct (Esni.address_set Sample.draft03_world Sample.draft03_options 18
              "www.cloudflare.com") as [[extlen extvals]|f] eqn:E.
  - destruct (address_set_outer_length_one_short
                Sample.draft03_world Sample.draft03_options 18
                "www.cloudflare.com" extlen extvals eq_refl eq_refl E)
      as [tmpebuf Ht].
    exists extlen, extvals, tmpebuf. split; [reflexivity | exact Ht].
  - vm_compute in E. discriminate E.
Defined.

(** ** The checksum *)

Lemma zero_checksum_patch (buf ck : list Z) :
  List.length ck = 4%nat -> (6 <= List.length buf)%nat ->
  Wire.zero_checksum (firstn 2 buf ++ ck ++ skipn 6 buf) = Wire.zero_checksum buf
  /\ List.length (firstn 2 buf ++ ck ++ skipn 6 buf) = List.length buf.
Proof.
  intros Hck Hb.
  do 6 (destruct buf as [|? buf]; [cbn [List.length] in Hb; lia|]).
  do 4 (destruct ck as [|? ck]; [discriminate Hck|]).
  destruct ck; [|discriminate Hck]. cbn. split; reflexivity.
Qed.

Lemma esni_checksum_gen_zeroed (OPENSSL_malloc : nat -> bool)
    (SHA256 : list Z -> option (list Z)) (buf : list Z) :
  (6 <= List.length buf)%nat ->
  Esni.esni_checksum_gen OPENSSL_malloc SHA256 buf
  = if OPENSSL_malloc (List.length buf)
    then match SHA256 (Wire.zero_checksum buf) with
         | None => Fail DigestUnavailable
         | Some md => defined (C.memcpy [0; 0; 0; 0] 0 md 4)
         end
    else Fail DigestUnavailable.
Proof.
  intro Hb. unfold Esni.esni_checksum_gen, C.memset.
  destruct (OPENSSL_malloc (List.length buf)); [|reflexivity].
  destruct (Nat.leb_spec (2 + 4) (List.length buf)); [|lia].
  reflexivity.
Qed.

(** X7. [esni_checksum_gen] does not look at the four bytes at offset 2:
    whatever is stored there, the result is the same, so it can be run
    on a structure that already carries a checksum, right or wrong.
    When [OPENSSL_malloc] returns [NULL] the function returns 0 and
    touches nothing; when it returns memory for a buffer of less than 6
    bytes, the four zeros are stored past the end of that memory.  A
    result is always 4 bytes. *)
Theorem checksum_ignores_checksum_field (OPENSSL_malloc : nat -> bool)
    (SHA256 : list Z -> option (list Z)) (buf ck : list Z) :
  List.length ck = 4%nat ->
  ((6 <= List.length buf)%nat ->
   Esni.esni_checksum_gen OPENSSL_malloc SHA256 (firstn 2 buf ++ ck ++ skipn 6 buf)
   = Esni.esni_checksum_gen OPENSSL_malloc SHA256 buf)
  /\ (OPENSSL_malloc (List.length buf) = false ->
      Esni.esni_checksum_gen OPENSSL_malloc SHA256 buf = Fail DigestUnavailable)
  /\ (OPENSSL_malloc (List.length buf) = true -> (List.length buf < 6)%nat ->
      Esni.esni_checksum_gen OPENSSL_malloc SHA256 buf = Fail Undefined)
  /\ (forall cksum, Esni.esni_checksum_gen OPENSSL_malloc SHA256 buf = Ok cksum ->
        List.length cksum = 4%nat).
Proof.
  intro Hck. split; [|split; [|split]].
  - intro Hb. destruct (zero_checksum_patch buf ck Hck Hb) as [Hz Hl].
    rewrite !esni_checksum_gen_zeroed by lia. rewrite Hz, Hl. reflexivity.
  - intro Hm. unfold Esni.esni_checksum_gen. rewrite Hm. reflexivity.
  - intros Hm Hb. unfold Esni.esni_checksum_gen, C.memset. rewrite Hm.
    destruct (Nat.leb_spec (2 + 4) (List.length buf)); [lia | reflexivity].
  - intros cksum H. unfold Esni.esni_checksum_gen in H. step_check H Em.
    step_defined H z Ez.
    destruct (SHA256 z) as [md|]; [|discriminate H].
    destruct (C.memcpy [0; 0; 0; 0] 0 md 4) as [c|] eqn:Ec; [|discriminate H].
    injection H as <-. exact (proj2 (memcpy_digest md c Ec)).
Qed.

Lemma checksum_ignores_checksum_field_witness :
  ((6 <= List.length Sample.draft02_value)%nat ->
   Esni.esni_checksum_gen Sample.every_allocation Sample.sha256
     (firstn 2 Sample.draft02_value ++ [1; 2; 3; 4] ++ skipn 6 Sample.draft02_value)
   = Esni.esni_checksum_gen Sample.every_allocation Sample.sha256 Sample.draft02_value)
  /\ (Sample.every_allocation (List.length Sample.draft02_value) = false ->
      Esni.esni_checksum_gen Sample.every_allocation Sample.sha256 Sample.draft02_value
      = Fail DigestUnavailable)
  /\ (Sample.every_allocation (List.length Sample.draft02_value) = true ->
      (List.length Sample.draft02_value < 6)%nat ->
      Esni.esni_checksum_gen Sample.every_allocation Sample.sha256 Sample.draft02_value
      = Fail Undefined)
  /\ (forall cksum,
        Esni.esni_checksum_gen Sample.every_allocation Sample.sha256
          Sample.draft02_value = Ok cksum ->
        List.length cksum = 4%nat).
Proof.
  apply (checksum_ignores_checksum_field Sample.every_allocation Sample.sha256
           Sample.draft02_value [1; 2; 3; 4]).
  reflexivity.
Defined.

(** ** The size of the structure and the runs that complete *)

Lemma esnikeys_bytes_length (v cnlen : Z) (cn public : list Z) (nb na extlen : Z)
    (extvals : list Z) :
  Esni.esnikeys_reads v cnlen cn public extlen extvals = true ->
  0 <= cnlen -> 0 <= extlen ->
  Z.of_nat (List.length (Esni.esnikeys_bytes v cnlen cn public nb na extlen extvals))
  = 66 + (if v =? 0xff02 then 2 + cnlen else 0) + (if extlen =? 0 then 2 else extlen).
Proof.
  unfold Esni.esnikeys_reads, Esni.esnikeys_bytes. intros Hr Hc He.
  apply andb_true_iff in Hr. destruct Hr as [Hr Hext].
  apply andb_true_iff in Hr. destruct Hr as [Hcn Hpub].
  apply Nat.leb_le in Hpub.
  destruct (v =? 65282), (extlen =? 0);
    rewrite ?length_app, ?length_firstn; cbn [List.length];
    rewrite ?length_app, ?length_firstn; cbn [List.length];
    try apply Nat.leb_le in Hcn; try apply Nat.leb_le in Hext; lia.
Qed.

Lemma strlen_le_length (m : string) : (C.strlen m <= String.length m)%nat.
Proof.
  unfold C.strlen. induction m as [|c m IH]; cbn [C.cstr String.length]; [lia|].
  destruct (Ascii.eqb c C.NUL); cbn [String.length]; lia.
Qed.

Lemma cstr_append_stop (s : string) (d : ascii) (rest : string) :
  C.cstr (s ++ String d rest) = s ++ String d "" -> C.cstr rest = "".
Proof.
  induction s as [|a s IH]; cbn [append C.cstr].
  - destruct (Ascii.eqb d C.NUL); [discriminate|]. intros [= H]. exact H.
  - destruct (Ascii.eqb a C.NUL); [discriminate|]. intros [= H]. exact (IH H).
Qed.

Lemma cstr_append_free (s t : string) :
  C.cstr s = s -> C.cstr (s ++ t) = s ++ C.cstr t.
Proof.
  induction s as [|a s IH]; cbn [append C.cstr]; [reflexivity|].
  destruct (Ascii.eqb a C.NUL); [discriminate|]. intros [= H]. rewrite (IH H).
  reflexivity.
Qed.

Lemma cstr_append_left (s t : string) :
  C.cstr (s ++ t) = s ++ t -> C.cstr s = s.
Proof.
  induction s as [|a s IH]; cbn [append C.cstr]; [reflexivity|].
  destruct (Ascii.eqb a C.NUL); [discriminate|]. intros [= H]. rewrite (IH H).
  reflexivity.
Qed.

(** The [switch] on the version for 0xff02, forwards: a name of 1 to 254
    characters passes, and its storage afterwards is the name with NUL
    over a trailing dot. *)
Lemma check_version_ff02_run (o : Esni.options) (name : string) :
  Esni.ekversion o = 0xff02 -> Esni.cover_name o = Some name ->
  (1 <= C.strlen name)%nat ->
  exists s d rest,
    name = s ++ String d rest
    /\ C.cstr name = s ++ String d ""
    /\ Esni.check_version o
       = if Z.of_nat (C.strlen name) <=? 254
         then Ok (Z.of_nat (C.strlen name),
                  s ++ String (if Ascii.eqb d "." then C.NUL else d) rest)
         else Fail CoverNameTooLong.
Proof.
  intros Hv Hn Hlen1.
  assert (Hne : C.cstr name <> "").
  { intro E. unfold C.strlen in Hlen1. rewrite E in Hlen1. cbn in Hlen1. lia. }
  destruct (last_char_split "." (C.cstr name) Hne) as (s & d & Hs & _).
  destruct (cstr_prefix name) as [rest Hrest]. rewrite Hs in Hrest.
  rewrite append_assoc in Hrest. cbn [append] in Hrest.
  exists s, d, rest. split; [exact Hrest|]. split; [exact Hs|].
  assert (Hlen : C.strlen name = (String.length s + 1)%nat).
  { unfold C.strlen. rewrite Hs, length_append. reflexivity. }
  unfold Esni.check_version. rewrite Hv, Hn. cbn [Z.eqb Pos.eqb].
  unfold Esni.MAX_ESNI_COVER_NAME.
  destruct (Z.of_nat (C.strlen name) <=? 254); [|reflexivity].
  rewrite Hlen.
  replace (Z.of_nat (String.length s + 1) - 1) with (Z.of_nat (String.length s)) by lia.
  unfold C.char_at, C.set_char. rewrite Nat2Z.id.
  destruct (Z.ltb_spec (Z.of_nat (String.length s)) 0); [lia|].
  assert (Hl : String.length name = (String.length s + S (String.length rest))%nat).
  { rewrite Hrest at 1. rewrite length_append. reflexivity. }
  destruct (Z.ltb_spec (Z.of_nat (String.length name)) (Z.of_nat (String.length s))); [lia|].
  destruct (Z.ltb_spec (Z.of_nat (String.length s)) (Z.of_nat (String.length name))); [|lia].
  rewrite Hrest at 1. rewrite get_append_here. cbn [defined bind].
  destruct (Ascii.eqb d ".").
  - rewrite Hrest at 1. rewrite set_nth_append_here. reflexivity.
  - rewrite <- Hrest. reflexivity.
Qed.

(** What [address_set] returns when the extension is not asked for. *)
Lemma address_set_none (w : Esni.world) (o : Esni.options) (cnlen : Z) (name : string) :
  (Esni.ekversion o =? 0xff02) && Esni.includeaddrset o = false ->
  Esni.address_set w o cnlen name = Ok (0, []).
Proof. intro H. unfold Esni.address_set. rewrite H. reflexivity. Qed.

(** The length of the structure a completed run wrote. *)
Lemma mk_esnikeys_length (w : Esni.world) (o : Esni.options) (out : Esni.output) :
  Esni.mk_esnikeys w o = Ok out ->
  exists cnlen name extlen extvals,
    Esni.check_version o = Ok (cnlen, name)
    /\ Esni.address_set w o cnlen name = Ok (extlen, extvals)
    /\ 0 <= cnlen /\ 0 <= extlen
    /\ Z.of_nat (List.length (Esni.esnikeys out))
       = 66 + (if Esni.ekversion o =? 0xff02 then 2 + cnlen else 0)
         + (if extlen =? 0 then 2 else extlen).
Proof.
  intro H.
  destruct (mk_esnikeys_inv _ _ _ H)
    as (cnlen & name & extlen & extvals & public & bbuf & cksum
        & Hver & Hext & Hkey & Hbody & Hgen & Hpatch & _).
  apply (emits_run _ _ _ _ _ (esnikeys_body_emits _ _ _ _ _ _ _ _)) in Hbody.
  destruct Hbody as (-> & Hreads & _).
  apply memcpy_checksum in Hpatch. destruct Hpatch as (Hout & Hck & Hb6).
  destruct (patched_checksum _ _ Hck Hb6) as (_ & _ & Hlen). cbv zeta in Hlen.
  rewrite <- Hout in Hlen.
  assert (Hc : 0 <= cnlen).
  { unfold Esni.check_version in Hver.
    destruct (Esni.ekversion o =? 65281); [injection Hver as <- _; lia|].
    destruct (Esni.ekversion o =? 65282); [|discriminate Hver].
    destruct (Esni.cover_name o) as [n|]; [|discriminate Hver].
    step_check Hver El. step_defined Hver c Ec.
    destruct (Ascii.eqb c ".").
    - step_defined Hver n' En. injection Hver as <- _. lia.
    - injection Hver as <- _. lia. }
  assert (He : 0 <= extlen).
  { unfold Esni.address_set in Hext.
    destruct ((Esni.ekversion o =? 65282) && Esni.includeaddrset o);
      [|injection Hext as <- _; lia].
    step_bind Hext ips Eips. step_bind Hext t Et. step_bind Hext ev Eev.
    step_check Hext Em. injection Hext as <- _. lia. }
  exists cnlen, name, extlen, extvals.
  repeat (split; [assumption|]).
  rewrite Hlen. apply esnikeys_bytes_length; assumption.
Qed.

(** X8. The size of the structure written: 68 bytes for 0xff01, as in
    the hexdump of the comment; for 0xff02 two more and the length of the
    cover name (trailing dot included), and with an AddressSet four bytes
    of extension header and 5 or 17 bytes for each of at most 16
    addresses.  It is never more than 600 bytes of the 1024 of [bbuf]. *)
Theorem esnikeys_size (w : Esni.world) (o : Esni.options) (out : Esni.output) :
  Esni.mk_esnikeys w o = Ok out ->
  let size := Z.of_nat (List.length (Esni.esnikeys out)) in
  (Esni.ekversion o = 0xff01 -> size = 68)
  /\ (forall name, Esni.ekversion o = 0xff02 -> Esni.cover_name o = Some name ->
        if Esni.includeaddrset o
        then exists n4 n6 : nat,
               (n4 + n6 <= 16)%nat
               /\ size = 74 + Z.of_nat (C.strlen name) + 5 * Z.of_nat n4 + 17 * Z.of_nat n6
        else size = 70 + Z.of_nat (C.strlen name))
  /\ size <= 600.
Proof.
  intros H size.
  destruct (mk_esnikeys_length w o out H)
    as (cnlen & name' & extlen & extvals & Hver & Hext & Hc & He & Hlen).
  fold size in Hlen.
  assert (Hversion : Esni.ekversion o = 0xff01
                     \/ (Esni.ekversion o = 0xff02 /\ exists name, Esni.cover_name o = Some name)).
  { unfold Esni.check_version in Hver.
    destruct (Z.eqb_spec (Esni.ekversion o) 65281); [left; assumption|].
    destruct (Z.eqb_spec (Esni.ekversion o) 65282); [|discriminate Hver].
    right. split; [assumption|].
    destruct (Esni.cover_name o) as [nm|]; [exists nm; reflexivity | discriminate Hver]. }
  assert (H01 : Esni.ekversion o = 0xff01 -> size = 68).
  { intro Hv. rewrite Hv in Hlen. cbn [Z.eqb Pos.eqb] in Hlen.
    rewrite address_set_none in Hext by (rewrite Hv; reflexivity).
    injection Hext as <- _. cbn [Z.eqb] in Hlen. lia. }
  assert (H02 : forall name, Esni.ekversion o = 0xff02 -> Esni.cover_name o = Some name ->
      cnlen = Z.of_nat (C.strlen name) /\ cnlen <= 254
      /\ if Esni.includeaddrset o
         then exists n4 n6 : nat,
                (n4 + n6 <= 16)%nat
                /\ size = 74 + Z.of_nat (C.strlen name) + 5 * Z.of_nat n4 + 17 * Z.of_nat n6
         else size = 70 + Z.of_nat (C.strlen name)).
  { intros name Hv Hn.
    destruct (check_version_ff02 o name cnlen name' Hv Hn Hver)
      as (s & d & rest & Hs & Hcn & Hle & _).
    assert (Hstr : cnlen = Z.of_nat (C.strlen name)).
    { unfold C.strlen. rewrite Hs, length_append. exact Hcn. }
    split; [exact Hstr|]. split; [exact Hle|].
    rewrite Hv in Hlen. cbn [Z.eqb Pos.eqb] in Hlen.
    destruct (Esni.includeaddrset o) eqn:Ha.
    - destruct (address_set_inv w o cnlen name' extlen extvals Hv Ha Hext)
        as (ips & t & Hk & Hloop & Hb & _ & -> & _).
      pose proof (addrs_loop_length _ _ _ _ Hloop) as Hl. cbn [List.length] in Hl.
      pose proof (count_split ips) as Hsplit.
      destruct Hk as (Hk & _ & _). unfold Esni.MAX_ESNI_ADDRS in Hk.
      exists (AddressList.count4 ips), (AddressList.count6 ips).
      split; [lia|].
      destruct (Z.eqb_spec (Z.of_nat (List.length t) + 6) 0); lia.
    - rewrite address_set_none in Hext by (rewrite Hv, Ha; reflexivity).
      injection Hext as <- _. cbn [Z.eqb] in Hlen. lia. }
  split; [exact H01|]. split; [intros name Hv Hn; apply (H02 name Hv Hn)|].
  destruct Hversion as [Hv|[Hv [name Hn]]]; [rewrite (H01 Hv); lia|].
  destruct (H02 name Hv Hn) as (Hstr & Hle & Hsize).
  destruct (Esni.includeaddrset o); [destruct Hsize as (n4 & n6 & Hn46 & ->)|]; lia.
Qed.

Lemma esnikeys_size_witness :
  exists out,
    Esni.mk_esnikeys Sample.draft03_world Sample.draft03_options = Ok out
    /\ let size := Z.of_nat (List.length (Esni.esnikeys out)) in
       (Esni.ekversion Sample.draft03_options = 0xff01 -> size = 68)
       /\ (forall name, Esni.ekversion Sample.draft03_options = 0xff02 ->
             Esni.cover_name Sample.draft03_options = Some name ->
             if Esni.includeaddrset Sample.draft03_options
             then exists n4 n6 : nat,
                    (n4 + n6 <= 16)%nat
                    /\ size = 74 + Z.of_nat (C.strlen name)
                              + 5 * Z.of_nat n4 + 17 * Z.of_nat n6
             else size = 70 + Z.of_nat (C.strlen name))
       /\ size <= 600.
Proof.
  destruct (Esni.mk_esnikeys Sample.draft03_world Sample.draft03_options)
    as [out|f] eqn:E.
  - exists out. split; [reflexivity|].
    exact (esnikeys_size Sample.draft03_world Sample.draft03_options out E).
  - vm_compute in E. discriminate E.
Defined.

(** Once the structure is laid out, the rest of the run depends on the
    allocation and the digest for the checksum, which are taken to
    deliver here, and on the output files. *)
Lemma finish_run (w : Esni.world) (o : Esni.options) (name' : string)
    (bytes : list Z) :
  (68 <= List.length bytes)%nat ->
  (C.strlen name' <= 254)%nat ->
  Esni.OPENSSL_malloc w (List.length bytes) = true ->
  (forall b, exists md, Esni.SHA256 w b = Some md /\ (4 <= List.length md)%nat) ->
  exists bbuf frag,
    List.length bbuf = List.length bytes
    /\ (cksum <- Esni.esni_checksum_gen (Esni.OPENSSL_malloc w) (Esni.SHA256 w) bytes ;;
        bbuf <- defined (C.memcpy bytes 2 cksum 4) ;;
        check Esni.fopen_w w (Esni.public_key_file o) else CantOpenOutputFile ;;
        check (Esni.fwrite w (Esni.public_key_file o) bbuf =? List.length bbuf)%nat
          else WriteFailed ;;
        if Esni.ekversion o =? 0xff02
        then frag <- Esni.fp_esni_prr bbuf (Esni.ESNI_RRTYPE w) name' ;;
             check Esni.fopen_w w (Esni.fragment_file o) else CantOpenOutputFile ;;
             Ok {| Esni.esnikeys := bbuf; Esni.zonefrag := Some frag |}
        else Ok {| Esni.esnikeys := bbuf; Esni.zonefrag := None |})%result
       = (check Esni.fopen_w w (Esni.public_key_file o) else CantOpenOutputFile ;;
          check (Esni.fwrite w (Esni.public_key_file o) bbuf =? List.length bbuf)%nat
            else WriteFailed ;;
          if Esni.ekversion o =? 0xff02
          then check Esni.fopen_w w (Esni.fragment_file o) else CantOpenOutputFile ;;
               Ok {| Esni.esnikeys := bbuf; Esni.zonefrag := Some frag |}
          else Ok {| Esni.esnikeys := bbuf; Esni.zonefrag := None |})%result.
Proof.
  intros Hlen Hname Hmalloc Hsha.
  rewrite esni_checksum_gen_zeroed by lia. rewrite Hmalloc.
  destruct (Hsha (Wire.zero_checksum bytes)) as (md & -> & Hmd).
  destruct (C.memcpy [0; 0; 0; 0] 0 md 4) as [ck|] eqn:Eck.
  2:{ exfalso. unfold C.memcpy in Eck.
      destruct (Nat.leb_spec 4 (List.length md)); [discriminate Eck | lia]. }
  destruct (memcpy_digest md ck Eck) as [_ Hck]. cbn [defined bind].
  destruct (C.memcpy bytes 2 ck 4) as [bbuf|] eqn:Eb.
  2:{ exfalso. unfold C.memcpy in Eb. rewrite Hck in Eb.
      destruct (Nat.leb_spec (2 + 4) (List.length bytes)); [discriminate Eb | lia]. }
  cbn [defined bind].
  apply memcpy_checksum in Eb. destruct Eb as (Hb & Hck4 & Hb6).
  destruct (patched_checksum _ _ Hck4 Hb6) as (_ & _ & Hl). cbv zeta in Hl.
  rewrite <- Hb in Hl.
  destruct (Esni.fp_esni_prr bbuf (Esni.ESNI_RRTYPE w) name') as [frag|f] eqn:Efrag.
  - exists bbuf, frag. split; [exact Hl | reflexivity].
  - exfalso. unfold Esni.fp_esni_prr, Esni.MAX_ESNI_COVER_NAME in Efrag.
    destruct (Z.ltb_spec 16 (Z.of_nat (List.length bbuf))); [|lia].
    destruct (Z.leb_spec (Z.of_nat (C.strlen name')) 254); [discriminate Efrag | lia].
Qed.

(** X9. A build completes whenever its inputs pass the checks, the
    providers deliver and the output files can be written: version
    0xff01 without name and AddressSet, or 0xff02 with a cover name of 1
    to 254 characters; a duration of at least an hour and less than ten
    years; addresses, if asked for, that were found and parsed; a public
    key of at least 32 bytes; memory for the copy that is digested and a
    digest of at least 4 bytes; a public key file that opens and takes
    every byte and, for 0xff02, a fragment file that opens.  No store
    leaves [bbuf], and the padding of the zone fragment fits its array.
    With the same inputs and providers, a public key file that does not
    open ends the run with the "fopen error" exit. *)
Theorem build_completes (w : Esni.world) (o : Esni.options) (public : list Z) :
  (Esni.ekversion o = 0xff01 /\ Esni.cover_name o = None
   /\ Esni.includeaddrset o = false)
  \/ (Esni.ekversion o = 0xff02
      /\ exists name, Esni.cover_name o = Some name
                      /\ (1 <= C.strlen name <= 254)%nat) ->
  Esni.minduration <= Esni.duration o < Esni.maxduration ->
  (forall cnlen name', Esni.check_version o = Ok (cnlen, name') ->
     exists e, Esni.address_set w o cnlen name' = Ok e) ->
  Esni.encodedpoint w (Esni.private_key_file o) = Ok public ->
  (32 <= List.length public)%nat ->
  (forall n, (0 < n)%nat -> Esni.OPENSSL_malloc w n = true) ->
  (forall b, exists md, Esni.SHA256 w b = Some md /\ (4 <= List.length md)%nat) ->
  (Esni.fopen_w w (Esni.public_key_file o) = true ->
   (forall b, Esni.fwrite w (Esni.public_key_file o) b = List.length b) ->
   (Esni.ekversion o = 0xff02 -> Esni.fopen_w w (Esni.fragment_file o) = true) ->
   exists out, Esni.mk_esnikeys w o = Ok out)
  /\ (Esni.fopen_w w (Esni.public_key_file o) = false ->
      Esni.mk_esnikeys w o = Fail CantOpenOutputFile).
Proof.
  intros Hversion Hdur Haddr Hkey Hpub Hmalloc Hsha.
  assert (Hchecks :
    negb ((Esni.ekversion o =? 0xff01)
          && match Esni.cover_name o with Some _ => true | None => false end) = true
    /\ negb ((Esni.ekversion o =? 0xff01) && Esni.includeaddrset o) = true).
  { destruct Hversion as [(Hv & Hn & Ha)|(Hv & _)]; rewrite Hv.
    - rewrite Hn, Ha. split; reflexivity.
    - split; reflexivity. }
  destruct Hchecks as [Hc1 Hc2].
  assert (Hcv : exists cnlen name',
    Esni.check_version o = Ok (cnlen, name')
    /\ 0 <= cnlen <= 254
    /\ (C.strlen name' <= 254)%nat
    /\ (Esni.ekversion o = 0xff02 ->
        (Z.to_nat cnlen <= List.length (C.bytes_of name'))%nat)).
  { destruct Hversion as [(Hv & _)|(Hv & name & Hn & Hlen)].
    - exists 0, "". unfold Esni.check_version. rewrite Hv.
      split; [reflexivity|]. split; [lia|]. split; [cbn; lia|].
      intro E. discriminate E.
    - destruct (check_version_ff02_run o name Hv Hn (proj1 Hlen))
        as (s & d & rest & Hname & Hs & Hrun).
      destruct (Z.leb_spec (Z.of_nat (C.strlen name)) 254); [|lia].
      assert (Hsl : C.strlen name = (String.length s + 1)%nat).
      { unfold C.strlen. rewrite Hs, length_append. reflexivity. }
      eexists _, _. split; [exact Hrun|]. split; [lia|]. split.
      + destruct (Ascii.eqb d ".").
        * unfold C.strlen. rewrite cstr_append_nul.
          pose proof (strlen_le_length s). unfold C.strlen in *. lia.
        * rewrite <- Hname. lia.
      + intros _. rewrite Nat2Z.id, length_bytes_of, length_append, Hsl.
        cbn [String.length]. lia. }
  destruct Hcv as (cnlen & name' & Hcv & Hcn & Hstr & Hread).
  destruct (Haddr cnlen name' Hcv) as [[extlen extvals] Hext].
  assert (Hx : (extlen = 0 \/ 6 <= extlen <= 278)
               /\ ((extlen =? 0) = false ->
                   (Z.to_nat extlen <= List.length extvals)%nat)).
  { destruct ((Esni.ekversion o =? 65282) && Esni.includeaddrset o) eqn:E.
    - apply andb_true_iff in E. destruct E as [Ev Ea]. apply Z.eqb_eq in Ev.
      destruct (address_set_inv w o cnlen name' extlen extvals Ev Ea Hext)
        as (ips & t & _ & _ & Hb & _ & -> & ->).
      split; [lia|]. intros _. unfold Wire.u16be.
      cbn [app List.length]. lia.
    - rewrite (address_set_none w o cnlen name' E) in Hext.
      injection Hext as <- <-. split; [lia|]. intro E0. discriminate E0. }
  destruct Hx as [Hxl Hxr].
  set (bytes := Esni.esnikeys_bytes (Esni.ekversion o) cnlen (C.bytes_of name')
                  public (Esni.clock w - 1) (Esni.clock w - 1 + Esni.duration o)
                  extlen extvals).
  assert (Hreads : Esni.esnikeys_reads (Esni.ekversion o) cnlen (C.bytes_of name')
                     public extlen extvals = true).
  { unfold Esni.esnikeys_reads. apply andb_true_iff. split; [apply andb_true_iff; split|].
    - destruct (Z.eqb_spec (Esni.ekversion o) 65282); [|reflexivity].
      apply Nat.leb_le. auto.
    - apply Nat.leb_le. exact Hpub.
    - destruct (extlen =? 0) eqn:E0; [reflexivity|]. apply Nat.leb_le. auto. }
  assert (Hlen : (68 <= List.length bytes <= 1024)%nat).
  { pose proof (esnikeys_bytes_length (Esni.ekversion o) cnlen (C.bytes_of name')
                  public (Esni.clock w - 1) (Esni.clock w - 1 + Esni.duration o)
                  extlen extvals Hreads (proj1 Hcn) ltac:(lia)) as Hl.
    fold bytes in Hl. revert Hl.
    destruct (Esni.ekversion o =? 65282), (Z.eqb_spec extlen 0); lia. }
  assert (Hbody : Esni.esnikeys_body (Esni.ekversion o) cnlen (C.bytes_of name')
                    public (Esni.clock w - 1) (Esni.clock w - 1 + Esni.duration o)
                    extlen extvals [] = Some bytes).
  { rewrite (esnikeys_body_emits _ _ _ _ _ _ _ _ [] (Nat.le_0_l _)).
    rewrite Hreads. cbn [andb List.length Nat.add]. fold bytes.
    unfold Esni.MAX_ESNIKEYS_BUFLEN.
    destruct (Nat.leb_spec (List.length bytes) 1024); [reflexivity | lia]. }
  unfold Esni.mk_esnikeys. rewrite Hc1, Hc2.
  unfold Esni.minduration, Esni.maxduration in *.
  destruct (Z.leb_spec (Esni.duration o) 0); [lia|]. cbn [negb].
  rewrite Z.geb_leb.
  destruct (Z.leb_spec (60 * 60 * 24 * 7 * 52 * 10) (Esni.duration o)); [lia|]. cbn [negb].
  destruct (Z.ltb_spec (Esni.duration o) 3600); [lia|]. cbn [negb].
  rewrite Hcv. cbn [bind fst snd]. rewrite Hext. cbn [bind fst snd].
  rewrite Hkey. cbn [bind].
  destruct (Nat.eqb_spec (List.length public) 0); [lia|]. cbn [negb].
  rewrite Hbody. cbn [defined bind].
  destruct (finish_run w o name' bytes (proj1 Hlen) Hstr
              (Hmalloc (List.length bytes) ltac:(lia)) Hsha) as (bbuf & frag & Hbl & ->).
  split.
  - intros Hopen Hwrite Hfrag. rewrite Hopen, Hwrite, Nat.eqb_refl.
    destruct (Z.eqb_spec (Esni.ekversion o) 65282) as [Ev|Ev].
    + rewrite (Hfrag Ev). eexists. reflexivity.
    + eexists. reflexivity.
  - intro Hopen. rewrite Hopen. reflexivity.
Qed.

Lemma build_completes_witness :
  exists out, Esni.mk_esnikeys Sample.draft03_world Sample.draft03_options = Ok out.
Proof.
  apply (build_completes Sample.draft03_world Sample.draft03_options Sample.draft03_key).
  - right. split; [reflexivity|]. exists "www.cloudflare.com".
    split; [reflexivity|]. cbn. lia.
  - vm_compute. split; [discriminate | reflexivity].
  - intros cnlen name' E. vm_compute in E. injection E as <- <-.
    eexists. vm_compute. reflexivity.
  - reflexivity.
  - cbn. lia.
  - intros n _. reflexivity.
  - intro b. exists (SHA2.sha256 b). split; [reflexivity|].
    rewrite sha256_length. lia.
  - reflexivity.
  - intro b. reflexivity.
  - intros _. reflexivity.
Defined.

(** ** Reading the structure back *)

Lemma read_uint16 (A : Type) (k : Z -> Read.reader A) (hi lo : Z) (rest : list Z) :
  Read.bind Read.uint16 k (hi :: lo :: rest) = k (hi * 256 + lo) rest.
Proof. reflexivity. Qed.

Lemma read_opaque (A : Type) (k : list Z -> Read.reader A) (n : nat)
    (a rest : list Z) :
  List.length a = n ->
  Read.bind (Read.opaque n) k (a ++ rest)%list = k a rest.
Proof.
  intros <-. unfold Read.bind, Read.opaque. rewrite length_app.
  destruct (Nat.leb_spec (List.length a) (List.length a + List.length rest)); [|lia].
  rewrite firstn_app, firstn_all, Nat.sub_diag, skipn_app, skipn_all, Nat.sub_diag.
  cbn [firstn skipn app]. rewrite app_nil_r. reflexivity.
Qed.

Lemma read_vector (A : Type) (k : list Z -> Read.reader A) (a rest : list Z) :
  Z.of_nat (List.length a) < 65536 ->
  Read.bind Read.vector k (Wire.length_prefixed a ++ rest)%list = k a rest.
Proof.
  intro Hlen. unfold Wire.length_prefixed.
  pose proof (u16be_value (Z.of_nat (List.length a))) as Hv.
  unfold Wire.u16be in *. cbn [app].
  unfold Read.bind at 1, Read.vector.
  rewrite read_uint16, Hv by lia. rewrite Nat2Z.id.
  pose proof (read_opaque (list Z) (@Read.ret (list Z)) (List.length a) a rest eq_refl) as Ho.
  unfold Read.bind in Ho. unfold Read.ret in Ho.
  destruct (Read.opaque (List.length a) (a ++ rest)%list) as [[x r]|]; [|discriminate Ho].
  injection Ho as -> ->. reflexivity.
Qed.

Lemma read_vector_of (A B : Type) (item : Read.reader A)
    (k : list A -> Read.reader B) (a rest : list Z) (l : list A) :
  Z.of_nat (List.length a) < 65536 ->
  Read.items (List.length a) item a = Some l ->
  Read.bind (Read.vector_of item) k (Wire.length_prefixed a ++ rest)%list = k l rest.
Proof.
  intros Hlen Hitems. unfold Read.bind at 1, Read.vector_of.
  pose proof (read_vector (list Z) (@Read.ret (list Z)) a rest Hlen) as Hv.
  unfold Read.bind, Read.ret in Hv.
  destruct (Read.vector (Wire.length_prefixed a ++ rest)%list) as [[x r]|]; [|discriminate Hv].
  injection Hv as -> ->. rewrite Hitems. reflexivity.
Qed.

Lemma read_uint64 (A : Type) (k : Z -> Read.reader A) (a rest : list Z) :
  List.length a = 8%nat ->
  Read.bind Read.uint64 k (a ++ rest)%list = k (Read.be_value 0 a) rest.
Proof.
  intro Hlen. unfold Read.bind at 1, Read.uint64.
  rewrite (read_opaque Z _ 8 a rest Hlen). reflexivity.
Qed.

(** The one key share of the structure. *)
Lemma read_key_share (key : list Z) :
  List.length key = 32%nat ->
  Read.items 36 Read.KeyShareEntry ([0x00; 0x1d; 0x00; 0x20] ++ key)%list
  = Some [(0x1d, key)].
Proof.
  intro Hlen. cbn [app Read.items].
  unfold Read.KeyShareEntry, Read.vector, Read.uint16, Read.bind, Read.uint8,
    Read.ret, Read.opaque.
  change (Z.to_nat (0 * 256 + 32)) with 32%nat. rewrite Hlen. cbn [Nat.leb].
  rewrite <- Hlen, firstn_all, skipn_all. reflexivity.
Qed.

(** The four bytes stored for a time are its low 32 bits. *)
Lemma time_bytes_value (n : Z) :
  0 <= n ->
  Read.be_value 0 (Read.time_bytes n) = n mod 2 ^ 32.
Proof.
  intro Hn. unfold Read.time_bytes, Esni.u8. cbn [Read.be_value].
  rewrite !Z.shiftr_div_pow2 by lia.
  rewrite !Z.rem_mod_nonneg by (try apply Z.div_pos; lia).
  rewrite !Z.mod_mod by lia.
  change (2 ^ 24) with (256 * 256 * 256). change (2 ^ 16) with (256 * 256).
  change (2 ^ 8) with 256. change (2 ^ 32) with (256 * 256 * 256 * 256).
  rewrite <- !Z.div_div by lia.
  set (n1 := n / 256). set (n2 := n1 / 256). set (n3 := n2 / 256).
  pose proof (Z.div_mod n 256 ltac:(lia)). fold n1 in H.
  pose proof (Z.div_mod n1 256 ltac:(lia)). fold n2 in H0.
  pose proof (Z.div_mod n2 256 ltac:(lia)). fold n3 in H1.
  pose proof (Z.div_mod n3 256 ltac:(lia)).
  pose proof (Z.mod_pos_bound n 256 ltac:(lia)).
  pose proof (Z.mod_pos_bound n1 256 ltac:(lia)).
  pose proof (Z.mod_pos_bound n2 256 ltac:(lia)).
  pose proof (Z.mod_pos_bound n3 256 ltac:(lia)).
  apply (Z.mod_unique_pos n (256 * 256 * 256 * 256) (n3 / 256)); lia.
Qed.

(** Everything a completed run went through, with the bytes it wrote. *)
Lemma mk_esnikeys_run (w : Esni.world) (o : Esni.options) (out : Esni.output) :
  Esni.mk_esnikeys w o = Ok out ->
  exists cnlen name extlen extvals public cksum,
    Esni.check_version o = Ok (cnlen, name)
    /\ Esni.address_set w o cnlen name = Ok (extlen, extvals)
    /\ Esni.encodedpoint w (Esni.private_key_file o) = Ok public
    /\ List.length cksum = 4%nat
    /\ Esni.esnikeys_reads (Esni.ekversion o) cnlen (C.bytes_of name) public
         extlen extvals = true
    /\ (Esni.ekversion o = 0xff01 \/ Esni.ekversion o = 0xff02)
    /\ 0 <= cnlen <= 254
    /\ Esni.minduration <= Esni.duration o < Esni.maxduration
    /\ let bytes := Esni.esnikeys_bytes (Esni.ekversion o) cnlen (C.bytes_of name)
                      public (Esni.clock w - 1)
                      (Esni.clock w - 1 + Esni.duration o) extlen extvals in
       Esni.esnikeys out = (firstn 2 bytes ++ cksum ++ skipn 6 bytes)%list.
Proof.
  intro H.
  destruct (mk_esnikeys_inv _ _ _ H)
    as (cnlen & name & extlen & extvals & public & bbuf & cksum
        & Hver & Hext & Hkey & Hbody & Hgen & Hpatch & Hdur).
  apply (emits_run _ _ _ _ _ (esnikeys_body_emits _ _ _ _ _ _ _ _)) in Hbody.
  destruct Hbody as (-> & Hreads & _).
  apply memcpy_checksum in Hpatch. destruct Hpatch as (Hout & Hck & _).
  assert (Hck4 : firstn 4 cksum = cksum /\ List.length cksum = 4%nat).
  { unfold Esni.esni_checksum_gen in Hgen. step_check Hgen Emalloc.
    step_defined Hgen z Ez.
    destruct (Esni.SHA256 w z) as [md|]; [|discriminate Hgen].
    cbn [defined] in Hgen.
    destruct (C.memcpy [0; 0; 0; 0]%Z 0 md 4) as [ck|] eqn:Eck; [|discriminate Hgen].
    injection Hgen as <-. apply memcpy_digest in Eck. destruct Eck as [-> Hl].
    rewrite firstn_firstn. cbn [Nat.min]. split; [reflexivity | exact Hl]. }
  destruct Hck4 as [Hck4 Hlen]. rewrite Hck4 in Hout.
  assert (Hv : (Esni.ekversion o = 0xff01 \/ Esni.ekversion o = 0xff02)
               /\ 0 <= cnlen <= 254).
  { unfold Esni.check_version in Hver.
    destruct (Z.eqb_spec (Esni.ekversion o) 65281);
      [injection Hver as <- _; split; [left; assumption | lia]|].
    destruct (Z.eqb_spec (Esni.ekversion o) 65282); [|discriminate Hver].
    split; [right; assumption|].
    destruct (Esni.cover_name o) as [n'|]; [|discriminate Hver].
    step_check Hver El. step_defined Hver c Ec.
    apply Z.leb_le in El. unfold Esni.MAX_ESNI_COVER_NAME in El.
    destruct (Ascii.eqb c ".").
    - step_defined Hver n'' En. injection Hver as <- _. lia.
    - injection Hver as <- _. lia. }
  destruct Hv as [Hv Hcn].
  exists cnlen, name, extlen, extvals, public, cksum.
  repeat (split; [assumption|]). exact Hout.
Qed.

Lemma u16_value (n : Z) :
  0 <= n < 65536 ->
  Esni.u8 ((n >> 8) %% 256) * 256 + Esni.u8 (n %% 256) = n.
Proof.
  intro Hn. pose proof (u16_stores n (proj1 Hn)) as Hs.
  pose proof (u16be_value n Hn) as Hv. rewrite <- Hs in Hv. exact Hv.
Qed.

Lemma read_bind_assoc (A B D : Type) (r : Read.reader A) (f : A -> Read.reader B)
    (k : B -> Read.reader D) (b : list Z) :
  Read.bind (Read.bind r f) k b = Read.bind r (fun a => Read.bind (f a) k) b.
Proof.
  unfold Read.bind. destruct (r b) as [[a rest]|]; reflexivity.
Qed.

Lemma read_uint16_be (A : Type) (k : Z -> Read.reader A) (v : Z) (rest : list Z) :
  0 <= v < 65536 ->
  Read.bind Read.uint16 k (Wire.u16be v ++ rest)%list = k v rest.
Proof.
  intro Hv. pose proof (u16be_value v Hv) as H. unfold Wire.u16be in *.
  cbn [app]. rewrite read_uint16, H. reflexivity.
Qed.

Lemma read_esnikeys_prefix (v : Z) (ck nf key t1 t2 rest : list Z) :
  0 <= v < 65536 -> List.length ck = 4%nat ->
  Z.of_nat (List.length nf) < 65536 -> List.length key = 32%nat ->
  List.length t1 = 8%nat -> List.length t2 = 8%nat ->
  Read.esnikeys (Read.laid_out v ck nf key t1 t2 ++ rest)%list
  = Read.bind (Read.vector_of Read.Extension)
      (fun ex =>
         Read.ret {| Read.version := v;
                     Read.checksum := ck;
                     Read.public_name := (if v =? 0xff02 then Some nf else None);
                     Read.keys := [(0x1d, key)];
                     Read.cipher_suites := [0x1301];
                     Read.padded_length := 260;
                     Read.not_before := Read.be_value 0 t1;
                     Read.not_after := Read.be_value 0 t2;
                     Read.extensions := ex |}) rest.
Proof.
  intros Hv Hck Hnf Hkey Ht1 Ht2. unfold Read.esnikeys, Read.laid_out.
  rewrite <- !app_assoc.
  rewrite read_uint16_be by exact Hv.
  rewrite read_opaque by exact Hck.
  assert (Hname : forall (A : Type) (k : option (list Z) -> Read.reader A) (tl : list Z),
    Read.bind (if v =? 0xff02
               then Read.bind Read.vector (fun n => Read.ret (Some n))
               else Read.ret None) k
      ((if v =? 0xff02 then Wire.length_prefixed nf else []) ++ tl)%list
    = k (if v =? 0xff02 then Some nf else None) tl).
  { intros A k tl. destruct (v =? 65282); [|reflexivity].
    rewrite read_bind_assoc, read_vector by exact Hnf. reflexivity. }
  rewrite Hname.
  rewrite (read_vector_of _ _ Read.KeyShareEntry _ _ _ [(0x1d, key)]);
    [ | rewrite length_app, Hkey; cbn; lia
      | rewrite length_app, Hkey; exact (read_key_share key Hkey) ].
  rewrite (read_vector_of _ _ Read.CipherSuite _ _ _ [0x1301]);
    [ | cbn; lia | reflexivity ].
  cbn [app]. rewrite read_uint16. change (1 * 256 + 4) with 260.
  rewrite read_uint64 by exact Ht1.
  rewrite read_uint64 by exact Ht2.
  reflexivity.
Qed.

(** The bytes of a completed run, field by field. *)
Lemma mk_esnikeys_layout (w : Esni.world) (o : Esni.options) (out : Esni.output) :
  Esni.mk_esnikeys w o = Ok out ->
  exists cnlen name extlen extvals public cksum,
    Esni.check_version o = Ok (cnlen, name)
    /\ Esni.address_set w o cnlen name = Ok (extlen, extvals)
    /\ Esni.encodedpoint w (Esni.private_key_file o) = Ok public
    /\ List.length cksum = 4%nat
    /\ (32 <= List.length public)%nat
    /\ (Esni.ekversion o = 0xff01 \/ Esni.ekversion o = 0xff02)
    /\ 0 <= cnlen <= 254
    /\ Esni.minduration <= Esni.duration o < Esni.maxduration
    /\ ((extlen =? 0) = false -> (Z.to_nat extlen <= List.length extvals)%nat)
    /\ Esni.esnikeys out
       = (Read.laid_out (Esni.ekversion o) cksum
            (firstn (Z.to_nat cnlen) (C.bytes_of name)) (firstn 32 public)
            (Read.time_bytes (Esni.clock w - 1))
            (Read.time_bytes (Esni.clock w - 1 + Esni.duration o))
          ++ (if extlen =? 0 then [0; 0] else firstn (Z.to_nat extlen) extvals))%list
    /\ (Esni.ekversion o = 0xff02 ->
        List.length (firstn (Z.to_nat cnlen) (C.bytes_of name)) = Z.to_nat cnlen).
Proof.
  intro H.
  destruct (mk_esnikeys_run w o out H)
    as (cnlen & name & extlen & extvals & public & cksum
        & Hver & Hext & Hkey & Hck & Hreads & Hv & Hcn & Hdur & Hout).
  exists cnlen, name, extlen, extvals, public, cksum.
  unfold Esni.esnikeys_reads in Hreads.
  apply andb_true_iff in Hreads. destruct Hreads as [Hreads Hx].
  apply andb_true_iff in Hreads. destruct Hreads as [Hname Hpub].
  apply Nat.leb_le in Hpub.
  assert (Hk32 : List.length (firstn 32 public) = 32%nat)
    by (rewrite length_firstn; lia).
  assert (Hnf : Esni.ekversion o = 0xff02 ->
                List.length (firstn (Z.to_nat cnlen) (C.bytes_of name)) = Z.to_nat cnlen).
  { intro E. rewrite E in Hname. cbn [Z.eqb Pos.eqb] in Hname.
    apply Nat.leb_le in Hname. rewrite length_firstn. lia. }
  repeat (split; [first [assumption | reflexivity]|]).
  split.
  { intro E. rewrite E in Hx. apply Nat.leb_le in Hx. exact Hx. }
  split; [|exact Hnf].
  cbv zeta in Hout. rewrite Hout. unfold Esni.esnikeys_bytes, Read.laid_out, Read.time_bytes.
  assert (Hkeys : Wire.length_prefixed ([0; 29; 0; 32] ++ firstn 32 public)
                  = ([0; 36; 0; 29; 0; 32] ++ firstn 32 public)%list).
  { unfold Wire.length_prefixed. rewrite length_app, Hk32. reflexivity. }
  rewrite Hkeys.
  set (k32 := firstn 32 public) in *.
  set (nf := firstn (Z.to_nat cnlen) (C.bytes_of name)) in *.
  set (ev := firstn (Z.to_nat extlen) extvals) in *.
  cbn [app firstn skipn].
  destruct Hv as [Hv|Hv]; rewrite Hv in *; cbn [Z.eqb Pos.eqb app].
  - do 4 (rewrite <- ?app_assoc; cbn [app]). reflexivity.
  - unfold Wire.length_prefixed at 1. rewrite (Hnf eq_refl), Z2Nat.id by lia.
    rewrite <- (u16_stores cnlen) by lia.
    do 6 (rewrite <- ?app_assoc; cbn [app]). reflexivity.
Qed.

(** X10. The structure written by a run without AddressSet, read back
    with the syntax of the comment at lines 617-630, is a whole ESNIKeys
    with nothing left over: the version asked for, the checksum, for
    0xff02 the name field, one key share of group 0x001d with the first
    32 bytes of the public key, the one cipher suite 0x1301, a padded
    length of 260, no extensions, and as validity times the low 32 bits
    of the clock less one second and of that plus the duration. *)
Theorem structure_reads_back (w : Esni.world) (o : Esni.options) (out : Esni.output) :
  Esni.mk_esnikeys w o = Ok out ->
  Esni.includeaddrset o = false ->
  1 <= Esni.clock w ->
  exists r public,
    Read.parse (Esni.esnikeys out) = Some r
    /\ Esni.encodedpoint w (Esni.private_key_file o) = Ok public
    /\ Read.version r = Esni.ekversion o
    /\ Read.checksum r = Wire.checksum_field (Esni.esnikeys out)
    /\ Read.public_name r
       = (if Esni.ekversion o =? 0xff02
          then Wire.read_length_prefixed 6 (Esni.esnikeys out) else None)
    /\ Read.keys r = [(0x1d, firstn 32 public)]
    /\ Read.cipher_suites r = [0x1301]
    /\ Read.padded_length r = 260
    /\ Read.not_before r = (Esni.clock w - 1) mod 2 ^ 32
    /\ Read.not_after r = (Esni.clock w - 1 + Esni.duration o) mod 2 ^ 32
    /\ Read.extensions r = [].
Proof.
  intros H Ha Hclock.
  destruct (mk_esnikeys_layout w o out H)
    as (cnlen & name & extlen & extvals & public & cksum
        & Hver & Hext & Hkey & Hck & Hpub & Hv & Hcn & Hdur & _ & Hout & Hnf).
  rewrite address_set_none in Hext by (rewrite Ha; apply andb_false_r).
  injection Hext as <- <-. cbn [Z.eqb] in Hout.
  unfold Esni.minduration in Hdur.
  set (nf := firstn (Z.to_nat cnlen) (C.bytes_of name)) in *.
  assert (Hnfl : Z.of_nat (List.length nf) < 65536).
  { subst nf. rewrite length_firstn. lia. }
  assert (Hk32 : List.length (firstn 32 public) = 32%nat)
    by (rewrite length_firstn; lia).
  assert (Hv16 : 0 <= Esni.ekversion o < 65536) by (destruct Hv as [-> | ->]; lia).
  pose proof (read_esnikeys_prefix (Esni.ekversion o) cksum nf (firstn 32 public)
                (Read.time_bytes (Esni.clock w - 1))
                (Read.time_bytes (Esni.clock w - 1 + Esni.duration o))
                [0; 0] Hv16 Hck Hnfl Hk32 eq_refl eq_refl) as Hread.
  rewrite <- Hout in Hread.
  rewrite !time_bytes_value in Hread by lia.
  eexists _, public. split; [unfold Read.parse; rewrite Hread; reflexivity|].
  cbn [Read.version Read.checksum Read.public_name Read.keys Read.cipher_suites
       Read.padded_length Read.not_before Read.not_after Read.extensions].
  split; [exact Hkey|]. split; [reflexivity|].
  do 4 (destruct cksum as [|? cksum]; [discriminate Hck|]).
  destruct cksum; [clear Hck | discriminate Hck].
  split; [rewrite Hout; reflexivity|].
  split; [|repeat split].
  destruct (Z.eqb_spec (Esni.ekversion o) 65282) as [E|E]; [|reflexivity].
  symmetry.
  apply (read_length_prefixed_at 6 _ (Wire.u16be (Esni.ekversion o) ++ [z; z0; z1; z2]) nf
           (Wire.length_prefixed ([0; 29; 0; 32] ++ firstn 32 public)
            ++ Wire.length_prefixed [19; 1] ++ [1; 4]
            ++ Read.time_bytes (Esni.clock w - 1)
            ++ Read.time_bytes (Esni.clock w - 1 + Esni.duration o) ++ [0; 0])%list);
    [|reflexivity | exact Hnfl].
  rewrite Hout. unfold Read.laid_out. rewrite E. cbn [Z.eqb Pos.eqb].
  rewrite <- !app_assoc. reflexivity.
Qed.

Lemma structure_reads_back_witness :
  exists out r public,
    Esni.mk_esnikeys Sample.draft02_world Sample.draft02_options = Ok out
    /\ Read.parse (Esni.esnikeys out) = Some r
    /\ Esni.encodedpoint Sample.draft02_world
         (Esni.private_key_file Sample.draft02_options) = Ok public
    /\ Read.version r = Esni.ekversion Sample.draft02_options
    /\ Read.checksum r = Wire.checksum_field (Esni.esnikeys out)
    /\ Read.public_name r
       = (if Esni.ekversion Sample.draft02_options =? 0xff02
          then Wire.read_length_prefixed 6 (Esni.esnikeys out) else None)
    /\ Read.keys r = [(0x1d, firstn 32 public)]
    /\ Read.cipher_suites r = [0x1301]
    /\ Read.padded_length r = 260
    /\ Read.not_before r = (Esni.clock Sample.draft02_world - 1) mod 2 ^ 32
    /\ Read.not_after r
       = (Esni.clock Sample.draft02_world - 1
          + Esni.duration Sample.draft02_options) mod 2 ^ 32
    /\ Read.extensions r = [].
Proof.
  destruct (Esni.mk_esnikeys Sample.draft02_world Sample.draft02_options)
    as [out|f] eqn:E.
  - destruct (structure_reads_back Sample.draft02_world Sample.draft02_options out E
                eq_refl ltac:(vm_compute; discriminate))
      as (r & public & Hr).
    exists out, r, public. split; [reflexivity | exact Hr].
  - vm_compute in E. discriminate E.
Defined.

(** The extensions of a structure with an AddressSet do not read as a
    vector of extensions: the length in front covers all but the last
    byte, and the extension inside claims one byte more than is left. *)
Lemma read_address_extension_fails (t : list Z) :
  Z.of_nat (List.length t) <= 272 ->
  Read.vector_of Read.Extension
    (Wire.u16be (Z.of_nat (List.length t) + 3) ++ [0x10; 0x01]
     ++ Wire.u16be (Z.of_nat (List.length t)) ++ t)%list = None.
Proof.
  intro Hlen. set (n := Z.of_nat (List.length t)) in *.
  assert (Hn : 0 <= n) by (subst n; lia).
  unfold Read.vector_of.
  assert (Hvec : Read.vector (Wire.u16be (n + 3) ++ [0x10; 0x01] ++ Wire.u16be n ++ t)%list
                 = Some (firstn (Z.to_nat (n + 3)) ([0x10; 0x01] ++ Wire.u16be n ++ t)%list,
                         skipn (Z.to_nat (n + 3)) ([0x10; 0x01] ++ Wire.u16be n ++ t)%list)).
  { pose proof (read_uint16_be _ (fun m => Read.opaque (Z.to_nat m)) (n + 3)
                  ([0x10; 0x01] ++ Wire.u16be n ++ t)%list ltac:(lia)) as Hu.
    unfold Read.vector. rewrite Hu. unfold Read.opaque.
    unfold Wire.u16be. cbn [app List.length].
    destruct (Nat.leb_spec (Z.to_nat (n + 3)) (S (S (S (S (List.length t))))));
      [reflexivity | lia]. }
  rewrite Hvec.
  replace (Z.to_nat (n + 3)) with (S (S (S (List.length t)))) by lia.
  pose proof (u16be_value n ltac:(lia)) as Hval.
  unfold Wire.u16be in *. cbn [app firstn].
  set (hi := n / 256 mod 256) in *. set (lo := n mod 256) in *.
  assert (Hext : Read.Extension (16 :: 1 :: hi :: firstn (List.length t) (lo :: t)) = None).
  { unfold Read.Extension. rewrite read_uint16.
    destruct t as [|x t'].
    - reflexivity.
    - cbn [List.length firstn]. unfold Read.bind at 1, Read.vector.
      rewrite read_uint16, Hval. subst n. cbn [List.length].
      rewrite Nat2Z.id. unfold Read.opaque.
      destruct (Nat.leb_spec (S (List.length t'))
                  (List.length (firstn (List.length t') (x :: t'))));
        [|reflexivity].
      rewrite length_firstn in *. cbn [List.length] in *. lia. }
  cbn [List.length Read.items]. rewrite Hext. reflexivity.
Qed.

(** X11. With an AddressSet the structure does not read back: the
    length in front of the extensions is one less than the bytes that
    follow, so a reader of the syntax of the comment at lines 617-630
    stops inside the extension and returns nothing. *)
Theorem address_set_structure_does_not_read_back
    (w : Esni.world) (o : Esni.options) (out : Esni.output) :
  Esni.mk_esnikeys w o = Ok out ->
  Esni.includeaddrset o = true ->
  Read.esnikeys (Esni.esnikeys out) = None
  /\ Read.parse (Esni.esnikeys out) = None.
Proof.
  intros H Ha.
  destruct (mk_esnikeys_layout w o out H)
    as (cnlen & name & extlen & extvals & public & cksum
        & Hver & Hext & Hkey & Hck & Hpub & Hv & Hcn & Hdur & _ & Hout & Hnf).
  assert (Hv2 : Esni.ekversion o = 0xff02).
  { destruct Hv as [Hv|Hv]; [|exact Hv].
    unfold Esni.mk_esnikeys in H. step_check H E1. step_check H E2.
    rewrite Hv, Ha in E2. discriminate E2. }
  destruct (address_set_inv w o cnlen name extlen extvals Hv2 Ha Hext)
    as (ips & t & _ & _ & Hb & _ & Hxl & Hxv).
  assert (Hfull : firstn (Z.to_nat extlen) extvals = extvals).
  { apply firstn_all2. rewrite Hxv, Hxl. unfold Wire.u16be.
    cbn [app List.length]. lia. }
  assert (He0 : (extlen =? 0) = false) by (apply Z.eqb_neq; lia).
  rewrite He0, Hfull in Hout.
  set (nf := firstn (Z.to_nat cnlen) (C.bytes_of name)) in *.
  assert (Hnfl : Z.of_nat (List.length nf) < 65536).
  { subst nf. rewrite length_firstn. lia. }
  assert (Hk32 : List.length (firstn 32 public) = 32%nat)
    by (rewrite length_firstn; lia).
  assert (Hv16 : 0 <= Esni.ekversion o < 65536) by (rewrite Hv2; lia).
  pose proof (read_esnikeys_prefix (Esni.ekversion o) cksum nf (firstn 32 public)
                (Read.time_bytes (Esni.clock w - 1))
                (Read.time_bytes (Esni.clock w - 1 + Esni.duration o))
                extvals Hv16 Hck Hnfl Hk32 eq_refl eq_refl) as Hread.
  rewrite <- Hout in Hread.
  assert (Hnone : Read.esnikeys (Esni.esnikeys out) = None).
  { rewrite Hread. unfold Read.bind. rewrite Hxv.
    rewrite (read_address_extension_fails t Hb). reflexivity. }
  split; [exact Hnone|]. unfold Read.parse. rewrite Hnone. reflexivity.
Qed.

Lemma address_set_structure_does_not_read_back_witness :
  exists out,
    Esni.mk_esnikeys Sample.draft03_world Sample.draft03_options = Ok out
    /\ Read.esnikeys (Esni.esnikeys out) = None
    /\ Read.parse (Esni.esnikeys out) = None.
Proof.
  destruct (Esni.mk_esnikeys Sample.draft03_world Sample.draft03_options)
    as [out|f] eqn:E.
  - exists out. split; [reflexivity|].
    exact (address_set_structure_does_not_read_back
             Sample.draft03_world Sample.draft03_options out E eq_refl).
  - vm_compute in E. discriminate E.
Defined.

(** ** The zone fragment, read back *)

Lemma hex_digit_value (d : Z) :
  0 <= d < 16 ->
  Read.is_layout (Text.hex_digit d) = false
  /\ Read.hex_value (Text.hex_digit d) = Some d.
Proof.
  intro Hd. rewrite <- (Z2Nat.id d) at 3 by lia.
  unfold Text.hex_digit.
  assert (Hn : (Z.to_nat d < 16)%nat) by lia.
  revert Hn. generalize (Z.to_nat d) as n. intros n Hn.
  do 16 (destruct n as [|n]; [split; reflexivity|]). lia.
Qed.

Lemma hex_bytes_hex2 (b : Z) (rest : string) :
  0 <= b < 256 ->
  Read.hex_bytes (Text.hex2 b ++ rest)
  = option_map (cons b) (Read.hex_bytes rest).
Proof.
  intro Hb. unfold Text.hex2. cbn [append Read.hex_bytes].
  assert (Hq : 0 <= b / 16 < 16)
    by (split; [apply Z.div_pos | apply Z.div_lt_upper_bound]; lia).
  pose proof (Z.mod_pos_bound b 16 ltac:(lia)) as Hr.
  destruct (hex_digit_value (b / 16) Hq) as [-> ->].
  destruct (hex_digit_value (b mod 16) Hr) as [_ ->].
  replace (b / 16 * 16 + b mod 16) with b
    by (pose proof (Z.div_mod b 16 ltac:(lia)); lia).
  reflexivity.
Qed.

Lemma hex_bytes_layout (s rest : string) :
  (forall c, C.occurs c s = true -> Read.is_layout c = true) ->
  Read.hex_bytes (s ++ rest) = Read.hex_bytes rest.
Proof.
  induction s as [|a s IH]; intro Hs; [reflexivity|].
  cbn [append Read.hex_bytes].
  rewrite (Hs a) by (cbn [C.occurs]; rewrite Ascii.eqb_refl; reflexivity).
  apply IH. intros c Hc. apply Hs. cbn [C.occurs]. rewrite Hc. apply orb_true_r.
Qed.

Lemma spaces_layout (n : nat) (c : ascii) :
  C.occurs c (Text.spaces n) = true -> Read.is_layout c = true.
Proof.
  induction n as [|n IH]; cbn [Text.spaces C.occurs]; [discriminate|].
  intro H. apply orb_true_iff in H. destruct H as [H|H]; [|exact (IH H)].
  apply Ascii.eqb_eq in H. subst c. reflexivity.
Qed.

Lemma hex_bytes_unfolded (buf : list Z) (rest : string) :
  Forall (fun b => 0 <= b < 256) buf ->
  Read.hex_bytes (Esni.prr_unfolded buf ++ rest)
  = option_map (app buf) (Read.hex_bytes rest).
Proof.
  induction 1 as [|b buf Hb _ IH]; cbn [Esni.prr_unfolded].
  - cbn [append app]. destruct (Read.hex_bytes rest); reflexivity.
  - rewrite append_assoc, hex_bytes_hex2, IH by exact Hb.
    destruct (Read.hex_bytes rest); reflexivity.
Qed.

Lemma hex_bytes_folded (padding : string) (buf : list Z) (i : nat) (rest : string) :
  (forall c, C.occurs c padding = true -> Read.is_layout c = true) ->
  Forall (fun b => 0 <= b < 256) buf ->
  Read.hex_bytes (Esni.prr_folded padding buf i ++ rest)
  = option_map (app buf) (Read.hex_bytes rest).
Proof.
  intros Hpad Hbuf. revert i.
  induction Hbuf as [|b buf Hb _ IH]; intro i; cbn [Esni.prr_folded].
  - cbn [append app]. destruct (Read.hex_bytes rest); reflexivity.
  - rewrite !append_assoc.
    assert (Hskip : forall tl,
      Read.hex_bytes ((if (i mod 16 =? 0)%nat
                       then String Text.LF padding ++ "                  "
                       else if (i mod 2 =? 0)%nat then " " else "") ++ tl)
      = Read.hex_bytes tl).
    { intro tl. destruct (i mod 16 =? 0)%nat.
      - cbn [append Read.hex_bytes]. change (Read.is_layout Text.LF) with true.
        cbv iota. rewrite append_assoc, (hex_bytes_layout padding _ Hpad).
        reflexivity.
      - destruct (i mod 2 =? 0)%nat; reflexivity. }
    rewrite Hskip, hex_bytes_hex2, IH by exact Hb.
    destruct (Read.hex_bytes rest); reflexivity.
Qed.

(** X12. The zone fragment is a record in the generic form: the owner
    name, [IN TYPE] and the type code, [\#], the number of bytes, and
    then the bytes as pairs of hexadecimal digits; taking the digits in
    order, across the folded lines and their parentheses, gives back
    the buffer byte for byte. *)
Theorem zone_fragment_holds_the_bytes (buf : list Z) (typecode : Z)
    (owner_name text : string) :
  Forall (fun b => 0 <= b < 256) buf ->
  Esni.fp_esni_prr buf typecode owner_name = Ok text ->
  exists rdata,
    text = C.cstr owner_name ++ ". IN TYPE" ++ Text.dec typecode ++ " \# "
           ++ Text.dec (Z.of_nat (List.length buf)) ++ " " ++ rdata
    /\ Read.hex_bytes rdata = Some buf.
Proof.
  intros Hbuf. unfold Esni.fp_esni_prr.
  destruct (16 <? Z.of_nat (List.length buf)).
  - destruct (Z.of_nat (C.strlen owner_name) <=? Esni.MAX_ESNI_COVER_NAME);
      [|discriminate].
    intros [= <-].
    exists ("(" ++ Esni.prr_folded (Text.spaces (C.strlen owner_name)) buf 0
            ++ " )" ++ String Text.LF "").
    split; [reflexivity|].
    cbn [append Read.hex_bytes]. change (Read.is_layout "(") with true. cbv iota.
    rewrite hex_bytes_folded; [|apply spaces_layout | exact Hbuf].
    cbn. rewrite app_nil_r. reflexivity.
  - intros [= <-].
    exists (Esni.prr_unfolded buf ++ String Text.LF "").
    split; [reflexivity|].
    rewrite hex_bytes_unfolded by exact Hbuf. cbn. rewrite app_nil_r. reflexivity.
Qed.

Lemma zone_fragment_holds_the_bytes_witness :
  exists text rdata,
    Esni.fp_esni_prr Sample.draft03_value 0xffdf "www.cloudflare.com" = Ok text
    /\ text = C.cstr "www.cloudflare.com" ++ ". IN TYPE" ++ Text.dec 0xffdf ++ " \# "
              ++ Text.dec (Z.of_nat (List.length Sample.draft03_value)) ++ " " ++ rdata
    /\ Read.hex_bytes rdata = Some Sample.draft03_value.
Proof.
  destruct (Esni.fp_esni_prr Sample.draft03_value 0xffdf "www.cloudflare.com")
    as [text|f] eqn:E.
  - destruct (zone_fragment_holds_the_bytes Sample.draft03_value 0xffdf
                "www.cloudflare.com" text) as [rdata Hr].
    + unfold Sample.draft03_value. repeat constructor; lia.
    + exact E.
    + exists text, rdata. split; [reflexivity | exact Hr].
  - vm_compute in E. discriminate E.
Defined.

(** ** The ECHOConfig builder: sizes and return values *)

Lemma echoconfig_bytes_length (p : Echo.platform) (public_name : option string) :
  (32 <= List.length (Echo.kg_pub (Echo.hpke_kg p)))%nat ->
  Echo.echoconfig_reads 0xff03 (Echo.name_length public_name)
    (Echo.name_storage public_name) (Echo.kg_pub (Echo.hpke_kg p)) = true
  /\ Z.of_nat (List.length
       (Echo.echoconfig_bytes p 0xff03 (Echo.name_length public_name)
          (Echo.name_storage public_name) (Echo.kg_pub (Echo.hpke_kg p))))
     = if 0 <? Echo.name_length public_name
       then 50 + Echo.name_length public_name else 48.
Proof.
  intro Hpub.
  assert (Hname : (Z.to_nat (Echo.name_length public_name)
                   <= List.length (Echo.name_storage public_name))%nat).
  { destruct public_name as [name|]; cbn [Echo.name_length Echo.name_storage];
      [|cbn; lia].
    rewrite Nat2Z.id, length_bytes_of. apply strlen_le_length. }
  assert (HL : 0 <= Echo.name_length public_name).
  { destruct public_name; cbn [Echo.name_length]; lia. }
  unfold Echo.echoconfig_reads, Echo.echoconfig_bytes.
  cbn [Z.eqb Pos.eqb orb andb]. rewrite andb_true_r.
  destruct (0 <? Echo.name_length public_name).
  - split.
    + apply andb_true_iff. split; apply Nat.leb_le; assumption.
    + repeat (rewrite ?length_app, ?length_firstn; cbn [app List.length]). lia.
  - split.
    + apply Nat.leb_le. assumption.
    + repeat (rewrite ?length_app, ?length_firstn; cbn [app List.length]). lia.
Qed.

(** X13. An ECHOConfig has 50 bytes without a public name and 52 and
    the length of the name with one.  The structure is built when that
    fits in the [MAX_ECHOCONFIGS_BUFLEN] bytes of [bbuf]; the length of
    the name is not checked, and with a longer name the stores run past
    the end of the array. *)
Theorem echoconfig_size_and_room (p : Echo.platform) (public_name : option string) :
  Echo.kg_rv (Echo.hpke_kg p) = 1 ->
  (32 <= List.length (Echo.kg_pub (Echo.hpke_kg p)))%nat ->
  let L := Echo.name_length public_name in
  let size := if 0 <? L then 52 + L else 50 in
  (size <= Z.of_nat (Echo.MAX_ECHOCONFIGS_BUFLEN p) ->
   exists bbuf,
     Echo.echoconfig_binary p 0xff03 public_name false = Ok bbuf
     /\ Z.of_nat (List.length bbuf) = size)
  /\ (Z.of_nat (Echo.MAX_ECHOCONFIGS_BUFLEN p) < size ->
      Echo.echoconfig_binary p 0xff03 public_name false = Fail Undefined).
Proof.
  intros Hrv Hpub L size.
  destruct (echoconfig_bytes_length p public_name Hpub) as [Hreads Hlen].
  unfold Echo.echoconfig_binary. cbn [Z.eqb Pos.eqb orb bind negb].
  rewrite Hrv. cbn [Z.eqb Pos.eqb].
  rewrite (echoconfig_body_emits p 0xff03 (Echo.name_length public_name)
             (Echo.name_storage public_name) (Echo.kg_pub (Echo.hpke_kg p))
             [] (Nat.le_0_l _)).
  rewrite Hreads. cbn [andb List.length Nat.add app].
  set (bytes := Echo.echoconfig_bytes p 0xff03 (Echo.name_length public_name)
                  (Echo.name_storage public_name) (Echo.kg_pub (Echo.hpke_kg p))) in *.
  assert (Hsize : size = Z.of_nat (List.length bytes) + 2).
  { subst size L. rewrite Hlen. destruct (0 <? Echo.name_length public_name); lia. }
  split.
  - intro Hfit.
    destruct (Nat.leb_spec (List.length bytes) (Echo.MAX_ECHOCONFIGS_BUFLEN p)); [|lia].
    cbn [defined bind]. unfold Writer.seq, Writer.put_u8.
    destruct (Nat.ltb_spec (List.length bytes) (Echo.MAX_ECHOCONFIGS_BUFLEN p)); [|lia].
    rewrite length_app. cbn [List.length].
    destruct (Nat.ltb_spec (List.length bytes + 1) (Echo.MAX_ECHOCONFIGS_BUFLEN p)); [|lia].
    eexists. split; [reflexivity|].
    rewrite !length_app. cbn [List.length]. lia.
  - intro Hover.
    destruct (Nat.leb_spec (List.length bytes) (Echo.MAX_ECHOCONFIGS_BUFLEN p));
      [|reflexivity].
    cbn [defined bind]. unfold Writer.seq, Writer.put_u8.
    destruct (Nat.ltb_spec (List.length bytes) (Echo.MAX_ECHOCONFIGS_BUFLEN p));
      [|reflexivity].
    rewrite length_app. cbn [List.length].
    destruct (Nat.ltb_spec (List.length bytes + 1) (Echo.MAX_ECHOCONFIGS_BUFLEN p));
      [lia | reflexivity].
Qed.

Lemma echoconfig_size_and_room_witness :
  let L := Echo.name_length (Some "example.com") in
  let size := if 0 <? L then 52 + L else 50 in
  (size <= Z.of_nat (Echo.MAX_ECHOCONFIGS_BUFLEN Sample.platform) ->
   exists bbuf,
     Echo.echoconfig_binary Sample.platform 0xff03 (Some "example.com") false = Ok bbuf
     /\ Z.of_nat (List.length bbuf) = size)
  /\ (Z.of_nat (Echo.MAX_ECHOCONFIGS_BUFLEN Sample.platform) < size ->
      Echo.echoconfig_binary Sample.platform 0xff03 (Some "example.com") false
      = Fail Undefined).
Proof.
  apply (echoconfig_size_and_room Sample.platform (Some "example.com")).
  - reflexivity.
  - cbn. lia.
Defined.


(** ** [echo_main] *)

(** The run from the settings the options left. *)
Lemma echo_main_ff03 (p : Echo.platform) (BIO_new_file : string -> bool)
    (opts : list EchoMain.OPTION_CHOICE) (s : EchoMain.settings) :
  EchoMain.opt_loop opts EchoMain.initial = Some s ->
  EchoMain.echo_version s = 0xff03 ->
  EchoMain.echo_main p BIO_new_file opts 0
  = match Echo.mk_echoconfig p 0xff03 (EchoMain.public_name s)
            (Echo.MAX_ECHOCONFIGS_BUFLEN p)
            (Z.of_nat (Echo.MAX_ECHOCONFIGS_BUFLEN p)) false with
    | Ok out => EchoMain.write_files BIO_new_file s out
    | Fail (Returned _) => Ok {| EchoMain.returned := 0; EchoMain.written := [] |}
    | Fail f => Fail f
    end.
Proof.
  intros Hs Hv. unfold EchoMain.echo_main. rewrite Hs, Hv. reflexivity.
Qed.

(** X15. [echo_main] gives the Base64 text an array of the same
    [MAX_ECHOCONFIGS_BUFLEN] bytes as the binary structure it encodes.
    For a structure that was built, with [c] characters of text: when
    the text and its NUL do not fit, [EVP_EncodeBlock] writes past the
    end of the array; when they fit exactly, the run gives up, returns
    0 and writes no file; only with a byte to spare does it go on to
    write the files. *)
Theorem echo_main_text_array (p : Echo.platform) (BIO_new_file : string -> bool)
    (opts : list EchoMain.OPTION_CHOICE) (s : EchoMain.settings) (bbuf : list Z) :
  EchoMain.opt_loop opts EchoMain.initial = Some s ->
  EchoMain.echo_version s = 0xff03 ->
  Echo.echoconfig_binary p 0xff03 (EchoMain.public_name s) false = Ok bbuf ->
  Z.of_nat (Echo.MAX_ECHOCONFIGS_BUFLEN p) < 2 ^ 64 ->
  let text := Echo.EVP_EncodeBlock p bbuf in
  let c := List.length text in
  let MAX := Echo.MAX_ECHOCONFIGS_BUFLEN p in
  ((MAX < c + 1)%nat ->
   EchoMain.echo_main p BIO_new_file opts 0 = Fail Undefined)
  /\ ((c + 1 = MAX)%nat ->
      EchoMain.echo_main p BIO_new_file opts 0
      = Ok {| EchoMain.returned := 0; EchoMain.written := [] |})
  /\ ((c + 1 < MAX)%nat ->
      EchoMain.echo_main p BIO_new_file opts 0
      = EchoMain.write_files BIO_new_file s
          {| Echo.echoconfig := (text ++ [0])%list;
             Echo.echoconfig_len := Z.of_nat c;
             Echo.priv := Echo.kg_priv (Echo.hpke_kg p);
             Echo.privlen := Echo.kg_privlen (Echo.hpke_kg p) |}).
Proof.
  intros Hs Hv Hb Hmax text c MAX. subst MAX.
  rewrite (echo_main_ff03 p BIO_new_file opts s Hs Hv).
  set (M := Echo.MAX_ECHOCONFIGS_BUFLEN p) in *.
  split; [|split].
  - intro Hover.
    rewrite (mk_echoconfig_overflow p 0xff03 (EchoMain.public_name s) M
               (Z.of_nat M) bbuf Hb) by (fold text; fold c; lia).
    reflexivity.
  - intro Hfit.
    rewrite (mk_echoconfig_decision p 0xff03 (EchoMain.public_name s) M
               (Z.of_nat M) bbuf Hb) by (fold text; fold c; lia).
    fold text. fold c. unfold Echo.size_t.
    rewrite !Z.mod_small by lia.
    destruct (Z.geb_spec (Z.of_nat c) (Z.of_nat M - 1)); [reflexivity | lia].
  - intro Hroom.
    rewrite (mk_echoconfig_decision p 0xff03 (EchoMain.public_name s) M
               (Z.of_nat M) bbuf Hb) by (fold text; fold c; lia).
    fold text. fold c. unfold Echo.size_t.
    rewrite !Z.mod_small by lia.
    destruct (Z.geb_spec (Z.of_nat c) (Z.of_nat M - 1)); [lia | reflexivity].
Qed.

Lemma echo_main_text_array_witness :
  exists bbuf,
    Echo.echoconfig_binary Sample.platform 0xff03 (Some "example.com") false = Ok bbuf
    /\ let s := {| EchoMain.echoconfig_file := None; EchoMain.keyfile := None;
                   EchoMain.pemfile := None;
                   EchoMain.public_name := Some "example.com";
                   EchoMain.echo_version := 0xff03 |} in
       let opts := [EchoMain.OPT_PUBLICNAME "example.com"] in
       let text := Echo.EVP_EncodeBlock Sample.platform bbuf in
       let c := List.length text in
       let MAX := Echo.MAX_ECHOCONFIGS_BUFLEN Sample.platform in
       ((MAX < c + 1)%nat ->
        EchoMain.echo_main Sample.platform (fun _ => true) opts 0 = Fail Undefined)
       /\ ((c + 1 = MAX)%nat ->
           EchoMain.echo_main Sample.platform (fun _ => true) opts 0
           = Ok {| EchoMain.returned := 0; EchoMain.written := [] |})
       /\ ((c + 1 < MAX)%nat ->
           EchoMain.echo_main Sample.platform (fun _ => true) opts 0
           = EchoMain.write_files (fun _ => true) s
               {| Echo.echoconfig := (text ++ [0])%list;
                  Echo.echoconfig_len := Z.of_nat c;
                  Echo.priv := Echo.kg_priv (Echo.hpke_kg Sample.platform);
                  Echo.privlen := Echo.kg_privlen (Echo.hpke_kg Sample.platform) |}).
Proof.
  destruct (Echo.echoconfig_binary Sample.platform 0xff03 (Some "example.com") false)
    as [bbuf|f] eqn:E.
  - exists bbuf. split; [reflexivity|].
    exact (echo_main_text_array Sample.platform (fun _ => true)
             [EchoMain.OPT_PUBLICNAME "example.com"]
             {| EchoMain.echoconfig_file := None; EchoMain.keyfile := None;
                EchoMain.pemfile := None;
                EchoMain.public_name := Some "example.com";
                EchoMain.echo_version := 0xff03 |}
             bbuf eq_refl eq_refl E eq_refl).
  - vm_compute in E. discriminate E.
Defined.

(** Two settings that differ at most in the PEM file name. *)
Lemma opt_loop_without_pemout (opts : list EchoMain.OPTION_CHOICE)
    (s s' : EchoMain.settings) :
  EchoMain.echoconfig_file s = EchoMain.echoconfig_file s' ->
  EchoMain.keyfile s = EchoMain.keyfile s' ->
  EchoMain.public_name s = EchoMain.public_name s' ->
  EchoMain.echo_version s = EchoMain.echo_version s' ->
  match EchoMain.opt_loop (filter (fun o => negb (EchoMain.is_pemout o)) opts) s,
        EchoMain.opt_loop opts s' with
  | Some r, Some r' =>
      EchoMain.echoconfig_file r = EchoMain.echoconfig_file r'
      /\ EchoMain.keyfile r = EchoMain.keyfile r'
      /\ EchoMain.public_name r = EchoMain.public_name r'
      /\ EchoMain.echo_version r = EchoMain.echo_version r'
  | None, None => True
  | _, _ => False
  end.
Proof.
  revert s s'. induction opts as [|o opts IH]; intros s s' H1 H2 H3 H4.
  - cbn. repeat split; assumption.
  - destruct o; cbn [filter EchoMain.is_pemout negb EchoMain.opt_loop];
      try exact I; apply IH; cbn; congruence.
Qed.

Lemma opt_loop_has_target (opts : list EchoMain.OPTION_CHOICE)
    (s r : EchoMain.settings) :
  EchoMain.opt_loop opts s = Some r ->
  EchoMain.has_target s || existsb EchoMain.names_output opts = true ->
  EchoMain.has_target r = true.
Proof.
  revert s. induction opts as [|o opts IH]; intros s Hr Ht.
  - cbn in Hr, Ht. injection Hr as <-. rewrite orb_false_r in Ht. exact Ht.
  - destruct o; cbn [EchoMain.opt_loop] in Hr; try discriminate Hr;
      apply (IH _ Hr); cbn [existsb EchoMain.names_output orb] in Ht;
      unfold EchoMain.has_target in *; cbn;
      try exact Ht;
      try (destruct (EchoMain.keyfile s); reflexivity).
Qed.

(** X16. [-pemout] has no effect once [-pubout] or [-privout] is given:
    the run returns the same value and writes the same files as without
    it, and no PEM file is written. *)
Theorem pemout_ignored_with_pubout_or_privout (p : Echo.platform)
    (BIO_new_file : string -> bool) (opts : list EchoMain.OPTION_CHOICE)
    (rest : nat) :
  existsb EchoMain.names_output opts = true ->
  EchoMain.echo_main p BIO_new_file
    (filter (fun o => negb (EchoMain.is_pemout o)) opts) rest
  = EchoMain.echo_main p BIO_new_file opts rest.
Proof.
  intro Hout. unfold EchoMain.echo_main.
  pose proof (opt_loop_without_pemout opts EchoMain.initial EchoMain.initial
                eq_refl eq_refl eq_refl eq_refl) as Hrel.
  destruct (EchoMain.opt_loop (filter _ opts) EchoMain.initial) as [s|] eqn:Es;
    destruct (EchoMain.opt_loop opts EchoMain.initial) as [s'|] eqn:Es';
    try contradiction; [|reflexivity].
  destruct Hrel as (H1 & H2 & H3 & H4). rewrite H3, H4.
  destruct (negb (rest =? 0)%nat); [reflexivity|].
  destruct ((EchoMain.echo_version s' =? 65282) || (EchoMain.echo_version s' =? 65281));
    [reflexivity|].
  destruct (negb (EchoMain.echo_version s' =? 65283)); [reflexivity|].
  destruct (Echo.mk_echoconfig _ _ _ _ _ _) as [out|f]; [|reflexivity].
  pose proof (opt_loop_has_target opts EchoMain.initial s' Es'
                ltac:(rewrite Hout; apply orb_true_r)) as Ht.
  unfold EchoMain.has_target in Ht.
  unfold EchoMain.write_files. rewrite H1, H2.
  destruct (EchoMain.keyfile s'), (EchoMain.echoconfig_file s');
    try discriminate Ht; reflexivity.
Qed.

Lemma pemout_ignored_with_pubout_or_privout_witness :
  EchoMain.echo_main Sample.platform (fun _ => true)
    (filter (fun o => negb (EchoMain.is_pemout o))
       [EchoMain.OPT_PEMOUT "both.pem"; EchoMain.OPT_PUBOUT "echoconfig.pub"]) 0
  = EchoMain.echo_main Sample.platform (fun _ => true)
      [EchoMain.OPT_PEMOUT "both.pem"; EchoMain.OPT_PUBOUT "echoconfig.pub"] 0.
Proof.
  apply (pemout_ignored_with_pubout_or_privout Sample.platform (fun _ => true)
           [EchoMain.OPT_PEMOUT "both.pem"; EchoMain.OPT_PUBOUT "echoconfig.pub"] 0).
  reflexivity.
Defined.

Lemma opt_loop_app (a b : list EchoMain.OPTION_CHOICE) (s : EchoMain.settings) :
  EchoMain.opt_loop (a ++ b) s
  = match EchoMain.opt_loop a s with
    | Some s1 => EchoMain.opt_loop b s1
    | None => None
    end.
Proof.
  revert s. induction a as [|o a IH]; intro s; [reflexivity|].
  destruct o; cbn [app EchoMain.opt_loop]; try reflexivity; apply IH.
Qed.

Lemma opt_loop_keeps_version (opts : list EchoMain.OPTION_CHOICE)
    (s r : EchoMain.settings) :
  EchoMain.opt_loop opts s = Some r ->
  existsb EchoMain.is_version opts = false ->
  EchoMain.echo_version r = EchoMain.echo_version s.
Proof.
  revert s. induction opts as [|o opts IH]; intros s Hr Hv.
  - injection Hr as <-. reflexivity.
  - destruct o; cbn [EchoMain.opt_loop existsb EchoMain.is_version orb] in Hr, Hv;
      try discriminate; exact (IH _ Hr Hv).
Qed.

Lemma opt_loop_no_help (opts : list EchoMain.OPTION_CHOICE)
    (s r : EchoMain.settings) :
  EchoMain.opt_loop opts s = Some r ->
  ~ In EchoMain.OPT_ERR opts /\ ~ In EchoMain.OPT_HELP opts.
Proof.
  revert s. induction opts as [|o opts IH]; intros s Hr.
  - split; intros [].
  - destruct o; cbn [EchoMain.opt_loop] in Hr; try discriminate Hr;
      destruct (IH _ Hr) as [He Hh];
      (split; (intros [E|E]; [discriminate E | contradiction])).
Qed.

Lemma echo_verstr2us_ff03 (lv : Z) : EchoMain.verstr2us lv = 0xff03 -> lv = 0xff03.
Proof.
  unfold EchoMain.verstr2us.
  destruct (Z.ltb_spec lv 65535); cbn [andb]; [|discriminate].
  destruct (Z.ltb_spec 0 lv); [|discriminate].
  rewrite Z.mod_small by lia. auto.
Qed.

Lemma write_files_outcome (BIO_new_file : string -> bool) (s : EchoMain.settings)
    (out : Echo.output) (r : EchoMain.run) :
  EchoMain.write_files BIO_new_file s out = Ok r ->
  (EchoMain.returned r = 1 /\ (1 <= List.length (EchoMain.written r) <= 2)%nat)
  \/ (EchoMain.returned r = 0 /\ (List.length (EchoMain.written r) <= 1)%nat).
Proof.
  unfold EchoMain.write_files.
  destruct (EchoMain.echoconfig_file s) as [f|], (EchoMain.keyfile s) as [k|];
    repeat match goal with
           | |- context [if BIO_new_file ?x then _ else _] =>
               destruct (BIO_new_file x)
           | |- context [EchoMain.BIO_write ?b ?l] =>
               destruct (EchoMain.BIO_write b l)
           end;
    cbn [defined bind app]; intro H; try discriminate H;
    injection H as <-; cbn [EchoMain.returned EchoMain.written List.length app];
    first [left; split; [reflexivity | lia] | right; split; [reflexivity | lia]].
Qed.

(** X17. [echo_main] returns 1 or 0.  It returns 1 only when no option
    was in error or asked for help, nothing was left on the command
    line, the version in force (the last [-echo_version], if any) is
    0xff03, and one or two files were written; a run that returns 0 can
    still have written one file, the one named by [-pubout], before the
    file of [-privout] failed to open. *)
Theorem echo_main_return_value (p : Echo.platform) (BIO_new_file : string -> bool)
    (opts : list EchoMain.OPTION_CHOICE) (rest : nat) (r : EchoMain.run) :
  EchoMain.echo_main p BIO_new_file opts rest = Ok r ->
  (EchoMain.returned r = 1
   /\ rest = 0%nat
   /\ ~ In EchoMain.OPT_ERR opts /\ ~ In EchoMain.OPT_HELP opts
   /\ (forall before lv after,
         opts = (before ++ EchoMain.OPT_ECHOVERSION lv :: after)%list ->
         existsb EchoMain.is_version after = false -> lv = 0xff03)
   /\ (1 <= List.length (EchoMain.written r) <= 2)%nat)
  \/ (EchoMain.returned r = 0 /\ (List.length (EchoMain.written r) <= 1)%nat).
Proof.
  unfold EchoMain.echo_main. intro H.
  assert (Hstop : Ok {| EchoMain.returned := 0; EchoMain.written := [] |} = Ok r ->
                  EchoMain.returned r = 0 /\ (List.length (EchoMain.written r) <= 1)%nat).
  { intros [= <-]. cbn. split; [reflexivity | lia]. }
  destruct (EchoMain.opt_loop opts EchoMain.initial) as [s|] eqn:Es;
    [|right; exact (Hstop H)].
  destruct (Nat.eqb_spec rest 0) as [Hrest|Hrest]; cbn [negb] in H;
    [|right; exact (Hstop H)].
  destruct ((EchoMain.echo_version s =? 65282) || (EchoMain.echo_version s =? 65281));
    [right; exact (Hstop H)|].
  destruct (Z.eqb_spec (EchoMain.echo_version s) 65283) as [Hv|Hv]; cbn [negb] in H;
    [|right; exact (Hstop H)].
  destruct (Echo.mk_echoconfig _ _ _ _ _ _) as [out|f].
  2:{ destruct f; try discriminate H. right. exact (Hstop H). }
  destruct (write_files_outcome BIO_new_file s out r H) as [[Hr Hw]|Hr0];
    [left | right; exact Hr0].
  destruct (opt_loop_no_help opts _ _ Es) as [He Hh].
  repeat (split; [assumption|]). split; [|exact Hw].
  intros before lv after -> Hafter.
  rewrite opt_loop_app in Es.
  destruct (EchoMain.opt_loop before EchoMain.initial) as [s1|]; [|discriminate Es].
  cbn [EchoMain.opt_loop] in Es.
  pose proof (opt_loop_keeps_version after _ s Es Hafter) as Hk.
  cbn [EchoMain.echo_version] in Hk. apply echo_verstr2us_ff03. congruence.
Qed.

Lemma echo_main_return_value_witness :
  exists r,
    EchoMain.echo_main Sample.platform (fun _ => true)
      [EchoMain.OPT_ECHOVERSION 0xff03; EchoMain.OPT_PRIVOUT "echo.key"] 0 = Ok r
    /\ ((EchoMain.returned r = 1
         /\ 0%nat = 0%nat
         /\ ~ In EchoMain.OPT_ERR
                [EchoMain.OPT_ECHOVERSION 0xff03; EchoMain.OPT_PRIVOUT "echo.key"]
         /\ ~ In EchoMain.OPT_HELP
                [EchoMain.OPT_ECHOVERSION 0xff03; EchoMain.OPT_PRIVOUT "echo.key"]
         /\ (forall before lv after,
               [EchoMain.OPT_ECHOVERSION 0xff03; EchoMain.OPT_PRIVOUT "echo.key"]
               = (before ++ EchoMain.OPT_ECHOVERSION lv :: after)%list ->
               existsb EchoMain.is_version after = false -> lv = 0xff03)
         /\ (1 <= List.length (EchoMain.written r) <= 2)%nat)
        \/ (EchoMain.returned r = 0 /\ (List.length (EchoMain.written r) <= 1)%nat)).
Proof.
  destruct (EchoMain.echo_main Sample.platform (fun _ => true)
              [EchoMain.OPT_ECHOVERSION 0xff03; EchoMain.OPT_PRIVOUT "echo.key"] 0)
    as [r|f] eqn:E.
  - exists r. split; [reflexivity|].
    exact (echo_main_return_value Sample.platform (fun _ => true)
             [EchoMain.OPT_ECHOVERSION 0xff03; EchoMain.OPT_PRIVOUT "echo.key"] 0 r E).
  - vm_compute in E. discriminate E.
Defined.

(** ** The zone fragment of a run *)

(** The text of a folded record, split at the parenthesis. *)
Lemma fp_esni_prr_folded (buf : list Z) (typecode : Z) (owner_name text : string) :
  (16 < List.length buf)%nat ->
  Forall (fun b => 0 <= b < 256) buf ->
  Esni.fp_esni_prr buf typecode owner_name = Ok text ->
  exists rdata,
    text = C.cstr owner_name ++ ". IN TYPE" ++ Text.dec typecode ++ " \# "
           ++ Text.dec (Z.of_nat (List.length buf)) ++ " (" ++ rdata
    /\ Read.hex_bytes rdata = Some buf.
Proof.
  intros Hlen Hbuf. unfold Esni.fp_esni_prr.
  destruct (Z.ltb_spec 16 (Z.of_nat (List.length buf))); [|lia].
  destruct (Z.of_nat (C.strlen owner_name) <=? Esni.MAX_ESNI_COVER_NAME);
    [|discriminate].
  intros [= <-].
  exists (Esni.prr_folded (Text.spaces (C.strlen owner_name)) buf 0
          ++ " )" ++ String Text.LF "").
  split; [reflexivity|].
  rewrite hex_bytes_folded; [|apply spaces_layout | exact Hbuf].
  cbn. rewrite app_nil_r. reflexivity.
Qed.

(** The owner name that [fp_esni_prr] is given: the cover name without
    its trailing dot. *)
Lemma owner_name_canonical (o : Esni.options) (name : string) (cnlen : Z)
    (name' : string) :
  Esni.ekversion o = 0xff02 -> Esni.cover_name o = Some name ->
  Esni.check_version o = Ok (cnlen, name') ->
  C.cstr name'
  = if C.ends_with "." (C.cstr name) then AddressList.chop (C.cstr name)
    else C.cstr name.
Proof.
  intros Hv Hn Hver.
  assert (Hlen1 : (1 <= C.strlen name)%nat).
  { destruct (check_version_ff02 o name cnlen name' Hv Hn Hver)
      as (s & d & rest & Hs & _). unfold C.strlen. rewrite Hs, length_append.
    cbn [String.length]. lia. }
  destruct (check_version_ff02_run o name Hv Hn Hlen1)
    as (s & d & rest & Hname & Hs & Hrun).
  rewrite Hver in Hrun.
  destruct (Z.of_nat (C.strlen name) <=? 254); [|discriminate Hrun].
  injection Hrun as _ ->.
  rewrite Hs, ends_with_last, chop_last.
  assert (Hfree : C.cstr s = s).
  { apply (cstr_append_left s (String d "")). rewrite <- Hs. apply cstr_idempotent. }
  destruct (Ascii.eqb d ".").
  - rewrite cstr_append_nul. exact Hfree.
  - rewrite <- Hname. exact Hs.
Qed.

(** X18. The zone fragment of a 0xff02 run is a record for the cover
    name without its trailing dot, of the type [ESNI_RRTYPE], whose
    stated length is the size of the file written and whose hexadecimal
    digits, read in order, are the bytes of that file: the fragment and
    the file carry the same structure.  A 0xff01 run writes no
    fragment. *)
Theorem zone_fragment_matches_file (w : Esni.world) (o : Esni.options)
    (out : Esni.output) :
  Esni.mk_esnikeys w o = Ok out ->
  Forall (fun b => 0 <= b < 256) (Esni.esnikeys out) ->
  (Esni.ekversion o = 0xff01 -> Esni.zonefrag out = None)
  /\ forall name,
       Esni.ekversion o = 0xff02 -> Esni.cover_name o = Some name ->
       exists rdata,
         Esni.zonefrag out
         = Some ((if C.ends_with "." (C.cstr name)
                  then AddressList.chop (C.cstr name) else C.cstr name)
                 ++ ". IN TYPE" ++ Text.dec (Esni.ESNI_RRTYPE w) ++ " \# "
                 ++ Text.dec (Z.of_nat (List.length (Esni.esnikeys out)))
                 ++ " (" ++ rdata)
         /\ Read.hex_bytes rdata = Some (Esni.esnikeys out).
Proof.
  intros H Hrange.
  destruct (mk_esnikeys_zonefrag w o out H) as (cnlen & name' & Hver & Hfrag).
  split.
  - intro Hv. rewrite Hv in Hfrag. exact Hfrag.
  - intros name Hv Hn. rewrite Hv in Hfrag. cbn [Z.eqb Pos.eqb] in Hfrag.
    destruct Hfrag as (frag & Hfp & Hz).
    destruct (mk_esnikeys_length w o out H)
      as (cnlen2 & name2 & extlen & extvals & _ & _ & Hc & He & Hlen).
    rewrite Hv in Hlen. cbn [Z.eqb Pos.eqb] in Hlen.
    assert (H16 : (16 < List.length (Esni.esnikeys out))%nat)
      by (destruct (extlen =? 0); lia).
    destruct (fp_esni_prr_folded _ _ _ _ H16 Hrange Hfp) as (rdata & Htext & Hhex).
    exists rdata. split; [|exact Hhex].
    rewrite Hz, Htext, (owner_name_canonical o name cnlen name' Hv Hn Hver).
    reflexivity.
Qed.

Lemma zone_fragment_matches_file_witness :
  exists out,
    Esni.mk_esnikeys Sample.draft03_world Sample.draft03_options = Ok out
    /\ (Esni.ekversion Sample.draft03_options = 0xff01 -> Esni.zonefrag out = None)
    /\ forall name,
         Esni.ekversion Sample.draft03_options = 0xff02 ->
         Esni.cover_name Sample.draft03_options = Some name ->
         exists rdata,
           Esni.zonefrag out
           = Some ((if C.ends_with "." (C.cstr name)
                    then AddressList.chop (C.cstr name) else C.cstr name)
                   ++ ". IN TYPE" ++ Text.dec (Esni.ESNI_RRTYPE Sample.draft03_world)
                   ++ " \# "
                   ++ Text.dec (Z.of_nat (List.length (Esni.esnikeys out)))
                   ++ " (" ++ rdata)
           /\ Read.hex_bytes rdata = Some (Esni.esnikeys out).
Proof.
  destruct (Esni.mk_esnikeys Sample.draft03_world Sample.draft03_options)
    as [out|f] eqn:E.
  - exists out. split; [reflexivity|].
    apply (zone_fragment_matches_file Sample.draft03_world Sample.draft03_options
             out E).
    assert (Hb : Esni.esnikeys out = Sample.draft03_value).
    { pose proof E as E'. vm_compute in E'. injection E' as <-. reflexivity. }
    rewrite Hb. unfold Sample.draft03_value. repeat constructor; lia.
  - vm_compute in E. discriminate E.
Defined.

(** ** An empty cover name *)

(** X19. With version 0xff02 and an empty cover name ([-P ""]) and a
    duration in range, the version switch reads [cover_name[cnlen-1]]
    with [cnlen] zero, the byte before the string: the run is undefined
    before any address is looked up or any key is made. *)
Theorem empty_cover_name_read_before_start (w : Esni.world) (o : Esni.options)
    (name : string) :
  Esni.ekversion o = 0xff02 -> Esni.cover_name o = Some name ->
  C.strlen name = 0%nat ->
  Esni.minduration <= Esni.duration o < Esni.maxduration ->
  Esni.check_version o = Fail Undefined
  /\ Esni.mk_esnikeys w o = Fail Undefined.
Proof.
  intros Hv Hn Hlen Hdur.
  assert (Hcv : Esni.check_version o = Fail Undefined).
  { unfold Esni.check_version. rewrite Hv, Hn, Hlen. reflexivity. }
  split; [exact Hcv|].
  unfold Esni.mk_esnikeys. rewrite Hcv, Hv. cbn [Z.eqb Pos.eqb andb negb].
  unfold Esni.minduration, Esni.maxduration in *.
  destruct (Z.leb_spec (Esni.duration o) 0); [lia|]. cbn [negb].
  rewrite Z.geb_leb.
  destruct (Z.leb_spec (60 * 60 * 24 * 7 * 52 * 10) (Esni.duration o)); [lia|].
  cbn [negb].
  destruct (Z.ltb_spec (Esni.duration o) 3600); [lia|]. reflexivity.
Qed.

Lemma empty_cover_name_read_before_start_witness :
  let o := {| Esni.pubfname := None; Esni.privfname := None; Esni.fragfname := None;
              Esni.ekversion := 0xff02; Esni.cover_name := Some "";
              Esni.includeaddrset := false; Esni.asetfname := None;
              Esni.duration := 60 * 60 * 24 * 7 |} in
  Esni.check_version o = Fail Undefined
  /\ Esni.mk_esnikeys Sample.draft02_world o = Fail Undefined.
Proof.
  apply (empty_cover_name_read_before_start Sample.draft02_world
           {| Esni.pubfname := None; Esni.privfname := None; Esni.fragfname := None;
              Esni.ekversion := 0xff02; Esni.cover_name := Some "";
              Esni.includeaddrset := false; Esni.asetfname := None;
              Esni.duration := 60 * 60 * 24 * 7 |} "").
  - reflexivity.
  - reflexivity.
  - reflexivity.
  - vm_compute. split; [discriminate | reflexivity].
Defined.

(** ** The addresses in the AddressSet *)

(** One turn of the loop of lines 468-498. *)
Lemma addrs_loop_step (pton : Esni.family -> string -> option (list Z))
    (ip : string) (rest : list string) (t0 : list Z) :
  (List.length t0 + 17 <= 924)%nat ->
  Esni.addrs_loop pton (ip :: rest) t0
  = match pton (AddressList.family_of ip) ip with
    | None => Fail AddressParseError
    | Some a =>
        if AddressList.parses pton ip
        then Esni.addrs_loop pton rest (t0 ++ AddressList.entry pton ip)
        else Fail Undefined
    end.
Proof.
  intro Hroom. cbn [Esni.addrs_loop].
  unfold AddressList.parses, AddressList.entry, AddressList.family_of.
  unfold Writer.put_u8, Esni.MAX_ESNIKEYS_BUFLEN.
  destruct (Nat.ltb_spec (List.length t0) 1024); [|lia].
  cbn [defined bind].
  destruct (C.strrchr_found ip ":");
    cbn [AddressList.address_size AddressList.tag].
  - destruct (pton Esni.AF_INET6 ip) as [a|]; [|reflexivity].
    unfold Writer.put_bytes. rewrite length_app. cbn [List.length].
    destruct (Nat.leb_spec 16 (List.length a)); cbn [andb]; [|reflexivity].
    destruct (Nat.leb_spec (List.length t0 + 1 + 16) 1024); [|lia].
    cbn [defined bind]. rewrite !length_app, length_firstn. cbn [List.length].
    destruct (Z.leb_spec (Z.of_nat (List.length t0 + 1 + Nat.min 16 (List.length a)))
                (Z.of_nat 1024 - 100)); [|lia].
    rewrite <- app_assoc. reflexivity.
  - destruct (pton Esni.AF_INET ip) as [a|]; [|reflexivity].
    unfold Writer.put_bytes. rewrite length_app. cbn [List.length].
    destruct (Nat.leb_spec 4 (List.length a)); cbn [andb]; [|reflexivity].
    destruct (Nat.leb_spec (List.length t0 + 1 + 4) 1024); [|lia].
    cbn [defined bind]. rewrite !length_app, length_firstn. cbn [List.length].
    destruct (Z.leb_spec (Z.of_nat (List.length t0 + 1 + Nat.min 4 (List.length a)))
                (Z.of_nat 1024 - 100)); [|lia].
    rewrite <- app_assoc. reflexivity.
Qed.

Lemma entry_length (pton : Esni.family -> string -> option (list Z)) (ip : string) :
  (List.length (AddressList.entry pton ip) <= 17)%nat.
Proof.
  unfold AddressList.entry.
  destruct (pton (AddressList.family_of ip) ip) as [a|]; [|cbn; lia].
  cbn [List.length]. rewrite length_firstn.
  destruct (AddressList.family_of ip); cbn [AddressList.address_size]; lia.
Qed.

Lemma addrs_loop_entries (pton : Esni.family -> string -> option (list Z))
    (ips : list string) (t0 : list Z) :
  (List.length t0 + 17 * List.length ips <= 924)%nat ->
  Esni.addrs_loop pton ips t0
  = if forallb (AddressList.parses pton) ips
    then Ok (t0 ++ List.concat (List.map (AddressList.entry pton) ips))%list
    else match find (fun ip => negb (AddressList.parses pton ip)) ips with
         | Some ip =>
             match pton (AddressList.family_of ip) ip with
             | None => Fail AddressParseError
             | Some _ => Fail Undefined
             end
         | None => Fail Undefined
         end.
Proof.
  revert t0. induction ips as [|ip rest IH]; intros t0 Hroom.
  - cbn. rewrite app_nil_r. reflexivity.
  - cbn [List.length] in Hroom.
    rewrite addrs_loop_step by lia.
    cbn [forallb find List.map List.concat].
    destruct (AddressList.parses pton ip) eqn:Ep; cbn [andb negb].
    + assert (Ha : exists a, pton (AddressList.family_of ip) ip = Some a).
      { unfold AddressList.parses in Ep.
        destruct (pton (AddressList.family_of ip) ip) as [a|];
          [exists a; reflexivity | discriminate Ep]. }
      destruct Ha as [a ->].
      pose proof (entry_length pton ip) as He.
      rewrite IH by (rewrite length_app; lia).
      rewrite <- app_assoc. reflexivity.
    + destruct (pton (AddressList.family_of ip) ip); reflexivity.
Qed.

(** X20. The addresses of the AddressSet are those of the list, in the
    order in which they were accepted, each as one byte 0x06 and 16
    bytes when its text has a colon and as 0x04 and 4 bytes otherwise.
    The loop completes exactly when [inet_pton] parses every address in
    the family chosen that way; the first one it does not parse ends the
    run. *)
Theorem address_set_lists_the_addresses
    (pton : Esni.family -> string -> option (list Z)) (ips : list string) :
  (List.length ips <= 16)%nat ->
  (forallb (AddressList.parses pton) ips = true ->
   Esni.addrs_loop pton ips []
   = Ok (List.concat (List.map (AddressList.entry pton) ips)))
  /\ (forall t, Esni.addrs_loop pton ips [] = Ok t ->
        forallb (AddressList.parses pton) ips = true)
  /\ (forall ip, find (fun ip => negb (AddressList.parses pton ip)) ips = Some ip ->
        pton (AddressList.family_of ip) ip = None ->
        Esni.addrs_loop pton ips [] = Fail AddressParseError).
Proof.
  intro Hlen.
  pose proof (addrs_loop_entries pton ips [] ltac:(cbn [List.length]; lia)) as H.
  cbn [app] in H. split; [|split].
  - intro Hall. rewrite H, Hall. reflexivity.
  - intros t Ht. rewrite H in Ht.
    destruct (forallb (AddressList.parses pton) ips); [reflexivity|].
    destruct (find _ ips) as [ip|]; [|discriminate Ht].
    destruct (pton (AddressList.family_of ip) ip); discriminate Ht.
  - intros ip Hfind Hnone. rewrite H.
    destruct (forallb (AddressList.parses pton) ips) eqn:Hall.
    + exfalso. apply find_some in Hfind. destruct Hfind as [Hin Hneg].
      rewrite forallb_forall in Hall. rewrite (Hall ip Hin) in Hneg.
      discriminate Hneg.
    + rewrite Hfind, Hnone. reflexivity.
Qed.

Lemma address_set_lists_the_addresses_witness :
  let pton := fun _ : Esni.family => Sample.lookup Sample.draft03_addresses in
  let ips := List.map fst Sample.draft03_addresses in
  (forallb (AddressList.parses pton) ips = true ->
   Esni.addrs_loop pton ips []
   = Ok (List.concat (List.map (AddressList.entry pton) ips)))
  /\ (forall t, Esni.addrs_loop pton ips [] = Ok t ->
        forallb (AddressList.parses pton) ips = true)
  /\ (forall ip, find (fun ip => negb (AddressList.parses pton ip)) ips = Some ip ->
        pton (AddressList.family_of ip) ip = None ->
        Esni.addrs_loop pton ips [] = Fail AddressParseError).
Proof.
  apply (address_set_lists_the_addresses
           (fun _ : Esni.family => Sample.lookup Sample.draft03_addresses)
           (List.map fst Sample.draft03_addresses)).
  cbn. lia.
Defined.

(** ** The PEM file *)

Lemma BIO_write_text (text : list Z) :
  EchoMain.BIO_write (text ++ [0])%list (Z.of_nat (List.length text)) = Some text.
Proof.
  unfold EchoMain.BIO_write. rewrite Nat2Z.id, length_app. cbn [List.length].
  destruct (Nat.leb_spec (List.length text) (List.length text + 1)); [|lia].
  rewrite firstn_app, firstn_all, Nat.sub_diag. cbn [firstn]. rewrite app_nil_r.
  reflexivity.
Qed.

(** X21. A run that names neither [-pubout] nor [-privout] and whose
    text fits writes one file, [echoconfig.pem] unless [-pemout] names
    another: the bytes of the private key as [hpke_kg] left them, the
    line [-----BEGIN ECHOCONFIG-----] right after them, the Base64 text
    of the structure on one line, and the line
    [-----END ECHOCONFIG-----]; it returns 1. *)
Theorem pem_file_contents (p : Echo.platform) (BIO_new_file : string -> bool)
    (opts : list EchoMain.OPTION_CHOICE) (s : EchoMain.settings) (bbuf : list Z) :
  EchoMain.opt_loop opts EchoMain.initial = Some s ->
  EchoMain.echo_version s = 0xff03 ->
  EchoMain.has_target s = false ->
  Echo.echoconfig_binary p 0xff03 (EchoMain.public_name s) false = Ok bbuf ->
  (List.length (Echo.EVP_EncodeBlock p bbuf) + 1 < Echo.MAX_ECHOCONFIGS_BUFLEN p)%nat ->
  Z.of_nat (Echo.MAX_ECHOCONFIGS_BUFLEN p) < 2 ^ 64 ->
  (Z.to_nat (Echo.kg_privlen (Echo.hpke_kg p))
   <= List.length (Echo.kg_priv (Echo.hpke_kg p)))%nat ->
  let pem := match EchoMain.pemfile s with
             | Some f => f
             | None => "echoconfig.pem"
             end in
  BIO_new_file pem = true ->
  EchoMain.echo_main p BIO_new_file opts 0
  = Ok {| EchoMain.returned := 1;
          EchoMain.written :=
            [(pem,
              (firstn (Z.to_nat (Echo.kg_privlen (Echo.hpke_kg p)))
                 (Echo.kg_priv (Echo.hpke_kg p))
               ++ EchoMain.begin_line
               ++ Echo.EVP_EncodeBlock p bbuf ++ [C.char_code Text.LF]
               ++ EchoMain.end_line)%list)] |}.
Proof.
  intros Hs Hv Ht Hb Hroom Hmax Hpriv pem Hopen.
  rewrite (echo_main_ff03 p BIO_new_file opts s Hs Hv).
  rewrite (mk_echoconfig_decision p 0xff03 (EchoMain.public_name s)
             (Echo.MAX_ECHOCONFIGS_BUFLEN p)
             (Z.of_nat (Echo.MAX_ECHOCONFIGS_BUFLEN p)) bbuf Hb) by lia.
  unfold Echo.size_t. rewrite !Z.mod_small by lia.
  destruct (Z.geb_spec (Z.of_nat (List.length (Echo.EVP_EncodeBlock p bbuf)))
              (Z.of_nat (Echo.MAX_ECHOCONFIGS_BUFLEN p) - 1)); [lia|].
  unfold EchoMain.write_files, EchoMain.has_target in *.
  destruct (EchoMain.keyfile s); [discriminate Ht|].
  destruct (EchoMain.echoconfig_file s); [discriminate Ht|].
  cbn [bind Echo.echoconfig Echo.echoconfig_len Echo.priv Echo.privlen app].
  fold pem. rewrite Hopen, BIO_write_text.
  unfold EchoMain.BIO_write.
  destruct (Nat.leb_spec (Z.to_nat (Echo.kg_privlen (Echo.hpke_kg p)))
              (List.length (Echo.kg_priv (Echo.hpke_kg p)))); [|lia].
  reflexivity.
Qed.

Lemma pem_file_contents_witness :
  exists bbuf,
    Echo.echoconfig_binary Sample.platform 0xff03 None false = Ok bbuf
    /\ EchoMain.echo_main Sample.platform (fun _ => true) [] 0
       = Ok {| EchoMain.returned := 1;
               EchoMain.written :=
                 [("echoconfig.pem",
                   (firstn (Z.to_nat (Echo.kg_privlen (Echo.hpke_kg Sample.platform)))
                      (Echo.kg_priv (Echo.hpke_kg Sample.platform))
                    ++ EchoMain.begin_line
                    ++ Echo.EVP_EncodeBlock Sample.platform bbuf
                    ++ [C.char_code Text.LF]
                    ++ EchoMain.end_line)%list)] |}.
Proof.
  destruct (Echo.echoconfig_binary Sample.platform 0xff03 None false)
    as [bbuf|f] eqn:E.
  - exists bbuf. split; [reflexivity|].
    apply (pem_file_contents Sample.platform (fun _ => true) [] EchoMain.initial bbuf
             eq_refl eq_refl eq_refl E).
    + pose proof E as E'. vm_compute in E'. injection E' as <-. vm_compute. lia.
    + reflexivity.
    + vm_compute. lia.
    + reflexivity.
  - vm_compute in E. discriminate E.
Defined.

(** ** An AddressSet without addresses *)

Lemma add_lines_comments (lines ips : list string) :
  forallb AddressList.is_comment lines = true ->
  Esni.add_lines lines ips = Ok ips.
Proof.
  induction lines as [|line rest IH]; intro H; [reflexivity|].
  cbn [forallb] in H. apply andb_true_iff in H. destruct H as [Hc Hrest].
  cbn [Esni.add_lines]. unfold AddressList.is_comment in Hc. rewrite Hc.
  exact (IH Hrest).
Qed.

(** The address step when no address comes in. *)
Lemma address_set_empty (w : Esni.world) (o : Esni.options)
    (cnlen : Z) (name : string) :
  Esni.ekversion o = 0xff02 -> Esni.includeaddrset o = true ->
  (exists fname lines,
      Esni.asetfname o = Some fname
      /\ Esni.address_file w fname = Some lines
      /\ forallb AddressList.is_comment lines = true)
  \/ (Esni.asetfname o = None /\ cnlen <> 0
      /\ Esni.resolve w (C.cstr name) = Some []) ->
  Esni.address_set w o cnlen name
  = if Esni.malloc w 6 then Ok (6, [0x00; 0x03; 0x10; 0x01; 0x00; 0x00])
    else Fail NoMemoryForExtension.
Proof.
  intros Hv Ha Hsrc. unfold Esni.address_set. rewrite Hv, Ha.
  cbn [Z.eqb Pos.eqb andb].
  destruct Hsrc as [(fname & lines & -> & -> & Hc)|(-> & Hn & ->)].
  - rewrite (add_lines_comments lines [] Hc).
    cbn [bind Esni.addrs_loop Esni.addrset_extvals List.length Z.of_nat Nat.add].
    destruct (Esni.malloc w 6); reflexivity.
  - destruct (Z.eqb_spec cnlen 0); [contradiction|].
    cbn [negb bind Esni.add_all Esni.addrs_loop Esni.addrset_extvals List.length
         Z.of_nat Nat.add].
    destruct (Esni.malloc w 6); reflexivity.
Qed.

(** X22. When the address file holds only comment lines, or none, or
    when the resolver returns no address for the cover name, a run that
    completes has written an AddressSet extension with no address in
    it: the structure has 74 bytes and those of the cover name, and its
    last six bytes, where the extensions are, are [00 03 10 01 00 00]. *)
Theorem address_set_without_addresses (w : Esni.world) (o : Esni.options)
    (out : Esni.output) (name : string) :
  Esni.mk_esnikeys w o = Ok out ->
  Esni.includeaddrset o = true ->
  Esni.cover_name o = Some name ->
  (exists fname lines,
      Esni.asetfname o = Some fname
      /\ Esni.address_file w fname = Some lines
      /\ forallb AddressList.is_comment lines = true)
  \/ (Esni.asetfname o = None
      /\ Esni.resolve w (if C.ends_with "." (C.cstr name)
                         then AddressList.chop (C.cstr name) else C.cstr name)
         = Some []) ->
  List.length (Esni.esnikeys out) = (74 + C.strlen name)%nat
  /\ skipn (68 + C.strlen name) (Esni.esnikeys out)
     = [0x00; 0x03; 0x10; 0x01; 0x00; 0x00].
Proof.
  intros H Ha Hn Hsrc.
  destruct (mk_esnikeys_layout w o out H)
    as (cnlen & name' & extlen & extvals & public & cksum
        & Hver & Hext & Hkey & Hck & Hpub & Hv & Hcn & Hdur & _ & Hout & Hnf).
  assert (Hv2 : Esni.ekversion o = 0xff02).
  { destruct Hv as [Hv|Hv]; [|exact Hv].
    unfold Esni.mk_esnikeys in H. step_check H E1. step_check H E2.
    rewrite Hv, Ha in E2. discriminate E2. }
  destruct (check_version_ff02 o name cnlen name' Hv2 Hn Hver)
    as (s & d & rest & Hs & Hcnlen & _ & _).
  assert (Hstr : cnlen = Z.of_nat (C.strlen name)).
  { unfold C.strlen. rewrite Hs, length_append. exact Hcnlen. }
  assert (Hsrc' :
    (exists fname lines,
        Esni.asetfname o = Some fname
        /\ Esni.address_file w fname = Some lines
        /\ forallb AddressList.is_comment lines = true)
    \/ (Esni.asetfname o = None /\ cnlen <> 0
        /\ Esni.resolve w (C.cstr name') = Some [])).
  { destruct Hsrc as [Hfile|[Hnone Hres]]; [left; exact Hfile|].
    right. split; [exact Hnone|]. split; [lia|].
    rewrite (owner_name_canonical o name cnlen name' Hv2 Hn Hver). exact Hres. }
  rewrite (address_set_empty w o cnlen name' Hv2 Ha Hsrc') in Hext.
  destruct (Esni.malloc w 6); [|discriminate Hext].
  injection Hext as <- <-.
  change (if 6 =? 0 then [0; 0] else firstn (Z.to_nat 6) [0; 3; 16; 1; 0; 0])
    with [0; 3; 16; 1; 0; 0] in Hout.
  set (fields := Read.laid_out (Esni.ekversion o) cksum
                   (firstn (Z.to_nat cnlen) (C.bytes_of name')) (firstn 32 public)
                   (Read.time_bytes (Esni.clock w - 1))
                   (Read.time_bytes (Esni.clock w - 1 + Esni.duration o))) in *.
  destruct (mk_esnikeys_length w o out H)
    as (cnlen2 & name2 & extlen2 & extvals2 & Hver2 & Hext2 & _ & _ & Hlen).
  rewrite Hver in Hver2. injection Hver2 as <- <-.
  rewrite (address_set_empty w o cnlen name' Hv2 Ha Hsrc') in Hext2.
  destruct (Esni.malloc w 6); [|discriminate Hext2].
  injection Hext2 as <- <-.
  rewrite Hv2 in Hlen. cbn [Z.eqb Pos.eqb] in Hlen.
  assert (Hfields : List.length fields = (68 + C.strlen name)%nat).
  { rewrite Hout, length_app in Hlen. cbn [List.length] in Hlen. lia. }
  split.
  - rewrite Hout, length_app, Hfields. cbn [List.length]. lia.
  - rewrite Hout, <- Hfields, skipn_app, skipn_all, Nat.sub_diag. reflexivity.
Qed.

Lemma address_set_without_addresses_witness :
  let w := {| Esni.ESNI_RRTYPE := 0xffdf; Esni.clock := 1;
              Esni.address_file := fun _ => Some ["# none yet" ++ String Text.LF ""];
              Esni.resolve := Sample.no_resolver;
              Esni.inet_pton := Sample.no_addresses;
              Esni.malloc := Sample.every_allocation;
              Esni.encodedpoint := fun _ => Ok Sample.draft03_key;
              Esni.OPENSSL_malloc := Sample.every_allocation;
              Esni.SHA256 := Sample.sha256;
              Esni.fopen_w := Sample.every_file;
              Esni.fwrite := Sample.all_bytes |} in
  let o := {| Esni.pubfname := None; Esni.privfname := None; Esni.fragfname := None;
              Esni.ekversion := 0xff02; Esni.cover_name := Some "example.com";
              Esni.includeaddrset := true; Esni.asetfname := Some "addresses.txt";
              Esni.duration := 60 * 60 * 24 * 7 |} in
  exists out,
    Esni.mk_esnikeys w o = Ok out
    /\ List.length (Esni.esnikeys out) = (74 + C.strlen "example.com")%nat
    /\ skipn (68 + C.strlen "example.com") (Esni.esnikeys out)
       = [0x00; 0x03; 0x10; 0x01; 0x00; 0x00].
Proof.
  intros w o.
  destruct (Esni.mk_esnikeys w o) as [out|f] eqn:E.
  - exists out. split; [reflexivity|].
    apply (address_set_without_addresses w o out "example.com" E).
    + reflexivity.
    + reflexivity.
    + left. exists "addresses.txt", ["# none yet" ++ String Text.LF ""].
      repeat split.
  - vm_compute in E. discriminate E.
Defined.

(** ** The Base64 text and the array it goes to *)

(** A structure that fits [bbuf] is built, and has the size counted
    from the stores. *)
Lemma echoconfig_binary_fits (p : Echo.platform) (public_name : option string) :
  Echo.kg_rv (Echo.hpke_kg p) = 1 ->
  (32 <= List.length (Echo.kg_pub (Echo.hpke_kg p)))%nat ->
  (if 0 <? Echo.name_length public_name
   then 52 + Echo.name_length public_name else 50)
  <= Z.of_nat (Echo.MAX_ECHOCONFIGS_BUFLEN p) ->
  exists bbuf,
    Echo.echoconfig_binary p 0xff03 public_name false = Ok bbuf
    /\ Z.of_nat (List.length bbuf)
       = if 0 <? Echo.name_length public_name
         then 52 + Echo.name_length public_name else 50.
Proof.
  intros Hrv Hpub Hfit.
  destruct (echoconfig_bytes_length p public_name Hpub) as [Hreads Hlen].
  unfold Echo.echoconfig_binary. cbn [Z.eqb Pos.eqb orb bind negb].
  rewrite Hrv. cbn [Z.eqb Pos.eqb].
  rewrite (echoconfig_body_emits p 0xff03 (Echo.name_length public_name)
             (Echo.name_storage public_name) (Echo.kg_pub (Echo.hpke_kg p))
             [] (Nat.le_0_l _)).
  rewrite Hreads. cbn [andb List.length Nat.add app].
  set (bytes := Echo.echoconfig_bytes p 0xff03 (Echo.name_length public_name)
                  (Echo.name_storage public_name) (Echo.kg_pub (Echo.hpke_kg p))) in *.
  assert (Hsize : (if 0 <? Echo.name_length public_name
                   then 52 + Echo.name_length public_name else 50)
                  = Z.of_nat (List.length bytes) + 2).
  { rewrite Hlen. destruct (0 <? Echo.name_length public_name); lia. }
  rewrite Hsize in *.
  destruct (Nat.leb_spec (List.length bytes) (Echo.MAX_ECHOCONFIGS_BUFLEN p)); [|lia].
  cbn [defined bind]. unfold Writer.seq, Writer.put_u8.
  destruct (Nat.ltb_spec (List.length bytes) (Echo.MAX_ECHOCONFIGS_BUFLEN p)); [|lia].
  rewrite length_app. cbn [List.length].
  destruct (Nat.ltb_spec (List.length bytes + 1) (Echo.MAX_ECHOCONFIGS_BUFLEN p)); [|lia].
  eexists. split; [reflexivity|].
  rewrite !length_app. cbn [List.length]. lia.
Qed.

(** Such a name exists for every size of the array from 53 bytes on:
    the longest one whose structure still fits. *)
Lemma a_name_for_every_size (M : nat) :
  (53 <= M)%nat ->
  (1 <= M - 52
   /\ 52 + (M - 52) <= M
   /\ M < 4 * ((52 + (M - 52) + 2) / 3) + 1)%nat.
Proof.
  intro HM. split; [lia|]. split; [lia|].
  replace (52 + (M - 52) + 2)%nat with (M + 2)%nat by lia.
  pose proof (Nat.div_mod_eq (M + 2) 3) as Hd.
  pose proof (Nat.mod_upper_bound (M + 2) 3 ltac:(lia)) as Hr.
  lia.
Qed.

(** C7, on the code.  [mk_echoconfig] is called from [echo_main] only,
    with an array of [MAX_ECHOCONFIGS_BUFLEN] bytes for the text, the
    size of the array of the binary structure.  [EVP_EncodeBlock], which
    writes four characters for every three bytes or part of three and a
    NUL, stores the text at line 179, before the length is looked at in
    line 180.  So for a public name of [L] characters whose structure of
    [52 + L] bytes fits its array while the text and the NUL do not fit
    theirs, the rendering does not fail with the line number 181: the
    text is written past the end of the array.  Whatever the value
    [M >= 53] of the constant, the name of [M - 52] characters is such a
    name ([a_name_for_every_size]). *)
Theorem text_stored_before_length_test (p : Echo.platform)
    (BIO_new_file : string -> bool) (opts : list EchoMain.OPTION_CHOICE)
    (s : EchoMain.settings) (name : string) :
  EchoMain.opt_loop opts EchoMain.initial = Some s ->
  EchoMain.echo_version s = 0xff03 ->
  EchoMain.public_name s = Some name ->
  Echo.kg_rv (Echo.hpke_kg p) = 1 ->
  (32 <= List.length (Echo.kg_pub (Echo.hpke_kg p)))%nat ->
  (forall b, List.length (Echo.EVP_EncodeBlock p b)
             = (4 * ((List.length b + 2) / 3))%nat) ->
  (1 <= C.strlen name)%nat ->
  (52 + C.strlen name <= Echo.MAX_ECHOCONFIGS_BUFLEN p)%nat ->
  (Echo.MAX_ECHOCONFIGS_BUFLEN p < 4 * ((52 + C.strlen name + 2) / 3) + 1)%nat ->
  (exists bbuf,
      Echo.echoconfig_binary p 0xff03 (Some name) false = Ok bbuf
      /\ List.length bbuf = (52 + C.strlen name)%nat
      /\ (Echo.MAX_ECHOCONFIGS_BUFLEN p
          < List.length (Echo.EVP_EncodeBlock p bbuf) + 1)%nat)
  /\ Echo.mk_echoconfig p 0xff03 (Some name) (Echo.MAX_ECHOCONFIGS_BUFLEN p)
       (Z.of_nat (Echo.MAX_ECHOCONFIGS_BUFLEN p)) false = Fail Undefined
  /\ EchoMain.echo_main p BIO_new_file opts 0 = Fail Undefined.
Proof.
  intros Hs Hv Hname Hrv Hpub Hb64 HL Hfit Hover.
  assert (Hpos : (0 <? Echo.name_length (Some name)) = true).
  { apply Z.ltb_lt. cbn [Echo.name_length]. lia. }
  destruct (echoconfig_binary_fits p (Some name) Hrv Hpub) as (bbuf & Hb & Hlen).
  { rewrite Hpos. cbn [Echo.name_length]. lia. }
  rewrite Hpos in Hlen. cbn [Echo.name_length] in Hlen.
  assert (Hlen' : List.length bbuf = (52 + C.strlen name)%nat) by lia.
  assert (Htext : (Echo.MAX_ECHOCONFIGS_BUFLEN p
                   < List.length (Echo.EVP_EncodeBlock p bbuf) + 1)%nat).
  { rewrite Hb64, Hlen'. exact Hover. }
  assert (Hmk : Echo.mk_echoconfig p 0xff03 (Some name) (Echo.MAX_ECHOCONFIGS_BUFLEN p)
                  (Z.of_nat (Echo.MAX_ECHOCONFIGS_BUFLEN p)) false = Fail Undefined).
  { exact (mk_echoconfig_overflow p 0xff03 (Some name) _ _ bbuf Hb Htext). }
  split; [exists bbuf; repeat split; assumption|].
  split; [exact Hmk|].
  rewrite (echo_main_ff03 p BIO_new_file opts s Hs Hv), Hname, Hmk. reflexivity.
Qed.

(** The witness of C7: [-public_name] with 1450 letters where
    [MAX_ECHOCONFIGS_BUFLEN] is 2000: a structure of 1502 bytes, a text
    of 2004 characters. *)
Lemma text_stored_before_length_test_witness :
  (exists bbuf,
      Echo.echoconfig_binary Sample.platform 0xff03 (Some (Inputs.letters 1450)) false
      = Ok bbuf
      /\ List.length bbuf = (52 + C.strlen (Inputs.letters 1450))%nat
      /\ (Echo.MAX_ECHOCONFIGS_BUFLEN Sample.platform
          < List.length (Echo.EVP_EncodeBlock Sample.platform bbuf) + 1)%nat)
  /\ Echo.mk_echoconfig Sample.platform 0xff03 (Some (Inputs.letters 1450))
       (Echo.MAX_ECHOCONFIGS_BUFLEN Sample.platform)
       (Z.of_nat (Echo.MAX_ECHOCONFIGS_BUFLEN Sample.platform)) false = Fail Undefined
  /\ EchoMain.echo_main Sample.platform (fun _ => true)
       [EchoMain.OPT_PUBLICNAME (Inputs.letters 1450)] 0 = Fail Undefined.
Proof.
  apply (text_stored_before_length_test Sample.platform (fun _ => true)
           [EchoMain.OPT_PUBLICNAME (Inputs.letters 1450)]
           {| EchoMain.echoconfig_file := None; EchoMain.keyfile := None;
              EchoMain.pemfile := None;
              EchoMain.public_name := Some (Inputs.letters 1450);
              EchoMain.echo_version := 0xff03 |}
           (Inputs.letters 1450)).
  - reflexivity.
  - reflexivity.
  - reflexivity.
  - reflexivity.
  - cbn. lia.
  - exact base64_length.
  - vm_compute. lia.
  - vm_compute. lia.
  - vm_compute. lia.
Defined.
